(** * CommentSense analysis engine: a shallow embedding and its properties

    The development follows the TypeScript sources of the repository:
    the [CommentAnalyzer] class (sentiment, category, spam, keyword
    extraction, video analysis, metrics aggregation, CSV parsing and data
    cleaning) and [detectFileType] of the upload component.

    Conventions.
    - A JavaScript string is the list of its UTF-16 code units.
    - A JavaScript number is an IEEE 754 binary64 value, taken from
      [SpecFloat] with precision 53 and maximal exponent 1024; quantities
      that the code only ever increments by one (counters, lengths) are kept
      in [nat] or [Z] and converted when they enter a division.
    - A JavaScript object used as a dictionary is the list of its own
      properties in creation order; [Object.entries] is computed from it.
    - What the host environment decides (Unicode case mapping, parsing of
      time stamps in the local time zone) is a parameter of the engine. *)

From Stdlib Require Import List ZArith NArith Bool Lia String Ascii.
From Stdlib Require Import Sorting.Permutation Sorting.Sorted.
From Stdlib Require Import Floats.SpecFloat.
Import ListNotations.

Local Open Scope bool_scope.

(** ** Strings as sequences of UTF-16 code units *)

Definition jsstring := list N.

(** An ASCII literal of the source, as a JavaScript string. *)
Definition lit (s : string) : jsstring :=
  map N_of_ascii (list_ascii_of_string s).

Fixpoint str_eqb (a b : jsstring) : bool :=
  match a, b with
  | [], [] => true
  | x :: a', y :: b' => N.eqb x y && str_eqb a' b'
  | _, _ => false
  end.

Fixpoint startsWith (s pat : jsstring) : bool :=
  match pat, s with
  | [], _ => true
  | p :: pat', c :: s' => N.eqb c p && startsWith s' pat'
  | _ :: _, [] => false
  end.

(** [includes s pat] is [s.includes(pat)]. *)
Fixpoint includes (s pat : jsstring) : bool :=
  startsWith s pat ||
  match s with
  | [] => false
  | _ :: s' => includes s' pat
  end.

Definition mem_str (x : jsstring) (l : list jsstring) : bool :=
  existsb (str_eqb x) l.

Definition in_range (lo hi c : N) : bool := N.leb lo c && N.leb c hi.

(** WhiteSpace and LineTerminator of ECMAScript: the characters removed by
    [String.prototype.trim] and matched by the regular expression class
    [\s]. *)
Definition isWhiteSpace (c : N) : bool :=
  in_range 9 13 c || N.eqb c 32 || N.eqb c 160 || N.eqb c 5760 ||
  in_range 8192 8202 c || N.eqb c 8232 || N.eqb c 8233 || N.eqb c 8239 ||
  N.eqb c 8287 || N.eqb c 12288 || N.eqb c 65279.

(** The class [\w] (no [i] or [u] flag): ASCII letters, digits, underscore. *)
Definition isWordChar (c : N) : bool :=
  in_range 65 90 c || in_range 97 122 c || in_range 48 57 c || N.eqb c 95.

Definition isDigit (c : N) : bool := in_range 48 57 c.

Fixpoint dropWhile {A : Type} (p : A -> bool) (l : list A) : list A :=
  match l with
  | [] => []
  | x :: l' => if p x then dropWhile p l' else l
  end.

Definition trimStart (s : jsstring) : jsstring := dropWhile isWhiteSpace s.
Definition trimEnd (s : jsstring) : jsstring :=
  rev (dropWhile isWhiteSpace (rev s)).
Definition trim (s : jsstring) : jsstring := trimEnd (trimStart s).

(** [s.split(sep)] for a separator of one code unit. *)
Fixpoint splitOn (sep : N) (s : jsstring) : list jsstring :=
  match s with
  | [] => [[]]
  | c :: s' =>
      if N.eqb c sep then [] :: splitOn sep s'
      else match splitOn sep s' with
           | l :: ls => (c :: l) :: ls
           | [] => [[c]]
           end
  end.

(** [s.split(/\s+/)]: the fields between maximal runs of white space. *)
Fixpoint splitSpaces (s : jsstring) : list jsstring :=
  match s with
  | [] => [[]]
  | c :: s' =>
      if isWhiteSpace c then
        match s' with
        | d :: _ => if isWhiteSpace d then splitSpaces s' else [] :: splitSpaces s'
        | [] => [] :: splitSpaces s'
        end
      else match splitSpaces s' with
           | l :: ls => (c :: l) :: ls
           | [] => [[c]]
           end
  end.

(** [s.split(/[...]+/)] for a character class [p]: the fields between
    maximal runs of characters of the class. *)
Fixpoint splitRuns (p : N -> bool) (s : jsstring) : list jsstring :=
  match s with
  | [] => [[]]
  | c :: s' =>
      if p c then
        match s' with
        | d :: _ => if p d then splitRuns p s' else [] :: splitRuns p s'
        | [] => [] :: splitRuns p s'
        end
      else match splitRuns p s' with
           | l :: ls => (c :: l) :: ls
           | [] => [[c]]
           end
  end.

(** A truthy string is a non-empty one. *)
Definition truthy_str (s : jsstring) : bool :=
  match s with [] => false | _ :: _ => true end.

(** [a || b] on strings. *)
Definition or_str (a b : jsstring) : jsstring := if truthy_str a then a else b.

(** Decimal digits of a natural number, as [String(n)] prints an integer. *)
Fixpoint digits_fuel (fuel : nat) (n : N) (acc : jsstring) : jsstring :=
  match fuel with
  | O => acc
  | S fuel' =>
      let acc' := (48 + N.modulo n 10)%N :: acc in
      if N.ltb n 10 then acc' else digits_fuel fuel' (N.div n 10) acc'
  end.

Definition decimal (n : N) : jsstring :=
  digits_fuel (S (N.to_nat (N.log2 n))) n [].

(** ** Numbers: IEEE 754 binary64 *)

Definition number := spec_float.
Definition prec : Z := 53.
Definition emax : Z := 1024.

Definition num_add : number -> number -> number := SFadd prec emax.
Definition num_sub : number -> number -> number := SFsub prec emax.
Definition num_mul : number -> number -> number := SFmul prec emax.
Definition num_div : number -> number -> number := SFdiv prec emax.
Definition num_ltb : number -> number -> bool := SFltb.
Definition num_leb : number -> number -> bool := SFleb.
Definition num_eqb : number -> number -> bool := SFeqb.

(** [a > b] of the source is [num_gtb a b]. *)
Definition num_gtb (a b : number) : bool := SFltb b a.

Definition zero : number := S754_zero false.
Definition NaN : number := S754_nan.

(** The number an integer converts to (round to nearest, ties to even). *)
Definition of_Z (z : Z) : number := binary_normalize prec emax z 0 false.
Definition of_nat (n : nat) : number := of_Z (Z.of_nat n).

(** The value of the decimal literal [n/d] of the source text, for example
    [dec 3 10] for [0.3]: the quotient of two exactly representable
    integers, correctly rounded. *)
Definition dec (n d : Z) : number := num_div (of_Z n) (of_Z d).

Definition isNaN (x : number) : bool :=
  match x with S754_nan => true | _ => false end.

Definition isFinite (x : number) : bool :=
  match x with S754_zero _ | S754_finite _ _ _ => true | _ => false end.

(** ToBoolean on a number: [0], [-0] and [NaN] are falsy. *)
Definition truthy_num (x : number) : bool :=
  match x with S754_zero _ | S754_nan => false | _ => true end.

(** [a || b] on numbers. *)
Definition or_num (a b : number) : number := if truthy_num a then a else b.

Definition is_neg_zero (x : number) : bool :=
  match x with S754_zero true => true | _ => false end.

(** [Math.min] and [Math.max] of two arguments. *)
Definition math_min (a b : number) : number :=
  if isNaN a || isNaN b then NaN
  else if num_ltb a b then a
  else if num_ltb b a then b
  else if is_neg_zero a then a else b.

Definition math_max (a b : number) : number :=
  if isNaN a || isNaN b then NaN
  else if num_ltb a b then b
  else if num_ltb b a then a
  else if is_neg_zero a then b else a.

(** [Number.parseInt(s)] with no radix argument: leading white space is
    skipped, then an optional sign, an optional [0x] prefix selecting radix
    16, and the longest run of digits; no digit gives [NaN]. *)
Definition digitValue (radix c : N) : option N :=
  let v := if in_range 48 57 c then Some (c - 48)%N
           else if in_range 97 122 c then Some (c - 87)%N
           else if in_range 65 90 c then Some (c - 55)%N
           else None in
  match v with
  | Some d => if N.ltb d radix then Some d else None
  | None => None
  end.

Fixpoint readDigits (radix : N) (s : jsstring) (seen : bool) (acc : N)
  : option N :=
  match s with
  | [] => if seen then Some acc else None
  | c :: s' =>
      match digitValue radix c with
      | Some d => readDigits radix s' true (acc * radix + d)%N
      | None => if seen then Some acc else None
      end
  end.

Definition parseInt (s : jsstring) : number :=
  let s1 := trimStart s in
  let '(negative, s2) :=
    match s1 with
    | 45%N :: r => (true, r)
    | 43%N :: r => (false, r)
    | _ => (false, s1)
    end in
  let '(radix, s3) :=
    match s2 with
    | 48%N :: 120%N :: r => (16%N, r)
    | 48%N :: 88%N :: r => (16%N, r)
    | _ => (10%N, s2)
    end in
  match readDigits radix s3 false 0 with
  | None => NaN
  | Some 0%N => S754_zero negative
  | Some n => of_Z (if negative then Z.opp (Z.of_N n) else Z.of_N n)
  end.

(** The integer a finite number of magnitude at least [2^53] denotes. *)
Definition magnitude_Z (m : positive) (e : Z) : Z := Z.shiftl (Z.pos m) e.

Fixpoint pad_zeros (k : nat) (s : jsstring) : jsstring :=
  match k with
  | O => s
  | S k' => 48%N :: pad_zeros k' s
  end.

(** Number::toString for a finite [x >= 10^21], given as the integer [X]:
    the shortest digit string [s] (length [k]) with [s * 10^(n-k)] converting
    back to [x], printed in exponent notation. *)
Definition ndigits (X : Z) : nat := List.length (decimal (Z.to_N X)).

Definition abs_diff (a b : Z) : Z := Z.abs (a - b).

Definition shortest_at (x : number) (X : Z) (n k : nat) : option Z :=
  let scale := (10 ^ Z.of_nat (n - k))%Z in
  let s0 := (X / scale)%Z in
  let s1 := (s0 + 1)%Z in
  let ok0 := num_eqb (of_Z (s0 * scale)) x in
  let ok1 := num_eqb (of_Z (s1 * scale)) x in
  match ok0, ok1 with
  | false, false => None
  | true, false => Some s0
  | false, true => Some s1
  | true, true =>
      let d0 := abs_diff (s0 * scale) X in
      let d1 := abs_diff (s1 * scale) X in
      if Z.ltb d0 d1 then Some s0
      else if Z.ltb d1 d0 then Some s1
      else if Z.even s0 then Some s0 else Some s1
  end.

Fixpoint shortest_from (x : number) (X : Z) (n k fuel : nat) : Z * nat :=
  match fuel with
  | O => (X, n)
  | S fuel' =>
      match shortest_at x X n k with
      | Some s => (s, k)
      | None => shortest_from x X n (S k) fuel'
      end
  end.

Definition exponent_form (digits : jsstring) (n : nat) : jsstring :=
  let tail := lit "e+" ++ decimal (N.of_nat (n - 1)) in
  match digits with
  | [] => tail
  | [d] => d :: tail
  | d :: ds => d :: 46%N :: ds ++ tail
  end.

Definition toString_large (x : number) (X : Z) : jsstring :=
  let n := ndigits X in
  if num_eqb (of_Z (10 ^ Z.of_nat n)) x then exponent_form [49%N] (S n)
  else
    let '(s, _) := shortest_from x X n 1 17 in
    exponent_form (decimal (Z.to_N s)) n.

(** [x.toFixed(1)]. *)
Definition tenths (m : positive) (e : Z) : Z :=
  match e with
  | Zneg p => ((20 * Z.pos m + 2 ^ Z.pos p) / 2 ^ (Z.pos p + 1))%Z
  | _ => (10 * Z.pos m * 2 ^ e)%Z
  end.

Definition fixed1_digits (n : Z) : jsstring :=
  let m := decimal (Z.to_N n) in
  let m' := pad_zeros (2 - List.length m) m in
  let k := List.length m' in
  firstn (k - 1) m' ++ 46%N :: skipn (k - 1) m'.

Definition toFixed1 (x : number) : jsstring :=
  match x with
  | S754_nan => lit "NaN"
  | S754_infinity false => lit "Infinity"
  | S754_infinity true => lit "-Infinity"
  | S754_zero _ => lit "0.0"
  | S754_finite s m e =>
      let sign := if s then [45%N] else [] in
      if num_leb (of_Z (10 ^ 21)) (S754_finite false m e)
      then sign ++ toString_large (S754_finite false m e) (magnitude_Z m e)
      else sign ++ fixed1_digits (tenths m e)
  end.

(** ** The host environment *)

(** What [new Date(s)] exposes to the engine: the local calendar year and
    the local hour of day. *)
Record jsdate := { getFullYear : Z; getHours : nat }.

Record Host := {
  (** [String.prototype.toLowerCase] *)
  toLowerCase : jsstring -> jsstring;
  (** [String.prototype.toUpperCase] *)
  toUpperCase : jsstring -> jsstring;
  (** [new Date(s)]; [None] is the Invalid Date *)
  newDate : jsstring -> option jsdate
}.

(** A reference host, used to evaluate the engine on concrete inputs: the
    case mapping of ASCII letters (which is what [toLowerCase] does on
    ASCII text, likewise for [toUpperCase]) and time stamps of the form [YYYY-MM-DDTHH:mm:ss...] read in
    a UTC time zone. *)
Definition asciiLower (s : jsstring) : jsstring :=
  map (fun c => if in_range 65 90 c then (c + 32)%N else c) s.

Definition asciiUpper (s : jsstring) : jsstring :=
  map (fun c => if in_range 97 122 c then (c - 32)%N else c) s.

Definition twoDigits (a b : N) : option N :=
  if isDigit a && isDigit b then Some ((a - 48) * 10 + (b - 48))%N else None.

Definition isLeap (y : N) : bool :=
  (N.eqb (y mod 4) 0 && negb (N.eqb (y mod 100) 0)) || N.eqb (y mod 400) 0.

Definition daysInMonth (y m : N) : N :=
  if N.eqb m 2 then (if isLeap y then 29 else 28)%N
  else if N.eqb m 4 || N.eqb m 6 || N.eqb m 9 || N.eqb m 11 then 30%N
  else 31%N.

Definition isoDate (s : jsstring) : option jsdate :=
  match s with
  | y1 :: y2 :: y3 :: y4 :: 45%N :: m1 :: m2 :: 45%N :: d1 :: d2 :: rest =>
      match twoDigits y1 y2, twoDigits y3 y4, twoDigits m1 m2, twoDigits d1 d2 with
      | Some yh, Some yl, Some m, Some d =>
          let y := (yh * 100 + yl)%N in
          if N.leb 1 m && N.leb m 12 && N.leb 1 d && N.leb d (daysInMonth y m)
          then
            match rest with
            | [] => Some {| getFullYear := Z.of_N y; getHours := 0 |}
            | 84%N :: h1 :: h2 :: 58%N :: n1 :: n2 :: _ =>
                match twoDigits h1 h2, twoDigits n1 n2 with
                | Some h, Some n =>
                    if N.ltb h 24 && N.ltb n 60
                    then Some {| getFullYear := Z.of_N y; getHours := N.to_nat h |}
                    else None
                | _, _ => None
                end
            | _ => None
            end
          else None
      | _, _, _, _ => None
      end
  | _ => None
  end.

Definition refHost : Host :=
  {| toLowerCase := asciiLower; toUpperCase := asciiUpper; newDate := isoDate |}.

(** ** Objects used as dictionaries *)

(** Own properties in creation order. *)
Definition jsobj (V : Type) := list (jsstring * V).

Fixpoint obj_get {V : Type} (o : jsobj V) (k : jsstring) : option V :=
  match o with
  | [] => None
  | (k', v) :: o' => if str_eqb k' k then Some v else obj_get o' k
  end.

(** Assignment [o[k] = v]: an existing property keeps its place, a new one
    is created last. *)
Fixpoint obj_set {V : Type} (o : jsobj V) (k : jsstring) (v : V) : jsobj V :=
  match o with
  | [] => [(k, v)]
  | (k', v') :: o' =>
      if str_eqb k' k then (k', v) :: o' else (k', v') :: obj_set o' k v
  end.

(** Property names every object literal inherits from [Object.prototype].
    Reading [o[k]] for such a [k] that is not an own property yields the
    inherited value, which is truthy. *)
Definition objectPrototypeKeys : list jsstring :=
  map lit ["constructor"; "__defineGetter__"; "__defineSetter__";
           "hasOwnProperty"; "__lookupGetter__"; "__lookupSetter__";
           "isPrototypeOf"; "propertyIsEnumerable"; "toString"; "valueOf";
           "__proto__"; "toLocaleString"]%string.

Definition isInherited (k : jsstring) : bool := mem_str k objectPrototypeKeys.

(** Array indices: canonical decimal strings below [2^32 - 1]. *)
Fixpoint digitsValue (s : jsstring) (acc : N) : option N :=
  match s with
  | [] => Some acc
  | c :: s' => if isDigit c then digitsValue s' (acc * 10 + (c - 48))%N else None
  end.

Definition arrayIndex (k : jsstring) : option N :=
  match k with
  | [] => None
  | [48%N] => Some 0%N
  | c :: _ =>
      if in_range 49 57 c && Nat.leb (List.length k) 10 then
        match digitsValue k 0 with
        | Some v => if N.leb v 4294967294 then Some v else None
        | None => None
        end
      else None
  end.

Fixpoint insertIndexed {V : Type} (i : N) (p : jsstring * V)
  (l : list (N * (jsstring * V))) : list (N * (jsstring * V)) :=
  match l with
  | [] => [(i, p)]
  | (j, q) :: l' =>
      if N.ltb i j then (i, p) :: l else (j, q) :: insertIndexed i p l'
  end.

Fixpoint indexedProps {V : Type} (o : jsobj V) : list (N * (jsstring * V)) :=
  match o with
  | [] => []
  | (k, v) :: o' =>
      match arrayIndex k with
      | Some i => insertIndexed i (k, v) (indexedProps o')
      | None => indexedProps o'
      end
  end.

Definition namedProps {V : Type} (o : jsobj V) : jsobj V :=
  filter (fun p => match arrayIndex (fst p) with Some _ => false | None => true end) o.

(** [Object.entries(o)]: array indices in ascending order, then the other
    names in creation order. *)
Definition entries {V : Type} (o : jsobj V) : list (jsstring * V) :=
  map snd (indexedProps o) ++ namedProps o.

(** The value kept by a counter written [o[k] = (o[k] || 0) + 1]: a count,
    or, when [k] names an inherited function, the string that results from
    adding 1 to it. *)
Inductive tally := Count (n : nat) | Junk.

Definition bump (o : jsobj tally) (k : jsstring) : jsobj tally :=
  match obj_get o k with
  | Some (Count n) => obj_set o k (Count (S n))
  | Some Junk => o
  | None =>
      if str_eqb k (lit "__proto__") then o
      else if isInherited k then obj_set o k Junk
      else obj_set o k (Count 1)
  end.

(** ** Arrays *)

(** [Array.prototype.sort] is stable. [after y x] says that the comparison
    function is positive on [(y, x)], that is, [y] has to come after [x].
    Each element is inserted behind the elements that need not follow it.
    When the comparison function is not a consistent ordering ECMAScript
    leaves the order to the implementation; this is one such order. *)
Fixpoint insertSorted {A : Type} (after : A -> A -> bool) (x : A) (l : list A)
  : list A :=
  match l with
  | [] => [x]
  | y :: l' => if after y x then x :: l else y :: insertSorted after x l'
  end.

Definition jsSort {A : Type} (after : A -> A -> bool) (l : list A) : list A :=
  fold_left (fun acc x => insertSorted after x acc) l [].

(** [[...new Set(l)]]: first occurrences, in order. *)
Fixpoint dedupe (seen l : list jsstring) : list jsstring :=
  match l with
  | [] => []
  | x :: l' => if mem_str x seen then dedupe seen l' else x :: dedupe (x :: seen) l'
  end.

Definition uniq (l : list jsstring) : list jsstring := dedupe [] l.

(** ** Keyword tables *)

Record CategoryKeywords := {
  primary : list jsstring;
  secondary : list jsstring;
  negativeContext : list jsstring
}.

Definition CATEGORY_KEYWORDS : list (jsstring * CategoryKeywords) :=
  [ (lit "skincare",
     {| primary := map lit ["skin"; "skincare"; "moisturizer"; "cleanser";
          "serum"; "cream"; "lotion"; "acne"; "wrinkles"; "aging";
          "hydration"; "dry"; "oily"; "sensitive"]%string;
        secondary := map lit ["routine"; "glow"; "texture"; "pores";
          "blackheads"; "breakout"; "dermatologist"; "ingredients";
          "retinol"; "hyaluronic"; "vitamin c"; "spf"]%string;
        negativeContext := map lit ["irritation"; "reaction"; "burning";
          "stinging"; "rash"; "allergic"]%string |});
    (lit "fragrance",
     {| primary := map lit ["perfume"; "fragrance"; "scent"; "cologne";
          "eau de toilette"; "eau de parfum"; "smell"; "aroma"; "notes";
          "spray"]%string;
        secondary := map lit ["floral"; "woody"; "citrus"; "musky";
          "vanilla"; "rose"; "jasmine"; "sandalwood"; "bergamot"; "lasting";
          "projection"; "sillage"]%string;
        negativeContext := map lit ["overpowering"; "synthetic"; "cheap";
          "headache"; "cloying"]%string |});
    (lit "makeup",
     {| primary := map lit ["makeup"; "cosmetics"; "foundation"; "concealer";
          "lipstick"; "eyeshadow"; "mascara"; "blush"; "bronzer";
          "highlighter"]%string;
        secondary := map lit ["coverage"; "pigmentation"; "blend";
          "long-lasting"; "waterproof"; "matte"; "shimmer"; "palette";
          "brush"; "application"]%string;
        negativeContext := map lit ["patchy"; "cakey"; "streaky"; "smudge";
          "flaky"]%string |});
    (lit "haircare",
     {| primary := map lit ["hair"; "shampoo"; "conditioner"; "styling";
          "treatment"; "mask"; "oil"; "serum"; "spray"; "gel"]%string;
        secondary := map lit ["volume"; "shine"; "frizz"; "damage"; "repair";
          "growth"; "thickness"; "curl"; "straight"; "color"; "bleach";
          "dye"]%string;
        negativeContext := map lit ["greasy"; "dry"; "brittle"; "thinning";
          "loss"; "damage"]%string |}) ].

Module SENTIMENT_PATTERNS.
Definition positive_strong : list jsstring :=
  map lit ["amazing"; "incredible"; "fantastic"; "outstanding";
           "exceptional"; "phenomenal"; "brilliant"; "perfect";
           "flawless"]%string.
Definition positive_moderate : list jsstring :=
  map lit ["good"; "great"; "nice"; "love"; "like"; "enjoy"; "happy";
           "satisfied"; "pleased"; "recommend"]%string.
Definition positive_mild : list jsstring :=
  map lit ["okay"; "fine"; "decent"; "alright"; "not bad"; "works";
           "useful"]%string.
Definition negative_strong : list jsstring :=
  map lit ["terrible"; "awful"; "horrible"; "disgusting"; "worst"; "hate";
           "despise"; "useless"; "trash"; "garbage"]%string.
Definition negative_moderate : list jsstring :=
  map lit ["bad"; "poor"; "disappointing"; "waste"; "regret"; "annoying";
           "frustrating"; "overpriced"]%string.
Definition negative_mild : list jsstring :=
  map lit ["meh"; "boring"; "bland"; "average"; "nothing special";
           "could be better"]%string.
End SENTIMENT_PATTERNS.

Module SPAM_PATTERNS.
Definition promotional : list jsstring :=
  map lit ["click here"; "visit my"; "check out my"; "follow me";
           "subscribe"; "link in bio"; "dm me"; "message me"]%string.
Definition monetary : list jsstring :=
  map lit ["free money"; "make money"; "earn cash"; "get paid"; "winner";
           "prize"; "lottery"; "investment"]%string.
Definition repetitive : list jsstring :=
  map lit ["first"; "second"; "third"; "fourth"; "fifth"]%string.
Definition suspicious : list jsstring :=
  map lit ["bot"; "fake"; "scam"; "virus"; "hack"; "phishing"]%string.
End SPAM_PATTERNS.

Module QUALITY_INDICATORS.
Definition positive : list jsstring :=
  map lit ["detailed"; "experience"; "recommend"; "tried"; "used"; "months";
           "weeks"; "results"; "improvement"; "comparison"]%string.
Definition negative : list jsstring :=
  map lit ["just"; "only"; "simple"; "short"; "quick"; "fast"]%string.
End QUALITY_INDICATORS.

Definition stopWords : list jsstring :=
  map lit ["the"; "a"; "an"; "and"; "or"; "but"; "in"; "on"; "at"; "to";
    "for"; "of"; "with"; "by"; "is"; "are"; "was"; "were"; "be"; "been";
    "have"; "has"; "had"; "do"; "does"; "did"; "will"; "would"; "could";
    "should"; "may"; "might"; "must"; "can"; "this"; "that"; "these";
    "those"; "i"; "you"; "he"; "she"; "it"; "we"; "they"; "me"; "him"; "her";
    "us"; "them"; "my"; "your"; "his"; "her"; "its"; "our"; "their"]%string.

(** ** Data model *)

Module Sentiment.
Inductive t := positive | negative | neutral.
End Sentiment.
Inductive Level := high | medium | low.

(** A cleaned video row ([VideoData] of the page component). *)
Module VideoData.
Record t := {
  kind : jsstring;
  videoId : jsstring;
  publishedAt : jsstring;
  channelId : jsstring;
  title : jsstring;
  description : jsstring;
  tags : list jsstring;
  defaultLanguage : jsstring;
  defaultAudioLanguage : jsstring;
  contentDuration : jsstring;
  viewCount : number;
  likeCount : number;
  favouriteCount : number;
  commentCount : number;
  topicCategories : list jsstring
}.
End VideoData.

(** A cleaned comment row ([CommentData] of the page component). *)
Module CommentData.
Record t := {
  kind : jsstring;
  commentId : jsstring;
  channelId : jsstring;
  videoId : jsstring;
  authorId : jsstring;
  textOriginal : jsstring;
  parentCommentId : jsstring;
  likeCount : number;
  publishedAt : jsstring;
  updatedAt : jsstring
}.
End CommentData.

Module AnalyzedComment.
Record t := {
  commentId : jsstring;
  textOriginal : jsstring;
  authorId : jsstring;
  likeCount : number;
  publishedAt : jsstring;
  videoId : option jsstring;
  videoTitle : option jsstring;
  videoViewCount : option number;
  videoLikeCount : option number;
  videoCommentCount : option number;
  videoTopicCategories : option (list jsstring);
  sentiment : Sentiment.t;
  sentimentScore : number;
  category : jsstring;
  subcategory : option jsstring;
  isSpam : bool;
  spamScore : number;
  isQuality : bool;
  qualityScore : number;
  relevanceScore : number;
  keywords : list jsstring;
  entities : list jsstring;
  emotions : list jsstring;
  toxicity : number;
  engagement : Level;
  language : jsstring;
  readabilityScore : number
}.
End AnalyzedComment.

Module AnalyzedVideo.
(** [favouriteCount] is not a declared field of the interface: it is what
    the untyped read [(v as any).favouriteCount] finds on the object,
    [None] when the object has no such property. *)
Record t := {
  videoId : jsstring;
  title : jsstring;
  description : jsstring;
  channelId : jsstring;
  publishedAt : jsstring;
  viewCount : number;
  likeCount : number;
  commentCount : number;
  contentDuration : jsstring;
  topicCategories : list jsstring;
  titleSentiment : Sentiment.t;
  titleSentimentScore : number;
  descriptionSentiment : Sentiment.t;
  descriptionSentimentScore : number;
  category : jsstring;
  keywords : list jsstring;
  engagementRate : number;
  popularityScore : number;
  contentQuality : Level;
  avgCommentSentiment : option number;
  commentEngagementRatio : option number;
  favouriteCount : option number
}.
End AnalyzedVideo.

Module TopVideo.
Record t := { videoId : jsstring; title : jsstring; engagementRate : number }.
End TopVideo.

Module CategoryPerformance.
Record t := { avgViews : number; avgEngagement : number }.
End CategoryPerformance.

Module VideoMetrics.
Record t := {
  totalViews : number;
  totalLikes : number;
  totalFavorites : number;
  avgViewCount : number;
  avgLikeCount : number;
  avgFavoriteCount : number;
  avgCommentCount : number;
  avgEngagementRate : number;
  topPerformingVideos : list TopVideo.t;
  categoryPerformance : jsobj CategoryPerformance.t
}.
End VideoMetrics.

Module SentimentDistribution.
Record t := { positive : number; negative : number; neutral : number }.
End SentimentDistribution.

Module TopKeyword.
Record t := { keyword : jsstring; count : nat; sentiment : Sentiment.t }.
End TopKeyword.

Module Trend.
Record t := { hour : nat; comments : nat; avgLikes : number }.
End Trend.

Module QualityIndicators.
Record t := { avgLength : number; avgLikes : number; avgReadability : number }.
End QualityIndicators.

Module AnalysisMetrics.
Record t := {
  totalComments : nat;
  totalVideos : nat;
  qualityRatio : number;
  sentimentDistribution : SentimentDistribution.t;
  videoMetrics : option VideoMetrics.t;
  categoryDistribution : jsobj tally;
  spamRatio : number;
  averageEngagement : number;
  topKeywords : list TopKeyword.t;
  engagementTrends : list Trend.t;
  qualityIndicators : QualityIndicators.t
}.
End AnalysisMetrics.

(** Rows as [parseComments] and [parseVideos] hand them to the cleaners:
    every field is still the text of a CSV cell. *)
Module CommentRow.
Record t := {
  kind : jsstring;
  commentId : jsstring;
  channelId : jsstring;
  videoId : jsstring;
  authorId : jsstring;
  textOriginal : jsstring;
  parentCommentId : jsstring;
  likeCount : jsstring;
  publishedAt : jsstring;
  updatedAt : jsstring
}.
End CommentRow.

Module VideoRow.
Record t := {
  kind : jsstring;
  videoId : jsstring;
  publishedAt : jsstring;
  channelId : jsstring;
  title : jsstring;
  description : jsstring;
  tags : jsstring;
  defaultLanguage : jsstring;
  defaultAudioLanguage : jsstring;
  contentDuration : jsstring;
  viewCount : jsstring;
  likeCount : jsstring;
  favouriteCount : jsstring;
  commentCount : jsstring;
  topicCategories : jsstring
}.
End VideoRow.

Module CommentStats.
Record t := {
  originalCount : nat;
  cleanedCount : nat;
  removedCount : nat;
  nullVideoIds : nat;
  nullCommentIds : nat;
  nullTexts : nat;
  invalidDates : nat;
  cleaningRate : jsstring
}.
End CommentStats.

Module VideoStats.
Record t := {
  originalCount : nat;
  cleanedCount : nat;
  removedCount : nat;
  nullVideoIds : nat;
  nullTitles : nat;
  invalidDates : nat;
  invalidMetrics : nat;
  cleaningRate : jsstring
}.
End VideoStats.

Module FileType.
Inductive t := comments | videos | unknown.
End FileType.

Module QualityResult.
Record t := {
  isQuality : bool;
  score : number;
  factors : list jsstring
}.
End QualityResult.

(** A card of the category insights ([categoryKeywords] of the comment
    analysis component). *)
Module CategoryCard.
Record t := {
  category : jsstring;
  keywords : list (jsstring * tally);
  totalComments : nat;
  avgQuality : number;
  avgSentiment : number
}.
End CategoryCard.

(** What an accepted file holds after parsing. *)
Inductive FileData :=
| CommentRows (rows : list CommentData.t)
| VideoRows (rows : list VideoData.t).

Module UploadStatus.
Inductive t := pending | processing | success | error.
End UploadStatus.

Module UploadedFile.
Record t := {
  type : FileType.t;
  status : UploadStatus.t;
  data : option FileData;
  error : option jsstring;
  separator : option N
}.
End UploadedFile.

Record KeywordData := { kd_count : nat; kd_sentiment : Sentiment.t }.

Record CategoryTotals := {
  ct_totalViews : number;
  ct_totalEngagement : number;
  ct_count : nat
}.

Record SpamResult := {
  isSpam : bool;
  score : number;
  reasons : list jsstring
}.

(** The result of a call that may throw: [None] stands for the exception. *)
Definition orThrow (A : Type) := option A.

(** ** The analyzer *)

Section Engine.

Context (host : Host).

(** *** Sentiment *)

(** One [forEach] over a word list: every listed word present in the text
    adds its weight and counts as one match. *)
Definition tallyWords (lowerText : jsstring) (weight : Z)
  (words : list jsstring) (st : Z * Z) : Z * Z :=
  fold_left
    (fun st word =>
       if includes lowerText word then (fst st + weight, snd st + 1)%Z else st)
    words st.

Definition analyzeSentiment (text : jsstring) : Sentiment.t * number :=
  let lowerText := toLowerCase host text in
  let st := (0, 0)%Z in
  let st := tallyWords lowerText 3 SENTIMENT_PATTERNS.positive_strong st in
  let st := tallyWords lowerText 2 SENTIMENT_PATTERNS.positive_moderate st in
  let st := tallyWords lowerText 1 SENTIMENT_PATTERNS.positive_mild st in
  let st := tallyWords lowerText (-3) SENTIMENT_PATTERNS.negative_strong st in
  let st := tallyWords lowerText (-2) SENTIMENT_PATTERNS.negative_moderate st in
  let st := tallyWords lowerText (-1) SENTIMENT_PATTERNS.negative_mild st in
  let '(score, wordCount) := st in
  let normalizedScore :=
    if (0 <? wordCount)%Z then num_div (of_Z score) (of_Z wordCount) else zero in
  let sentiment :=
    if num_gtb normalizedScore (dec 5 10) then Sentiment.positive
    else if num_ltb normalizedScore (dec (-5) 10) then Sentiment.negative
    else Sentiment.neutral in
  (sentiment, math_max (of_Z (-1)) (math_min (of_Z 1) normalizedScore)).

(** *** Category *)

Definition addWeights (lowerText : jsstring) (weight : Z)
  (words : list jsstring) (score : Z) : Z :=
  fold_left
    (fun score keyword =>
       if includes lowerText keyword then (score + weight)%Z else score)
    words score.

Definition categoryScore (lowerText : jsstring) (keywords : CategoryKeywords) : Z :=
  let score := addWeights lowerText 3 (primary keywords) 0 in
  let score := addWeights lowerText 2 (secondary keywords) score in
  addWeights lowerText 1 (negativeContext keywords) score.

(** The comparison function [(a, b) => b - a] on scores. *)
Definition scoreAfter (y x : jsstring * Z) : bool := (0 <? snd x - snd y)%Z.

Definition categorizeComment (text : jsstring) : jsstring * number :=
  let lowerText := toLowerCase host text in
  let categoryScores :=
    map (fun p => (fst p, categoryScore lowerText (snd p))) CATEGORY_KEYWORDS in
  let sortedCategories :=
    filter (fun p => (0 <? snd p)%Z) (jsSort scoreAfter categoryScores) in
  match sortedCategories with
  | [] => (lit "general", dec 1 10)
  | (topCategory, topScore) :: _ =>
      let totalScore := fold_left Z.add (map snd categoryScores) 0%Z in
      let confidence :=
        if (0 <? totalScore)%Z then num_div (of_Z topScore) (of_Z totalScore)
        else zero in
      (topCategory, confidence)
  end.

(** *** Spam *)

Definition flagPatterns (lowerText : jsstring) (weight : number)
  (reason : jsstring) (patterns : list jsstring)
  (st : number * list jsstring) : number * list jsstring :=
  fold_left
    (fun st pattern =>
       if includes lowerText pattern
       then (num_add (fst st) weight, snd st ++ [reason]) else st)
    patterns st.

Definition flagIf (cond : bool) (weight : number) (reason : jsstring)
  (st : number * list jsstring) : number * list jsstring :=
  if cond then (num_add (fst st) weight, snd st ++ [reason]) else st.

Definition isEmoji (cp : N) : bool :=
  in_range 0x1F600 0x1F64F cp || in_range 0x1F300 0x1F5FF cp ||
  in_range 0x1F680 0x1F6FF cp || in_range 0x1F1E0 0x1F1FF cp.

Definition codePoint (hi lo : N) : N :=
  (0x10000 + (hi - 0xD800) * 0x400 + (lo - 0xDC00))%N.

(** Matches of the emoji expression (flags [g] and [u]): the text is read
    code point by code point, a surrogate pair being one code point. *)
Fixpoint emojiCount (s : jsstring) : nat :=
  match s with
  | [] => 0
  | hi :: rest =>
      match rest with
      | lo :: rest' =>
          if in_range 0xD800 0xDBFF hi && in_range 0xDC00 0xDFFF lo
          then (if isEmoji (codePoint hi lo) then 1 else 0) + emojiCount rest'
          else emojiCount rest
      | [] => 0
      end
  end.

Definition capsCount (s : jsstring) : nat :=
  List.length (filter (in_range 65 90) s).

(** The expression [/https?:\/\/|www\./]. *)
Definition hasUrl (s : jsstring) : bool :=
  includes s (lit "http://") || includes s (lit "https://") ||
  includes s (lit "www.").

Definition spamTally (text : jsstring) : number * list jsstring :=
  let lowerText := toLowerCase host text in
  let st := (zero, []) in
  let st := flagPatterns lowerText (dec 3 10) (lit "promotional_content")
              SPAM_PATTERNS.promotional st in
  let st := flagPatterns lowerText (dec 4 10) (lit "monetary_scheme")
              SPAM_PATTERNS.monetary st in
  let st := flagPatterns lowerText (dec 2 10) (lit "repetitive_pattern")
              SPAM_PATTERNS.repetitive st in
  let st := flagPatterns lowerText (dec 5 10) (lit "suspicious_content")
              SPAM_PATTERNS.suspicious st in
  let st := flagIf (Nat.ltb (List.length text) 10) (dec 2 10) (lit "too_short") st in
  let st := flagIf (Nat.ltb 5 (emojiCount text)) (dec 3 10)
              (lit "excessive_emojis") st in
  let capsRatio :=
    num_div (of_nat (capsCount text)) (of_nat (List.length text)) in
  let st := flagIf (num_gtb capsRatio (dec 7 10) && Nat.ltb 10 (List.length text))
              (dec 2 10) (lit "excessive_caps") st in
  flagIf (hasUrl text) (dec 3 10) (lit "contains_url") st.

(** The [metadata] argument of the source is not read by the function. *)
Definition detectSpam (text : jsstring) (metadata : number * jsstring) : SpamResult :=
  let '(spamScore, reasons) := spamTally text in
  {| isSpam := num_gtb spamScore (dec 5 10);
     score := math_min (of_Z 1) spamScore;
     reasons := uniq reasons |}.

(** *** Keywords *)

(** The comparison function [([, a], [, b]) => b - a] on word counts; the
    difference is [NaN] when a count is not a number. *)
Definition tallyAfter (y x : jsstring * tally) : bool :=
  match snd y, snd x with
  | Count cy, Count cx => Nat.ltb cy cx
  | _, _ => false
  end.

Definition isFrequent (p : jsstring * tally) : bool :=
  match snd p with
  | Count c => Nat.ltb 1 c || Nat.ltb 5 (List.length (fst p))
  | Junk => Nat.ltb 5 (List.length (fst p))
  end.

(** [CATEGORY_KEYWORDS[category]] is undefined for an unknown category;
    for an inherited property name it is a truthy value without keyword
    lists, and spreading its [primary] throws. *)
Definition extractKeywords (text category : jsstring) : orThrow (list jsstring) :=
  let words :=
    filter (fun word => Nat.ltb 3 (List.length word) && negb (mem_str word stopWords))
      (splitSpaces
         (map (fun c => if isWordChar c || isWhiteSpace c then c else 32%N)
            (toLowerCase host text))) in
  let relevantWords :=
    match obj_get CATEGORY_KEYWORDS category with
    | Some categoryKeywords =>
        Some (uniq (filter (fun keyword => includes (toLowerCase host text) keyword)
                      (primary categoryKeywords ++ secondary categoryKeywords)))
    | None => if isInherited category then None else Some []
    end in
  let wordCounts := fold_left bump words [] in
  let frequentWords :=
    map fst (firstn 5 (jsSort tallyAfter (filter isFrequent (entries wordCounts)))) in
  match relevantWords with
  | Some relevant => Some (firstn 8 (relevant ++ frequentWords))
  | None => None
  end.

(** *** Videos *)

Definition analyzeVideo (video : VideoData.t) : orThrow AnalyzedVideo.t :=
  let title := or_str (VideoData.title video) [] in
  let description := or_str (VideoData.description video) [] in
  let titleSentimentResult := analyzeSentiment title in
  let descriptionSentimentResult := analyzeSentiment description in
  let categoryResult := categorizeComment (title ++ lit " " ++ description) in
  match extractKeywords (title ++ lit " " ++ description) (fst categoryResult) with
  | None => None
  | Some keywords =>
      let engagementRate :=
        if num_gtb (VideoData.viewCount video) zero
        then num_mul (num_div (VideoData.likeCount video) (VideoData.viewCount video))
               (of_Z 100)
        else zero in
      let popularityScore :=
        math_min (of_Z 100)
          (num_add
             (num_add
                (num_mul (num_div (VideoData.viewCount video) (of_Z 10000)) (dec 4 10))
                (num_mul (num_div (VideoData.likeCount video) (of_Z 1000)) (dec 3 10)))
             (num_mul (num_div (VideoData.commentCount video) (of_Z 100)) (dec 3 10))) in
      let contentQuality :=
        if num_gtb engagementRate (of_Z 5) &&
           num_gtb (VideoData.commentCount video) (of_Z 50) then high
        else if num_gtb engagementRate (of_Z 2) &&
                num_gtb (VideoData.commentCount video) (of_Z 10) then medium
        else low in
      Some
        {| AnalyzedVideo.videoId := VideoData.videoId video;
           AnalyzedVideo.title := VideoData.title video;
           AnalyzedVideo.description := VideoData.description video;
           AnalyzedVideo.channelId := VideoData.channelId video;
           AnalyzedVideo.publishedAt := VideoData.publishedAt video;
           AnalyzedVideo.viewCount := or_num (VideoData.viewCount video) zero;
           AnalyzedVideo.likeCount := or_num (VideoData.likeCount video) zero;
           AnalyzedVideo.commentCount := or_num (VideoData.commentCount video) zero;
           AnalyzedVideo.contentDuration := or_str (VideoData.contentDuration video) [];
           AnalyzedVideo.topicCategories := VideoData.topicCategories video;
           AnalyzedVideo.titleSentiment := fst titleSentimentResult;
           AnalyzedVideo.titleSentimentScore := snd titleSentimentResult;
           AnalyzedVideo.descriptionSentiment := fst descriptionSentimentResult;
           AnalyzedVideo.descriptionSentimentScore := snd descriptionSentimentResult;
           AnalyzedVideo.category := fst categoryResult;
           AnalyzedVideo.keywords := keywords;
           AnalyzedVideo.engagementRate := engagementRate;
           AnalyzedVideo.popularityScore := popularityScore;
           AnalyzedVideo.contentQuality := contentQuality;
           AnalyzedVideo.avgCommentSentiment := None;
           AnalyzedVideo.commentEngagementRatio := None;
           AnalyzedVideo.favouriteCount := None |}
  end.

(** The page analyses the uploaded videos one after the other. *)
Fixpoint analyzeVideos (videos : list VideoData.t) : orThrow (list AnalyzedVideo.t) :=
  match videos with
  | [] => Some []
  | video :: rest =>
      match analyzeVideo video, analyzeVideos rest with
      | Some a, Some l => Some (a :: l)
      | _, _ => None
      end
  end.

(** *** Metrics *)

Definition sumBy {A : Type} (f : A -> number) (l : list A) : number :=
  fold_left (fun sum x => num_add sum (f x)) l zero.

(** ToNumber of a property that may be missing ([undefined] gives [NaN]). *)
Definition toNumber (x : option number) : number :=
  match x with Some v => v | None => NaN end.

(** [reduce((sum, v) => sum + (v as any).favouriteCount || 0, 0)]: the
    fallback applies to the sum, as [+] binds tighter than [||]. *)
Definition sumFavourites (l : list AnalyzedVideo.t) : number :=
  fold_left
    (fun sum v => or_num (num_add sum (toNumber (AnalyzedVideo.favouriteCount v))) zero)
    l zero.

(** The comparison function [(a, b) => b.engagementRate - a.engagementRate]. *)
Definition rateAfter (y x : AnalyzedVideo.t) : bool :=
  num_gtb (num_sub (AnalyzedVideo.engagementRate x) (AnalyzedVideo.engagementRate y)) zero.

Definition addToCategory (acc : jsobj CategoryTotals) (video : AnalyzedVideo.t)
  : jsobj CategoryTotals :=
  let c := AnalyzedVideo.category video in
  let add (t : CategoryTotals) :=
    {| ct_totalViews := num_add (ct_totalViews t) (AnalyzedVideo.viewCount video);
       ct_totalEngagement :=
         num_add (ct_totalEngagement t) (AnalyzedVideo.engagementRate video);
       ct_count := S (ct_count t) |} in
  match obj_get acc c with
  | Some t => obj_set acc c (add t)
  | None =>
      if isInherited c then acc
      else obj_set acc c
             (add {| ct_totalViews := zero; ct_totalEngagement := zero; ct_count := 0 |})
  end.

Definition formatCategory (acc : jsobj CategoryPerformance.t)
  (entry : jsstring * CategoryTotals) : jsobj CategoryPerformance.t :=
  obj_set acc (fst entry)
    {| CategoryPerformance.avgViews :=
         num_div (ct_totalViews (snd entry)) (of_nat (ct_count (snd entry)));
       CategoryPerformance.avgEngagement :=
         num_div (ct_totalEngagement (snd entry)) (of_nat (ct_count (snd entry))) |}.

(** The video block, written twice in the source with the same text. It
    returns the metrics together with the contents of the array
    [analyzedVideos] afterwards: [sort] works in place, so the caller's
    array is left in sorted order and the later [reduce] runs over it. *)
Definition videoBlock (analyzedVideos : list AnalyzedVideo.t)
  : VideoMetrics.t * list AnalyzedVideo.t :=
  let n := of_nat (List.length analyzedVideos) in
  let totalViews := sumBy AnalyzedVideo.viewCount analyzedVideos in
  let totalLikes := sumBy AnalyzedVideo.likeCount analyzedVideos in
  let totalFavorites := sumFavourites analyzedVideos in
  let avgViewCount := num_div totalViews n in
  let avgLikeCount := num_div totalLikes n in
  let avgFavoriteCount := num_div totalFavorites n in
  let avgCommentCount := num_div (sumBy AnalyzedVideo.commentCount analyzedVideos) n in
  let avgEngagementRate :=
    num_div (sumBy AnalyzedVideo.engagementRate analyzedVideos) n in
  let sorted := jsSort rateAfter analyzedVideos in
  let topPerformingVideos :=
    map (fun v => {| TopVideo.videoId := AnalyzedVideo.videoId v;
                     TopVideo.title := AnalyzedVideo.title v;
                     TopVideo.engagementRate := AnalyzedVideo.engagementRate v |})
      (firstn 5 sorted) in
  let categoryPerformance := fold_left addToCategory sorted [] in
  let categoryPerformanceFormatted :=
    fold_left formatCategory (entries categoryPerformance) [] in
  ({| VideoMetrics.totalViews := totalViews;
      VideoMetrics.totalLikes := totalLikes;
      VideoMetrics.totalFavorites := totalFavorites;
      VideoMetrics.avgViewCount := avgViewCount;
      VideoMetrics.avgLikeCount := avgLikeCount;
      VideoMetrics.avgFavoriteCount := avgFavoriteCount;
      VideoMetrics.avgCommentCount := avgCommentCount;
      VideoMetrics.avgEngagementRate := avgEngagementRate;
      VideoMetrics.topPerformingVideos := topPerformingVideos;
      VideoMetrics.categoryPerformance := categoryPerformanceFormatted |},
   sorted).

(** [if (analyzedVideos && analyzedVideos.length > 0) ...] *)
Definition videoMetricsOf (analyzedVideos : option (list AnalyzedVideo.t))
  : option VideoMetrics.t * option (list AnalyzedVideo.t) :=
  match analyzedVideos with
  | Some (v :: vs) =>
      let '(m, sorted) := videoBlock (v :: vs) in (Some m, Some sorted)
  | _ => (None, analyzedVideos)
  end.

Definition countSentiment (s : Sentiment.t) (l : list AnalyzedComment.t) : nat :=
  List.length
    (filter (fun c => match AnalyzedComment.sentiment c, s with
                      | Sentiment.positive, Sentiment.positive
                      | Sentiment.negative, Sentiment.negative
                      | Sentiment.neutral, Sentiment.neutral => true
                      | _, _ => false
                      end) l).

(** One step of the keyword loop: a keyword not yet recorded is entered
    with the sentiment of the comment at hand, then its count goes up.
    For an inherited property name the lookup is truthy, nothing is
    entered, and the increment lands outside [keywordCounts]. *)
Definition countKeyword (s : Sentiment.t) (keywordCounts : jsobj KeywordData)
  (keyword : jsstring) : jsobj KeywordData :=
  match obj_get keywordCounts keyword with
  | Some d =>
      obj_set keywordCounts keyword
        {| kd_count := S (kd_count d); kd_sentiment := kd_sentiment d |}
  | None =>
      if isInherited keyword then keywordCounts
      else obj_set keywordCounts keyword {| kd_count := 1; kd_sentiment := s |}
  end.

Definition countKeywords (keywordCounts : jsobj KeywordData)
  (comment : AnalyzedComment.t) : jsobj KeywordData :=
  fold_left (countKeyword (AnalyzedComment.sentiment comment))
    (AnalyzedComment.keywords comment) keywordCounts.

(** The comparison function [([, a], [, b]) => b.count - a.count]. *)
Definition countAfter (y x : jsstring * KeywordData) : bool :=
  Nat.ltb (kd_count (snd y)) (kd_count (snd x)).

Definition topKeywordsOf (analyzedComments : list AnalyzedComment.t)
  : list TopKeyword.t :=
  let keywordCounts := fold_left countKeywords analyzedComments [] in
  map (fun p => {| TopKeyword.keyword := fst p;
                   TopKeyword.count := kd_count (snd p);
                   TopKeyword.sentiment := kd_sentiment (snd p) |})
    (firstn 20 (jsSort countAfter (entries keywordCounts))).

(** [hourlyData], keyed by the hour of day; the key is [None] when the
    time stamp does not parse and [getHours()] is [NaN]. *)
Definition hourKey := option nat.

Definition hourKey_eqb (a b : hourKey) : bool :=
  match a, b with
  | Some x, Some y => Nat.eqb x y
  | None, None => true
  | _, _ => false
  end.

Fixpoint hour_get (o : list (hourKey * (nat * number))) (k : hourKey)
  : option (nat * number) :=
  match o with
  | [] => None
  | (k', v) :: o' => if hourKey_eqb k' k then Some v else hour_get o' k
  end.

Fixpoint hour_add (o : list (hourKey * (nat * number))) (k : hourKey)
  (likes : number) : list (hourKey * (nat * number)) :=
  match o with
  | [] => [(k, (1, num_add zero likes))]
  | (k', v) :: o' =>
      if hourKey_eqb k' k then (k', (S (fst v), num_add (snd v) likes)) :: o'
      else (k', v) :: hour_add o' k likes
  end.

Definition hourOf (publishedAt : jsstring) : hourKey :=
  match newDate host publishedAt with
  | Some d => Some (getHours d)
  | None => None
  end.

Definition engagementTrendsOf (analyzedComments : list AnalyzedComment.t)
  : list Trend.t :=
  let hourlyData :=
    fold_left
      (fun acc c =>
         hour_add acc (hourOf (AnalyzedComment.publishedAt c))
           (AnalyzedComment.likeCount c))
      analyzedComments [] in
  map (fun hour =>
         match hour_get hourlyData (Some hour) with
         | Some (comments, totalLikes) =>
             {| Trend.hour := hour; Trend.comments := comments;
                Trend.avgLikes := num_div totalLikes (of_nat comments) |}
         | None =>
             {| Trend.hour := hour; Trend.comments := 0; Trend.avgLikes := zero |}
         end)
    (seq 0 24).

Definition percentage (count total : nat) : number :=
  num_mul (num_div (of_nat count) (of_nat total)) (of_Z 100).

(** [generateMetrics] returns the metrics; the second component is the
    contents of the argument array [analyzedVideos] after the call. *)
Definition generateMetrics (analyzedComments : list AnalyzedComment.t)
  (analyzedVideos : option (list AnalyzedVideo.t))
  : AnalysisMetrics.t * option (list AnalyzedVideo.t) :=
  let total := List.length analyzedComments in
  let totalVideos :=
    match analyzedVideos with Some l => List.length l | None => 0 end in
  if Nat.eqb total 0 then
    let '(videoOnlyMetrics, videosAfter) := videoMetricsOf analyzedVideos in
    ({| AnalysisMetrics.totalComments := 0;
        AnalysisMetrics.totalVideos := totalVideos;
        AnalysisMetrics.qualityRatio := zero;
        AnalysisMetrics.sentimentDistribution :=
          {| SentimentDistribution.positive := zero;
             SentimentDistribution.negative := zero;
             SentimentDistribution.neutral := zero |};
        AnalysisMetrics.videoMetrics := videoOnlyMetrics;
        AnalysisMetrics.categoryDistribution := [];
        AnalysisMetrics.spamRatio := zero;
        AnalysisMetrics.averageEngagement := zero;
        AnalysisMetrics.topKeywords := [];
        AnalysisMetrics.engagementTrends := [];
        AnalysisMetrics.qualityIndicators :=
          {| QualityIndicators.avgLength := zero;
             QualityIndicators.avgLikes := zero;
             QualityIndicators.avgReadability := zero |} |},
     videosAfter)
  else
    let categoryDistribution :=
      fold_left (fun acc c => bump acc (AnalyzedComment.category c))
        analyzedComments [] in
    let topKeywords := topKeywordsOf analyzedComments in
    let engagementTrends := engagementTrendsOf analyzedComments in
    let '(videoMetrics, videosAfter) := videoMetricsOf analyzedVideos in
    let n := of_nat total in
    ({| AnalysisMetrics.totalComments := total;
        AnalysisMetrics.totalVideos := totalVideos;
        AnalysisMetrics.qualityRatio :=
          percentage (List.length (filter AnalyzedComment.isQuality analyzedComments)) total;
        AnalysisMetrics.sentimentDistribution :=
          {| SentimentDistribution.positive :=
               percentage (countSentiment Sentiment.positive analyzedComments) total;
             SentimentDistribution.negative :=
               percentage (countSentiment Sentiment.negative analyzedComments) total;
             SentimentDistribution.neutral :=
               percentage (countSentiment Sentiment.neutral analyzedComments) total |};
        AnalysisMetrics.videoMetrics := videoMetrics;
        AnalysisMetrics.categoryDistribution := categoryDistribution;
        AnalysisMetrics.spamRatio :=
          percentage (List.length (filter AnalyzedComment.isSpam analyzedComments)) total;
        AnalysisMetrics.averageEngagement :=
          num_div (sumBy AnalyzedComment.likeCount analyzedComments) n;
        AnalysisMetrics.topKeywords := topKeywords;
        AnalysisMetrics.engagementTrends := engagementTrends;
        AnalysisMetrics.qualityIndicators :=
          {| QualityIndicators.avgLength :=
               num_div
                 (sumBy (fun c => of_nat (List.length (AnalyzedComment.textOriginal c)))
                    analyzedComments) n;
             QualityIndicators.avgLikes :=
               num_div (sumBy AnalyzedComment.likeCount analyzedComments) n;
             QualityIndicators.avgReadability :=
               num_div (sumBy AnalyzedComment.readabilityScore analyzedComments) n |} |},
     videosAfter).

(** *** CSV *)

(** The quote-aware splitter: [current] is the field being read,
    [inQuotes] the quoting state, [result] the fields read so far. *)
Fixpoint splitFields (separator : N) (line current : jsstring) (inQuotes : bool)
  (result : list jsstring) : list jsstring :=
  match line with
  | [] => result ++ [current]
  | char :: rest =>
      if N.eqb char 34 then
        match rest with
        | nextChar :: rest' =>
            if inQuotes && N.eqb nextChar 34
            then splitFields separator rest' (current ++ [34%N]) inQuotes result
            else splitFields separator rest current (negb inQuotes) result
        | [] => splitFields separator rest current (negb inQuotes) result
        end
      else if N.eqb char separator && negb inQuotes
      then splitFields separator rest [] inQuotes (result ++ [current])
      else splitFields separator rest (current ++ [char]) inQuotes result
  end.

Definition parseCSVLine (line : jsstring) (separator : N) : list jsstring :=
  splitFields separator line [] false [].

Definition separators : list N := [44; 59; 124; 9]%N.

Definition headerScore (expectedColumns : list jsstring) (parsedHeader : list jsstring)
  : nat :=
  List.length
    (filter
       (fun col =>
          existsb (fun header =>
                     includes (toLowerCase host header) (toLowerCase host col))
            parsedHeader)
       expectedColumns).

Definition pickSeparator (expectedColumns : list jsstring) (headerLine : jsstring) : N * nat :=
  fold_left
    (fun best separator =>
       let score := headerScore expectedColumns (parseCSVLine headerLine separator) in
       if Nat.ltb (snd best) score then (separator, score) else best)
    separators (44%N, 0).

(** [row[k] = v] on an object literal: the name [__proto__] addresses the
    prototype, and assigning a string to it changes nothing. *)
Definition row_set (row : jsobj jsstring) (k v : jsstring) : jsobj jsstring :=
  if str_eqb k (lit "__proto__") then row else obj_set row k v.

Fixpoint buildRow (headers values : list jsstring) (row : jsobj jsstring)
  : jsobj jsstring :=
  match headers with
  | [] => row
  | header :: headers' =>
      let value := match values with v :: _ => or_str (trim v) [] | [] => [] end in
      buildRow headers' (tl values) (row_set row (trim header) value)
  end.

(** The source has no [throw]: every call returns an array. *)
Definition parseCSV (csvText : jsstring) (expectedColumns : list jsstring)
  : orThrow (list (jsobj jsstring)) :=
  let lines := splitOn 10 (trim csvText) in
  if Nat.ltb (List.length lines) 2 then Some []
  else
    let headerLine := hd [] lines in
    let bestSeparator := fst (pickSeparator expectedColumns headerLine) in
    let headers := parseCSVLine headerLine bestSeparator in
    Some
      (fold_left
         (fun data rawLine =>
            let line := trim rawLine in
            if negb (truthy_str line) then data
            else
              let values := parseCSVLine line bestSeparator in
              if negb (Nat.eqb (List.length values) (List.length headers)) then data
              else data ++ [buildRow headers values []])
         (tl lines) []).

(** *** Cleaning *)

Definition isValidDate (dateString : jsstring) : bool :=
  if negb (truthy_str dateString) then false
  else match newDate host dateString with
       | Some date => (2005 <? getFullYear date)%Z
       | None => false
       end.

Definition isBlank (s : jsstring) : bool :=
  negb (truthy_str s) || negb (truthy_str (trim s)).

(** [Math.max(0, Number.parseInt(s) || 0)] *)
Definition cleanCount (s : jsstring) : number :=
  math_max zero (or_num (parseInt s) zero).

(** [s.split("|").filter((t) => t.trim()).map((t) => t.trim())] *)
Definition splitList (s : jsstring) : list jsstring :=
  map trim (filter (fun t => truthy_str (trim t)) (splitOn 124 s)).

(** The counters the [filter] callback of [cleanCommentData] updates. *)
Record CommentCounters := {
  cc_nullVideoIds : nat;
  cc_nullCommentIds : nat;
  cc_nullTexts : nat;
  cc_invalidDates : nat
}.

Definition cleanComment (st : list CommentData.t * CommentCounters)
  (comment : CommentRow.t) : list CommentData.t * CommentCounters :=
  let '(cleaned, n) := st in
  if isBlank (CommentRow.videoId comment) then
    (cleaned, {| cc_nullVideoIds := S (cc_nullVideoIds n);
                 cc_nullCommentIds := cc_nullCommentIds n;
                 cc_nullTexts := cc_nullTexts n;
                 cc_invalidDates := cc_invalidDates n |})
  else if isBlank (CommentRow.commentId comment) then
    (cleaned, {| cc_nullVideoIds := cc_nullVideoIds n;
                 cc_nullCommentIds := S (cc_nullCommentIds n);
                 cc_nullTexts := cc_nullTexts n;
                 cc_invalidDates := cc_invalidDates n |})
  else if isBlank (CommentRow.textOriginal comment) then
    (cleaned, {| cc_nullVideoIds := cc_nullVideoIds n;
                 cc_nullCommentIds := cc_nullCommentIds n;
                 cc_nullTexts := S (cc_nullTexts n);
                 cc_invalidDates := cc_invalidDates n |})
  else
    let badDate :=
      truthy_str (CommentRow.publishedAt comment) &&
      negb (isValidDate (CommentRow.publishedAt comment)) in
    (cleaned ++
       [ {| CommentData.kind := CommentRow.kind comment;
            CommentData.commentId := CommentRow.commentId comment;
            CommentData.channelId := or_str (CommentRow.channelId comment) [];
            CommentData.videoId := CommentRow.videoId comment;
            CommentData.authorId := or_str (CommentRow.authorId comment) (lit "unknown");
            CommentData.textOriginal := trim (CommentRow.textOriginal comment);
            CommentData.parentCommentId := CommentRow.parentCommentId comment;
            CommentData.likeCount := cleanCount (CommentRow.likeCount comment);
            CommentData.publishedAt :=
              if badDate then [] else CommentRow.publishedAt comment;
            CommentData.updatedAt := CommentRow.updatedAt comment |} ],
     {| cc_nullVideoIds := cc_nullVideoIds n;
        cc_nullCommentIds := cc_nullCommentIds n;
        cc_nullTexts := cc_nullTexts n;
        cc_invalidDates := if badDate then S (cc_invalidDates n) else cc_invalidDates n |}).

(** [(((originalCount - cleaned.length) / originalCount) * 100).toFixed(1)] *)
Definition cleaningRateOf (originalCount cleanedCount : nat) : jsstring :=
  toFixed1
    (num_mul (num_div (of_nat (originalCount - cleanedCount)) (of_nat originalCount))
       (of_Z 100)).

Definition cleanCommentData (comments : list CommentRow.t)
  : list CommentData.t * CommentStats.t :=
  let originalCount := List.length comments in
  let '(cleaned, n) :=
    fold_left cleanComment comments
      ([], {| cc_nullVideoIds := 0; cc_nullCommentIds := 0;
              cc_nullTexts := 0; cc_invalidDates := 0 |}) in
  (cleaned,
   {| CommentStats.originalCount := originalCount;
      CommentStats.cleanedCount := List.length cleaned;
      CommentStats.removedCount := originalCount - List.length cleaned;
      CommentStats.nullVideoIds := cc_nullVideoIds n;
      CommentStats.nullCommentIds := cc_nullCommentIds n;
      CommentStats.nullTexts := cc_nullTexts n;
      CommentStats.invalidDates := cc_invalidDates n;
      CommentStats.cleaningRate := cleaningRateOf originalCount (List.length cleaned) |}).

Record VideoCounters := {
  vc_nullVideoIds : nat;
  vc_nullTitles : nat;
  vc_invalidDates : nat;
  vc_invalidMetrics : nat
}.

Definition cleanVideo (st : list VideoData.t * VideoCounters)
  (video : VideoRow.t) : list VideoData.t * VideoCounters :=
  let '(cleaned, n) := st in
  if isBlank (VideoRow.videoId video) then
    (cleaned, {| vc_nullVideoIds := S (vc_nullVideoIds n);
                 vc_nullTitles := vc_nullTitles n;
                 vc_invalidDates := vc_invalidDates n;
                 vc_invalidMetrics := vc_invalidMetrics n |})
  else if isBlank (VideoRow.title video) then
    (cleaned, {| vc_nullVideoIds := vc_nullVideoIds n;
                 vc_nullTitles := S (vc_nullTitles n);
                 vc_invalidDates := vc_invalidDates n;
                 vc_invalidMetrics := vc_invalidMetrics n |})
  else
    let badDate :=
      truthy_str (VideoRow.publishedAt video) &&
      negb (isValidDate (VideoRow.publishedAt video)) in
    let viewCount := cleanCount (VideoRow.viewCount video) in
    let badMetric :=
      truthy_str (VideoRow.viewCount video) && num_eqb viewCount zero in
    (cleaned ++
       [ {| VideoData.kind := VideoRow.kind video;
            VideoData.videoId := VideoRow.videoId video;
            VideoData.publishedAt :=
              if badDate then [] else VideoRow.publishedAt video;
            VideoData.channelId := or_str (VideoRow.channelId video) [];
            VideoData.title := trim (VideoRow.title video);
            VideoData.description := or_str (VideoRow.description video) [];
            VideoData.tags := splitList (VideoRow.tags video);
            VideoData.defaultLanguage :=
              or_str (VideoRow.defaultLanguage video) (lit "en");
            VideoData.defaultAudioLanguage := VideoRow.defaultAudioLanguage video;
            VideoData.contentDuration := VideoRow.contentDuration video;
            VideoData.viewCount := viewCount;
            VideoData.likeCount := cleanCount (VideoRow.likeCount video);
            VideoData.favouriteCount := cleanCount (VideoRow.favouriteCount video);
            VideoData.commentCount := cleanCount (VideoRow.commentCount video);
            VideoData.topicCategories := splitList (VideoRow.topicCategories video) |} ],
     {| vc_nullVideoIds := vc_nullVideoIds n;
        vc_nullTitles := vc_nullTitles n;
        vc_invalidDates := if badDate then S (vc_invalidDates n) else vc_invalidDates n;
        vc_invalidMetrics :=
          if badMetric then S (vc_invalidMetrics n) else vc_invalidMetrics n |}).

Definition cleanVideoData (videos : list VideoRow.t)
  : list VideoData.t * VideoStats.t :=
  let originalCount := List.length videos in
  let '(cleaned, n) :=
    fold_left cleanVideo videos
      ([], {| vc_nullVideoIds := 0; vc_nullTitles := 0;
              vc_invalidDates := 0; vc_invalidMetrics := 0 |}) in
  (cleaned,
   {| VideoStats.originalCount := originalCount;
      VideoStats.cleanedCount := List.length cleaned;
      VideoStats.removedCount := originalCount - List.length cleaned;
      VideoStats.nullVideoIds := vc_nullVideoIds n;
      VideoStats.nullTitles := vc_nullTitles n;
      VideoStats.invalidDates := vc_invalidDates n;
      VideoStats.invalidMetrics := vc_invalidMetrics n;
      VideoStats.cleaningRate := cleaningRateOf originalCount (List.length cleaned) |}).

(** *** File type detection (upload component) *)

Definition commentHeaders : list jsstring :=
  map lit ["commentid"; "textoriginal"; "authorid"; "videoid"]%string.

Definition videoHeaders : list jsstring :=
  map lit ["videoid"; "title"; "description"; "viewcount"; "channelid"]%string.

Definition headerMatches (lowerHeaders : list jsstring) (header : jsstring) : bool :=
  existsb (fun h => includes h header || includes header h) lowerHeaders.

Definition detectFileType (headers : list jsstring) : FileType.t :=
  let lowerHeaders := map (toLowerCase host) headers in
  let commentMatches :=
    List.length (filter (headerMatches lowerHeaders) commentHeaders) in
  let videoMatches :=
    List.length (filter (headerMatches lowerHeaders) videoHeaders) in
  if Nat.leb 3 commentMatches then FileType.comments
  else if Nat.leb 3 videoMatches then FileType.videos
  else FileType.unknown.

(** *** Quality *)

Definition isSentenceEnd (c : N) : bool := N.eqb c 46 || N.eqb c 33 || N.eqb c 63.

(** [text.split(/[.!?]+/).filter((s) => s.trim().length > 0)] *)
Definition sentencesOf (text : jsstring) : list jsstring :=
  filter (fun s => Nat.ltb 0 (List.length (trim s))) (splitRuns isSentenceEnd text).

(** [text.charAt(0) === text.charAt(0).toUpperCase()] *)
Definition startsUpper (text : jsstring) : bool :=
  str_eqb (firstn 1 text) (toUpperCase host (firstn 1 text)).

Definition qualityTally (text : jsstring) (likeCount : number) : number * list jsstring :=
  let st := (zero, []) in
  let st := flagIf (Nat.ltb 50 (List.length text)) (dec 2 10) (lit "adequate_length") st in
  let st := flagIf (Nat.ltb 100 (List.length text)) (dec 1 10) (lit "detailed_content") st in
  let st := flagIf (num_gtb likeCount zero) (dec 3 10) (lit "has_engagement") st in
  let st := flagIf (num_gtb likeCount (of_Z 5)) (dec 2 10) (lit "high_engagement") st in
  let st := flagPatterns (toLowerCase host text) (dec 1 10) (lit "quality_indicator")
              QUALITY_INDICATORS.positive st in
  let st := flagIf (Nat.ltb 1 (List.length (sentencesOf text))) (dec 1 10)
              (lit "multiple_sentences") st in
  flagIf (startsUpper text) (dec 5 100) (lit "proper_capitalization") st.

(** Of the [metadata] argument only [likeCount] is read. *)
Definition assessQuality (text : jsstring) (metadata : number * jsstring)
  : QualityResult.t :=
  let '(qualityScore, factors) := qualityTally text (fst metadata) in
  {| QualityResult.isQuality := num_gtb qualityScore (dec 4 10);
     QualityResult.score := math_min (of_Z 1) qualityScore;
     QualityResult.factors := uniq factors |}.

(** *** Readability *)

Definition isVowel (c : N) : bool :=
  N.eqb c 97 || N.eqb c 101 || N.eqb c 105 || N.eqb c 111 || N.eqb c 117 ||
  N.eqb c 121.

(** [replace(/[aeiouy]+/g, "a")]: every maximal run of vowels becomes one
    [a]; [inRun] says that the previous character was a vowel. *)
Fixpoint collapseVowels (inRun : bool) (s : jsstring) : jsstring :=
  match s with
  | [] => []
  | c :: s' =>
      if isVowel c then
        (if inRun then collapseVowels true s' else 97%N :: collapseVowels true s')
      else c :: collapseVowels false s'
  end.

(** [replace(/a$/, "")] *)
Definition dropFinalA (s : jsstring) : jsstring :=
  match rev s with
  | 97%N :: r => rev r
  | _ => s
  end.

Definition countSyllables (text : jsstring) : nat :=
  let marks :=
    dropFinalA
      (collapseVowels false (filter (in_range 97 122) (toLowerCase host text))) in
  match List.length marks with
  | O => 1
  | n => n
  end.

Definition calculateReadability (text : jsstring) : number :=
  let sentences := List.length (sentencesOf text) in
  let words := List.length (filter truthy_str (splitSpaces text)) in
  let syllables := countSyllables text in
  if Nat.eqb sentences 0 || Nat.eqb words 0 then zero
  else
    let avgWordsPerSentence := num_div (of_nat words) (of_nat sentences) in
    let avgSyllablesPerWord := num_div (of_nat syllables) (of_nat words) in
    let score :=
      num_sub
        (num_sub (dec 206835 1000) (num_mul (dec 1015 1000) avgWordsPerSentence))
        (num_mul (dec 846 10) avgSyllablesPerWord) in
    num_div (math_max zero (math_min (of_Z 100) score)) (of_Z 100).

(** *** Comments *)

Definition engagementOf (likeCount : number) : Level :=
  if num_gtb likeCount (of_Z 10) then high
  else if num_gtb likeCount (of_Z 2) then medium
  else low.

Definition analyzeComment (comment : CommentData.t) : orThrow AnalyzedComment.t :=
  let text := or_str (CommentData.textOriginal comment) [] in
  let likeCount := or_num (CommentData.likeCount comment) zero in
  let publishedAt := or_str (CommentData.publishedAt comment) [] in
  let authorId := or_str (CommentData.authorId comment) [] in
  let sentimentResult := analyzeSentiment text in
  let categoryResult := categorizeComment text in
  let spamResult := detectSpam text (likeCount, authorId) in
  let qualityResult := assessQuality text (likeCount, publishedAt) in
  match extractKeywords text (fst categoryResult) with
  | None => None
  | Some keywords =>
      let readabilityScore := calculateReadability text in
      let relevanceScore :=
        num_add
          (num_add (num_mul (snd categoryResult) (dec 4 10))
             (num_mul (QualityResult.score qualityResult) (dec 3 10)))
          (num_mul (num_sub (of_Z 1) (score spamResult)) (dec 3 10)) in
      Some
        {| AnalyzedComment.commentId := CommentData.commentId comment;
           AnalyzedComment.textOriginal := text;
           AnalyzedComment.authorId := authorId;
           AnalyzedComment.likeCount := likeCount;
           AnalyzedComment.publishedAt := publishedAt;
           AnalyzedComment.videoId := None;
           AnalyzedComment.videoTitle := None;
           AnalyzedComment.videoViewCount := None;
           AnalyzedComment.videoLikeCount := None;
           AnalyzedComment.videoCommentCount := None;
           AnalyzedComment.videoTopicCategories := None;
           AnalyzedComment.sentiment := fst sentimentResult;
           AnalyzedComment.sentimentScore := snd sentimentResult;
           AnalyzedComment.category := fst categoryResult;
           AnalyzedComment.subcategory := None;
           AnalyzedComment.isSpam := isSpam spamResult;
           AnalyzedComment.spamScore := score spamResult;
           AnalyzedComment.isQuality := QualityResult.isQuality qualityResult;
           AnalyzedComment.qualityScore := QualityResult.score qualityResult;
           AnalyzedComment.relevanceScore := relevanceScore;
           AnalyzedComment.keywords := keywords;
           AnalyzedComment.entities := [];
           AnalyzedComment.emotions := [];
           AnalyzedComment.toxicity := zero;
           AnalyzedComment.engagement := engagementOf likeCount;
           AnalyzedComment.language := lit "en";
           AnalyzedComment.readabilityScore := readabilityScore |}
  end.

(** The video context is copied onto the analyzed comment when a video is
    given. *)
Definition withVideo (a : AnalyzedComment.t) (video : VideoData.t) : AnalyzedComment.t :=
  {| AnalyzedComment.commentId := AnalyzedComment.commentId a;
     AnalyzedComment.textOriginal := AnalyzedComment.textOriginal a;
     AnalyzedComment.authorId := AnalyzedComment.authorId a;
     AnalyzedComment.likeCount := AnalyzedComment.likeCount a;
     AnalyzedComment.publishedAt := AnalyzedComment.publishedAt a;
     AnalyzedComment.videoId := Some (VideoData.videoId video);
     AnalyzedComment.videoTitle := Some (VideoData.title video);
     AnalyzedComment.videoViewCount := Some (VideoData.viewCount video);
     AnalyzedComment.videoLikeCount := Some (VideoData.likeCount video);
     AnalyzedComment.videoCommentCount := Some (VideoData.commentCount video);
     AnalyzedComment.videoTopicCategories := Some (VideoData.topicCategories video);
     AnalyzedComment.sentiment := AnalyzedComment.sentiment a;
     AnalyzedComment.sentimentScore := AnalyzedComment.sentimentScore a;
     AnalyzedComment.category := AnalyzedComment.category a;
     AnalyzedComment.subcategory := AnalyzedComment.subcategory a;
     AnalyzedComment.isSpam := AnalyzedComment.isSpam a;
     AnalyzedComment.spamScore := AnalyzedComment.spamScore a;
     AnalyzedComment.isQuality := AnalyzedComment.isQuality a;
     AnalyzedComment.qualityScore := AnalyzedComment.qualityScore a;
     AnalyzedComment.relevanceScore := AnalyzedComment.relevanceScore a;
     AnalyzedComment.keywords := AnalyzedComment.keywords a;
     AnalyzedComment.entities := AnalyzedComment.entities a;
     AnalyzedComment.emotions := AnalyzedComment.emotions a;
     AnalyzedComment.toxicity := AnalyzedComment.toxicity a;
     AnalyzedComment.engagement := AnalyzedComment.engagement a;
     AnalyzedComment.language := AnalyzedComment.language a;
     AnalyzedComment.readabilityScore := AnalyzedComment.readabilityScore a |}.

Definition analyzeCommentWithVideo (comment : CommentData.t) (video : option VideoData.t)
  : orThrow AnalyzedComment.t :=
  match analyzeComment comment with
  | None => None
  | Some analyzedComment =>
      match video with
      | Some v => Some (withVideo analyzedComment v)
      | None => Some analyzedComment
      end
  end.

(** *** Files *)

(** [row.name]: the cell under that header, [undefined] (falsy, here the
    empty text) when there is none. None of the names read is inherited. *)
Definition cell (row : jsobj jsstring) (name : string) : jsstring :=
  match obj_get row (lit name) with
  | Some v => v
  | None => []
  end.

Definition commentColumns : list jsstring :=
  map lit ["commentId"; "textOriginal"; "authorId"; "likeCount"; "publishedAt";
           "videoId"; "channelId"]%string.

Definition videoColumns : list jsstring :=
  map lit ["videoId"; "title"; "description"; "viewCount"; "likeCount";
           "commentCount"; "channelId"]%string.

Definition commentRowOf (row : jsobj jsstring) : CommentRow.t :=
  {| CommentRow.kind := or_str (cell row "kind") (lit "youtube#comment");
     CommentRow.commentId := or_str (cell row "commentId") (or_str (cell row "comment_id") []);
     CommentRow.channelId := or_str (cell row "channelId") (or_str (cell row "channel_id") []);
     CommentRow.videoId := or_str (cell row "videoId") (or_str (cell row "video_id") []);
     CommentRow.authorId := or_str (cell row "authorId") (or_str (cell row "author_id") []);
     CommentRow.textOriginal :=
       or_str (cell row "textOriginal")
         (or_str (cell row "text_original") (or_str (cell row "text") []));
     CommentRow.parentCommentId :=
       or_str (cell row "parentCommentId") (or_str (cell row "parent_comment_id") []);
     CommentRow.likeCount :=
       or_str (cell row "likeCount") (or_str (cell row "like_count") (lit "0"));
     CommentRow.publishedAt :=
       or_str (cell row "publishedAt") (or_str (cell row "published_at") []);
     CommentRow.updatedAt :=
       or_str (cell row "updatedAt") (or_str (cell row "updated_at") []) |}.

Definition videoRowOf (row : jsobj jsstring) : VideoRow.t :=
  {| VideoRow.kind := or_str (cell row "kind") (lit "youtube#video");
     VideoRow.videoId := or_str (cell row "videoId") (or_str (cell row "video_id") []);
     VideoRow.publishedAt :=
       or_str (cell row "publishedAt") (or_str (cell row "published_at") []);
     VideoRow.channelId := or_str (cell row "channelId") (or_str (cell row "channel_id") []);
     VideoRow.title := or_str (cell row "title") [];
     VideoRow.description := or_str (cell row "description") [];
     VideoRow.tags := or_str (cell row "tags") [];
     VideoRow.defaultLanguage :=
       or_str (cell row "defaultLanguage") (or_str (cell row "default_language") (lit "en"));
     VideoRow.defaultAudioLanguage :=
       or_str (cell row "defaultAudioLanguage")
         (or_str (cell row "default_audio_language") (lit "en"));
     VideoRow.contentDuration :=
       or_str (cell row "contentDuration") (or_str (cell row "content_duration") []);
     VideoRow.viewCount :=
       or_str (cell row "viewCount") (or_str (cell row "view_count") (lit "0"));
     VideoRow.likeCount :=
       or_str (cell row "likeCount") (or_str (cell row "like_count") (lit "0"));
     VideoRow.favouriteCount :=
       or_str (cell row "favouriteCount") (or_str (cell row "favourite_count") (lit "0"));
     VideoRow.commentCount :=
       or_str (cell row "commentCount") (or_str (cell row "comment_count") (lit "0"));
     VideoRow.topicCategories := or_str (cell row "topicCategories") [] |}.

Definition parseComments (csvText : jsstring) : orThrow (list CommentData.t) :=
  match parseCSV csvText commentColumns with
  | None => None
  | Some data => Some (fst (cleanCommentData (map commentRowOf data)))
  end.

Definition parseVideos (csvText : jsstring) : orThrow (list VideoData.t) :=
  match parseCSV csvText videoColumns with
  | None => None
  | Some data => Some (fst (cleanVideoData (map videoRowOf data)))
  end.

(** The loop over the candidate separators of [processFile]: the first one
    under which the header line is recognised. *)
Fixpoint detectWith (headerLine : jsstring) (candidates : list N) : FileType.t * N :=
  match candidates with
  | [] => (FileType.unknown, 44%N)
  | separator :: rest =>
      match detectFileType (parseCSVLine headerLine separator) with
      | FileType.unknown => detectWith headerLine rest
      | fileType => (fileType, separator)
      end
  end.

Definition failed (type : FileType.t) (message : string) : UploadedFile.t :=
  {| UploadedFile.type := type;
     UploadedFile.status := UploadStatus.error;
     UploadedFile.data := None;
     UploadedFile.error := Some (lit message);
     UploadedFile.separator := None |}.

Definition accepted (type : FileType.t) (data : FileData) (separator : N)
  : UploadedFile.t :=
  {| UploadedFile.type := type;
     UploadedFile.status := UploadStatus.success;
     UploadedFile.data := Some data;
     UploadedFile.error := None;
     UploadedFile.separator := Some separator |}.

Definition parseFailure : string :=
  "Failed to parse CSV file. Please check the format and ensure it uses proper CSV structure with quotes around fields containing commas.".

(** [processFile], on the text the reader delivers. An exception raised
    while parsing is caught and reported as a failed file. *)
Definition processFile (text : jsstring) : UploadedFile.t :=
  let lines := splitOn 10 (trim text) in
  if Nat.ltb (List.length lines) 2 then
    failed FileType.unknown "File appears to be empty or has no data rows."
  else
    let '(detectedType, bestSeparator) := detectWith (hd [] lines) separators in
    match detectedType with
    | FileType.unknown =>
        failed FileType.unknown
          "Unable to detect file type. Expected columns for comments: commentId, textOriginal, authorId, videoId. For videos: videoId, title, description, viewCount, channelId. Tried separators: comma, semicolon, pipe, tab."
    | FileType.comments =>
        match parseComments text with
        | None => failed FileType.unknown parseFailure
        | Some [] => failed detectedType "No valid data rows found after parsing."
        | Some data => accepted detectedType (CommentRows data) bestSeparator
        end
    | FileType.videos =>
        match parseVideos text with
        | None => failed FileType.unknown parseFailure
        | Some [] => failed detectedType "No valid data rows found after parsing."
        | Some data => accepted detectedType (VideoRows data) bestSeparator
        end
    end.

(** *** The analysis run of the page *)

(** [videoMap]: the videos by [videoId]; a later video replaces an earlier
    one with the same identifier. *)
Definition videoMapOf (videos : list VideoData.t) : jsobj VideoData.t :=
  fold_left (fun m video => obj_set m (VideoData.videoId video) video) videos [].

Fixpoint analyzeBatch (videoMap : jsobj VideoData.t) (batch : list CommentData.t)
  : orThrow (list AnalyzedComment.t) :=
  match batch with
  | [] => Some []
  | comment :: rest =>
      match analyzeCommentWithVideo comment
              (obj_get videoMap (CommentData.videoId comment)) with
      | None => None
      | Some a =>
          match analyzeBatch videoMap rest with
          | None => None
          | Some l => Some (a :: l)
          end
      end
  end.

Definition batchSize : nat := 50.

(** The loop [for (let i = 0; i < comments.length; i += batchSize)]; [fuel]
    bounds the number of rounds. *)
Fixpoint analyzeFrom (fuel i : nat) (videoMap : jsobj VideoData.t)
  (comments : list CommentData.t) (analyzedCommentsList : list AnalyzedComment.t)
  : orThrow (list AnalyzedComment.t) :=
  match fuel with
  | O => Some analyzedCommentsList
  | S fuel' =>
      if Nat.ltb i (List.length comments) then
        match analyzeBatch videoMap (firstn batchSize (skipn i comments)) with
        | None => None
        | Some batchAnalyzed =>
            analyzeFrom fuel' (i + batchSize) videoMap comments
              (analyzedCommentsList ++ batchAnalyzed)
        end
      else Some analyzedCommentsList
  end.

(** [handleFileUpload]: what it stores as analyzed videos and analyzed
    comments. *)
Definition handleFileUpload (comments : list CommentData.t) (videos : list VideoData.t)
  : orThrow (list AnalyzedVideo.t * list AnalyzedComment.t) :=
  let videoMap := videoMapOf videos in
  match analyzeVideos videos with
  | None => None
  | Some analyzedVideosList =>
      match analyzeFrom (List.length comments) 0 videoMap comments [] with
      | None => None
      | Some analyzedCommentsList => Some (analyzedVideosList, analyzedCommentsList)
      end
  end.

(** *** Export (comment analysis component) *)

(** The text column of an exported row: quotes doubled, the whole in
    quotes. *)
Definition exportText (textOriginal : jsstring) : jsstring :=
  34%N :: flat_map (fun c => if N.eqb c 34 then [34; 34]%N else [c]) textOriginal
    ++ [34%N].

(** *** Filters and category cards (comment analysis component) *)

Definition sentimentName (s : Sentiment.t) : jsstring :=
  match s with
  | Sentiment.positive => lit "positive"
  | Sentiment.negative => lit "negative"
  | Sentiment.neutral => lit "neutral"
  end.

(** The state of the search box and of the four selectors. *)
Record FilterState := {
  searchTerm : jsstring;
  selectedCategory : jsstring;
  selectedSentiment : jsstring;
  selectedSpamFilter : jsstring;
  selectedQualityFilter : jsstring
}.

(** The callback of [analyzedComments.filter] in [filteredComments]. *)
Definition matchesFilters (st : FilterState) (comment : AnalyzedComment.t) : bool :=
  let matchesSearch :=
    str_eqb (searchTerm st) [] ||
    includes (toLowerCase host (AnalyzedComment.textOriginal comment))
      (toLowerCase host (searchTerm st)) ||
    existsb (fun keyword =>
               includes (toLowerCase host keyword) (toLowerCase host (searchTerm st)))
      (AnalyzedComment.keywords comment) in
  let matchesCategory :=
    str_eqb (selectedCategory st) (lit "all") ||
    str_eqb (AnalyzedComment.category comment) (selectedCategory st) in
  let matchesSentiment :=
    str_eqb (selectedSentiment st) (lit "all") ||
    str_eqb (sentimentName (AnalyzedComment.sentiment comment)) (selectedSentiment st) in
  let matchesSpamFilter :=
    if str_eqb (selectedSpamFilter st) (lit "spam") then AnalyzedComment.isSpam comment
    else if str_eqb (selectedSpamFilter st) (lit "clean")
         then negb (AnalyzedComment.isSpam comment)
         else true in
  let matchesQualityFilter :=
    if str_eqb (selectedQualityFilter st) (lit "quality")
    then AnalyzedComment.isQuality comment
    else if str_eqb (selectedQualityFilter st) (lit "low-quality")
         then negb (AnalyzedComment.isQuality comment)
         else true in
  matchesSearch && matchesCategory && matchesSentiment && matchesSpamFilter &&
  matchesQualityFilter.

Definition filteredComments (st : FilterState)
  (analyzedComments : list AnalyzedComment.t) : list AnalyzedComment.t :=
  filter (matchesFilters st) analyzedComments.

Definition cardCategories : list jsstring :=
  map lit ["skincare"; "fragrance"; "makeup"; "haircare"; "general"]%string.

Definition categoryCard (analyzedComments : list AnalyzedComment.t) (cat : jsstring)
  : CategoryCard.t :=
  let categoryComments :=
    filter (fun c => str_eqb (AnalyzedComment.category c) cat) analyzedComments in
  let allKeywords := flat_map AnalyzedComment.keywords categoryComments in
  let keywordCounts := fold_left bump allKeywords [] in
  let topKeywords := firstn 10 (jsSort tallyAfter (entries keywordCounts)) in
  let n := List.length categoryComments in
  {| CategoryCard.category := cat;
     CategoryCard.keywords := topKeywords;
     CategoryCard.totalComments := n;
     CategoryCard.avgQuality :=
       if Nat.ltb 0 n
       then num_div (sumBy AnalyzedComment.qualityScore categoryComments) (of_nat n)
       else zero;
     CategoryCard.avgSentiment :=
       if Nat.ltb 0 n
       then num_div (sumBy AnalyzedComment.sentimentScore categoryComments) (of_nat n)
       else zero |}.

(** [categoryKeywords] of the component: one card per category. *)
Definition categoryKeywords (analyzedComments : list AnalyzedComment.t)
  : list CategoryCard.t :=
  map (categoryCard analyzedComments) cardCategories.

End Engine.

(** * Specification-level notions *)

Local Open Scope Z_scope.

Definition emin64 : Z := emin prec emax.

(** A number that is neither zero nor [NaN], of the given sign. *)
Definition signed (s : bool) (x : number) : Prop :=
  match x with
  | S754_finite s' _ _ => s' = s
  | S754_infinity s' => s' = s
  | _ => False
  end.

Definition notNaN (x : number) : Prop := isNaN x = false.

(** The order of [SFcompare] on numbers other than [NaN], as a
    lexicographic order on integer triples. *)
Definition key (x : number) : Z * Z * Z :=
  match x with
  | S754_zero _ => (0, 0, 0)
  | S754_infinity false => (2, 0, 0)
  | S754_infinity true => (-2, 0, 0)
  | S754_nan => (0, 0, 0)
  | S754_finite false m e => (1, e, Z.pos m)
  | S754_finite true m e => (-1, - e, Z.neg m)
  end.

Definition lex_le (a b : Z * Z * Z) : Prop :=
  fst (fst a) < fst (fst b) \/
  (fst (fst a) = fst (fst b) /\
   (snd (fst a) < snd (fst b) \/ (snd (fst a) = snd (fst b) /\ snd a <= snd b))).

Definition lex_lt (a b : Z * Z * Z) : Prop :=
  fst (fst a) < fst (fst b) \/
  (fst (fst a) = fst (fst b) /\
   (snd (fst a) < snd (fst b) \/ (snd (fst a) = snd (fst b) /\ snd a < snd b))).

Local Close Scope Z_scope.

(** Every entry of the six sentiment lists. *)
Definition sentimentWords : list jsstring :=
  SENTIMENT_PATTERNS.positive_strong ++ SENTIMENT_PATTERNS.positive_moderate ++
  SENTIMENT_PATTERNS.positive_mild ++ SENTIMENT_PATTERNS.negative_strong ++
  SENTIMENT_PATTERNS.negative_moderate ++ SENTIMENT_PATTERNS.negative_mild.

(** The lower-cased text contains the words [ws] and no other sentiment
    word. *)
Definition matchesOnly (host : Host) (text : jsstring) (ws : list jsstring) : Prop :=
  forall w, In w sentimentWords ->
    (includes (toLowerCase host text) w = true <-> In w ws).

Definition matchesOnlyb (host : Host) (text : jsstring) (ws : list jsstring) : bool :=
  forallb (fun w => Bool.eqb (includes (toLowerCase host text) w) (mem_str w ws))
    sentimentWords.

(** The sentiment verdict as a function of which words are present. *)
Definition tallyBy (present : jsstring -> bool) (weight : Z)
  (words : list jsstring) (st : Z * Z) : Z * Z :=
  fold_left
    (fun st word => if present word then (fst st + weight, snd st + 1)%Z else st)
    words st.

Definition sentimentFrom (present : jsstring -> bool) : Sentiment.t * number :=
  let st := (0, 0)%Z in
  let st := tallyBy present 3 SENTIMENT_PATTERNS.positive_strong st in
  let st := tallyBy present 2 SENTIMENT_PATTERNS.positive_moderate st in
  let st := tallyBy present 1 SENTIMENT_PATTERNS.positive_mild st in
  let st := tallyBy present (-3) SENTIMENT_PATTERNS.negative_strong st in
  let st := tallyBy present (-2) SENTIMENT_PATTERNS.negative_moderate st in
  let st := tallyBy present (-1) SENTIMENT_PATTERNS.negative_mild st in
  let '(score, wordCount) := st in
  let normalizedScore :=
    if (0 <? wordCount)%Z then num_div (of_Z score) (of_Z wordCount) else zero in
  let sentiment :=
    if num_gtb normalizedScore (dec 5 10) then Sentiment.positive
    else if num_ltb normalizedScore (dec (-5) 10) then Sentiment.negative
    else Sentiment.neutral in
  (sentiment, math_max (of_Z (-1)) (math_min (of_Z 1) normalizedScore)).

(** [pat] occurs in [s] as a contiguous block. *)
Definition substring (pat s : jsstring) : Prop :=
  exists pre suf, s = pre ++ pat ++ suf.

(** A signature token matches when it occurs in some lower-cased header, or
    some lower-cased header occurs in it. *)
Definition tokenMatches (host : Host) (headers : list jsstring) (token : jsstring)
  : Prop :=
  exists h, In h headers /\
    (substring token (toLowerCase host h) \/ substring (toLowerCase host h) token).

(** At least [n] different entries of [tokens] satisfy [P]. *)
Definition atLeast (n : nat) (P : jsstring -> Prop) (tokens : list jsstring) : Prop :=
  exists l, NoDup l /\ incl l tokens /\ List.length l = n /\ Forall P l.

Fixpoint nodupb (l : list jsstring) : bool :=
  match l with
  | [] => true
  | x :: l' => negb (mem_str x l') && nodupb l'
  end.

(** The property has an array index as its name. *)
Definition isIndexed {V : Type} (p : jsstring * V) : bool :=
  match arrayIndex (fst p) with Some _ => true | None => false end.

(** The lines of a text that are not the empty string. *)
Definition nonEmptyLines (text : jsstring) : list jsstring :=
  filter truthy_str (splitOn 10 text).

(** The first code unit, if any, is not white space. *)
Definition headNotSpace (s : jsstring) : Prop :=
  match s with
  | [] => True
  | c :: _ => isWhiteSpace c = false
  end.

(** Structural equality of numbers. *)
Definition num_same (x y : number) : bool :=
  match x, y with
  | S754_zero a, S754_zero b => Bool.eqb a b
  | S754_infinity a, S754_infinity b => Bool.eqb a b
  | S754_nan, S754_nan => true
  | S754_finite a m e, S754_finite b n f => Bool.eqb a b && Pos.eqb m n && Z.eqb e f
  | _, _ => false
  end.

Fixpoint addNew (x : number) (l : list number) : list number :=
  match l with
  | [] => [x]
  | y :: l' => if num_same x y then l else y :: addNew x l'
  end.

(** The scores one more optional addition of [w] can lead to. *)
Definition reachStep (w : number) (S : list number) : list number :=
  fold_left (fun acc x => addNew (num_add x w) acc) S S.

Fixpoint reachSteps (n : nat) (w : number) (S : list number) : list number :=
  match n with
  | O => S
  | Datatypes.S n' => reachSteps n' w (reachStep w S)
  end.

(** Every value [spamScore] can take, whatever the text. *)
Definition spamScores : list number :=
  reachStep (dec 3 10)
    (reachStep (dec 2 10)
       (reachStep (dec 3 10)
          (reachStep (dec 2 10)
             (reachSteps 6 (dec 5 10)
                (reachSteps 5 (dec 2 10)
                   (reachSteps 8 (dec 4 10)
                      (reachSteps 8 (dec 3 10) [zero]))))))).

Definition spamVerdictOk (spamScore : number) : bool :=
  let s := math_min (of_Z 1) spamScore in
  num_leb zero s && num_leb s (of_Z 1) &&
  Bool.eqb (num_gtb spamScore (dec 5 10)) (num_gtb s (dec 5 10)) &&
  negb (num_eqb s (dec 5 10) && num_gtb spamScore (dec 5 10)).

Definition commentDrops (n : CommentCounters) : nat :=
  cc_nullVideoIds n + cc_nullCommentIds n + cc_nullTexts n.

Definition videoDrops (n : VideoCounters) : nat :=
  vc_nullVideoIds n + vc_nullTitles n.

(** The categories [categorizeComment] can answer. *)
Definition knownCategories : list jsstring :=
  lit "general" :: map fst CATEGORY_KEYWORDS.

(** A cleaned video row with the given title and counters. *)
Definition sampleVideo (title : string) (views likes favourites commentCount : Z)
  : VideoData.t :=
  {| VideoData.kind := lit "youtube#video";
     VideoData.videoId := lit "v1";
     VideoData.publishedAt := lit "2024-03-01T10:00:00Z";
     VideoData.channelId := lit "c1";
     VideoData.title := lit title;
     VideoData.description := [];
     VideoData.tags := [];
     VideoData.defaultLanguage := lit "en";
     VideoData.defaultAudioLanguage := lit "en";
     VideoData.contentDuration := [];
     VideoData.viewCount := of_Z views;
     VideoData.likeCount := of_Z likes;
     VideoData.favouriteCount := of_Z favourites;
     VideoData.commentCount := of_Z commentCount;
     VideoData.topicCategories := [] |}.

(** Occurrences of a keyword in one keyword list, with multiplicity. *)
Definition countIn (k : jsstring) (l : list jsstring) : nat :=
  List.length (filter (str_eqb k) l).

(** Occurrences of a keyword over all records, with multiplicity. *)
Fixpoint occurrences (k : jsstring) (comments : list AnalyzedComment.t) : nat :=
  match comments with
  | [] => 0
  | c :: rest => countIn k (AnalyzedComment.keywords c) + occurrences k rest
  end.

(** The number of records whose keyword list contains the keyword. *)
Definition recordsContaining (k : jsstring) (comments : list AnalyzedComment.t) : nat :=
  List.length (filter (fun c => mem_str k (AnalyzedComment.keywords c)) comments).

(** The sentiment of the first record whose keyword list contains the
    keyword. *)
Fixpoint firstSentiment (k : jsstring) (comments : list AnalyzedComment.t)
  : option Sentiment.t :=
  match comments with
  | [] => None
  | c :: rest =>
      if mem_str k (AnalyzedComment.keywords c)
      then Some (AnalyzedComment.sentiment c)
      else firstSentiment k rest
  end.

(** What the keyword loop has recorded for [k] after one more keyword. *)
Definition recordStep (k : jsstring) (s : Sentiment.t) (keyword : jsstring)
  (d : option KeywordData) : option KeywordData :=
  if str_eqb keyword k then
    match d with
    | Some d => Some {| kd_count := S (kd_count d); kd_sentiment := kd_sentiment d |}
    | None =>
        if isInherited k then None
        else Some {| kd_count := 1; kd_sentiment := s |}
    end
  else d.

(** What the keyword loop records for [k] over whole records, given what it
    had recorded before. *)
Fixpoint recorded (k : jsstring) (comments : list AnalyzedComment.t)
  (d : option KeywordData) : option KeywordData :=
  match comments with
  | [] => d
  | c :: rest =>
      recorded k rest
        (fold_left (fun d keyword => recordStep k (AnalyzedComment.sentiment c) keyword d)
           (AnalyzedComment.keywords c) d)
  end.

Definition toTopKeyword (p : jsstring * KeywordData) : TopKeyword.t :=
  {| TopKeyword.keyword := fst p;
     TopKeyword.count := kd_count (snd p);
     TopKeyword.sentiment := kd_sentiment (snd p) |}.

(** A record whose keyword list names one keyword twice: the keywords of
    the text "moisturizer" in category skincare. *)
Definition commentWithKeywords (keywords : list jsstring) : AnalyzedComment.t :=
  {| AnalyzedComment.commentId := lit "c1";
     AnalyzedComment.textOriginal := lit "moisturizer";
     AnalyzedComment.authorId := lit "a1";
     AnalyzedComment.likeCount := zero;
     AnalyzedComment.publishedAt := lit "2024-03-01T10:00:00Z";
     AnalyzedComment.videoId := None;
     AnalyzedComment.videoTitle := None;
     AnalyzedComment.videoViewCount := None;
     AnalyzedComment.videoLikeCount := None;
     AnalyzedComment.videoCommentCount := None;
     AnalyzedComment.videoTopicCategories := None;
     AnalyzedComment.sentiment := Sentiment.neutral;
     AnalyzedComment.sentimentScore := zero;
     AnalyzedComment.category := lit "skincare";
     AnalyzedComment.subcategory := None;
     AnalyzedComment.isSpam := false;
     AnalyzedComment.spamScore := zero;
     AnalyzedComment.isQuality := false;
     AnalyzedComment.qualityScore := zero;
     AnalyzedComment.relevanceScore := zero;
     AnalyzedComment.keywords := keywords;
     AnalyzedComment.entities := [];
     AnalyzedComment.emotions := [];
     AnalyzedComment.toxicity := zero;
     AnalyzedComment.engagement := low;
     AnalyzedComment.language := lit "en";
     AnalyzedComment.readabilityScore := zero |}.

(** An engagement rate that is an ordinary binary64 value other than [NaN]. *)
Definition rateOk (v : AnalyzedVideo.t) : Prop :=
  valid_binary prec emax (AnalyzedVideo.engagementRate v) = true /\
  notNaN (AnalyzedVideo.engagementRate v).

(** [a] may stand before [b] in descending order of engagement rate. *)
Definition descending (a b : AnalyzedVideo.t) : Prop :=
  num_leb (AnalyzedVideo.engagementRate b) (AnalyzedVideo.engagementRate a) = true.

(** An analyzed video with the given identifier and engagement rate. *)
Definition sampleAnalyzed (id : string) (rate : Z) : AnalyzedVideo.t :=
  {| AnalyzedVideo.videoId := lit id;
     AnalyzedVideo.title := lit "Skincare Routine";
     AnalyzedVideo.description := [];
     AnalyzedVideo.channelId := lit "c1";
     AnalyzedVideo.publishedAt := lit "2024-03-01T10:00:00Z";
     AnalyzedVideo.viewCount := of_Z 1000;
     AnalyzedVideo.likeCount := of_Z (10 * rate);
     AnalyzedVideo.commentCount := of_Z 2;
     AnalyzedVideo.contentDuration := [];
     AnalyzedVideo.topicCategories := [];
     AnalyzedVideo.titleSentiment := Sentiment.neutral;
     AnalyzedVideo.titleSentimentScore := zero;
     AnalyzedVideo.descriptionSentiment := Sentiment.neutral;
     AnalyzedVideo.descriptionSentimentScore := zero;
     AnalyzedVideo.category := lit "skincare";
     AnalyzedVideo.keywords := [];
     AnalyzedVideo.engagementRate := of_Z rate;
     AnalyzedVideo.popularityScore := zero;
     AnalyzedVideo.contentQuality := low;
     AnalyzedVideo.avgCommentSentiment := None;
     AnalyzedVideo.commentEngagementRatio := None;
     AnalyzedVideo.favouriteCount := None |}.



(** [fields.join(sep)] for a separator of one code unit. *)
Fixpoint joinWith (sep : N) (fields : list jsstring) : jsstring :=
  match fields with
  | [] => []
  | [f] => f
  | f :: rest => f ++ sep :: joinWith sep rest
  end.

(** The header score of a candidate separator, as [parseCSV] computes it. *)
Definition separatorScore (host : Host) (expectedColumns : list jsstring)
  (headerLine : jsstring) (separator : N) : nat :=
  headerScore host expectedColumns (parseCSVLine headerLine separator).



Definition escapeQuotes (text : jsstring) : jsstring :=
  flat_map (fun c => if N.eqb c 34 then [34; 34]%N else [c]) text.

Definition notQuoteFirst (rest : jsstring) : Prop :=
  match rest with
  | c :: _ => c <> 34%N
  | [] => True
  end.




(** A number that is not [NaN] and not below zero. *)
Definition nonNegative (x : number) : Prop :=
  notNaN x /\ num_leb zero x = true.

(** The rows [cleanCommentData] keeps. *)
Definition keepsComment (row : CommentRow.t) : bool :=
  negb (isBlank (CommentRow.videoId row)) &&
  negb (isBlank (CommentRow.commentId row)) &&
  negb (isBlank (CommentRow.textOriginal row)).

(** The rows [cleanVideoData] keeps. *)
Definition keepsVideo (row : VideoRow.t) : bool :=
  negb (isBlank (VideoRow.videoId row)) && negb (isBlank (VideoRow.title row)).

(** A time stamp that is present and does not pass [isValidDate]. *)
Definition badDate (host : Host) (publishedAt : jsstring) : bool :=
  truthy_str publishedAt && negb (isValidDate host publishedAt).

(** The cleaned comment [c] comes from the row [row]. *)
Definition commentFrom (host : Host) (row : CommentRow.t) (c : CommentData.t) : Prop :=
  CommentData.kind c = CommentRow.kind row /\
  CommentData.commentId c = CommentRow.commentId row /\
  CommentData.channelId c = CommentRow.channelId row /\
  CommentData.videoId c = CommentRow.videoId row /\
  CommentData.authorId c = or_str (CommentRow.authorId row) (lit "unknown") /\
  CommentData.textOriginal c = trim (CommentRow.textOriginal row) /\
  CommentData.parentCommentId c = CommentRow.parentCommentId row /\
  CommentData.likeCount c = cleanCount (CommentRow.likeCount row) /\
  CommentData.publishedAt c =
    (if badDate host (CommentRow.publishedAt row) then []
     else CommentRow.publishedAt row) /\
  CommentData.updatedAt c = CommentRow.updatedAt row.

(** The cleaned video [v] comes from the row [row]. *)
Definition videoFrom (host : Host) (row : VideoRow.t) (v : VideoData.t) : Prop :=
  VideoData.kind v = VideoRow.kind row /\
  VideoData.videoId v = VideoRow.videoId row /\
  VideoData.publishedAt v =
    (if badDate host (VideoRow.publishedAt row) then []
     else VideoRow.publishedAt row) /\
  VideoData.channelId v = VideoRow.channelId row /\
  VideoData.title v = trim (VideoRow.title row) /\
  VideoData.description v = VideoRow.description row /\
  VideoData.tags v = splitList (VideoRow.tags row) /\
  VideoData.defaultLanguage v = or_str (VideoRow.defaultLanguage row) (lit "en") /\
  VideoData.defaultAudioLanguage v = VideoRow.defaultAudioLanguage row /\
  VideoData.contentDuration v = VideoRow.contentDuration row /\
  VideoData.viewCount v = cleanCount (VideoRow.viewCount row) /\
  VideoData.likeCount v = cleanCount (VideoRow.likeCount row) /\
  VideoData.favouriteCount v = cleanCount (VideoRow.favouriteCount row) /\
  VideoData.commentCount v = cleanCount (VideoRow.commentCount row) /\
  VideoData.topicCategories v = splitList (VideoRow.topicCategories row).

(** A view count that is present but cleans to zero. *)
Definition badMetric (viewCount : jsstring) : bool :=
  truthy_str viewCount && num_eqb (cleanCount viewCount) zero.

Definition countIf {A : Type} (p : A -> bool) (l : list A) : nat :=
  List.length (filter p l).

(** The verdict of [analyzeSentiment] from the two counters its loops
    leave. *)
Definition sentimentVerdict (score wordCount : Z) : Sentiment.t * number :=
  let normalizedScore :=
    if (0 <? wordCount)%Z then num_div (of_Z score) (of_Z wordCount) else zero in
  let sentiment :=
    if num_gtb normalizedScore (dec 5 10) then Sentiment.positive
    else if num_ltb normalizedScore (dec (-5) 10) then Sentiment.negative
    else Sentiment.neutral in
  (sentiment, math_max (of_Z (-1)) (math_min (of_Z 1) normalizedScore)).

(** The label and the clamped score of a verdict agree. *)
Definition sentimentAgrees (r : Sentiment.t * number) : bool :=
  num_leb (of_Z (-1)) (snd r) && num_leb (snd r) (of_Z 1) &&
  match fst r with
  | Sentiment.positive => num_gtb (snd r) (dec 5 10)
  | Sentiment.negative => num_ltb (snd r) (dec (-5) 10)
  | Sentiment.neutral => num_leb (dec (-5) 10) (snd r) && num_leb (snd r) (dec 5 10)
  end.

(** Every pair of counters with [wordCount <= maxWords] and
    [|score| <= 3 * wordCount] passes [check]. *)
Definition forCounters (maxWords : nat) (check : Z -> Z -> bool) : bool :=
  forallb
    (fun w =>
       forallb (fun d => check (Z.of_nat d - 3 * Z.of_nat w)%Z (Z.of_nat w))
         (seq 0 (6 * w + 1)))
    (seq 0 (maxWords + 1)).

(** [h] is the first element of [l] with the greatest value of [f]. *)
Definition firstBest {A : Type} (f : A -> Z) (l : list A) (h : A) : Prop :=
  exists before later,
    l = before ++ h :: later /\
    Forall (fun a => (f a < f h)%Z) before /\
    Forall (fun a => (f a <= f h)%Z) later.

(** The score [categorizeComment] gives the text for a table entry. *)
Definition scoreOf (host : Host) (text : jsstring) (p : jsstring * CategoryKeywords) : Z :=
  categoryScore (toLowerCase host text) (snd p).

(** The sum of the scores of all categories. *)
Definition totalScoreOf (host : Host) (text : jsstring) : Z :=
  fold_left Z.add (map (scoreOf host text) CATEGORY_KEYWORDS) 0%Z.

(** Every pair [1 <= top <= total <= bound] passes [check]. *)
Definition forRatios (bound : nat) (check : Z -> Z -> bool) : bool :=
  forallb
    (fun total =>
       forallb (fun top => check (Z.of_nat top) (Z.of_nat total)) (seq 1 total))
    (seq 1 bound).

(** The conditions under which [detectSpam] records each of its reasons. *)
Definition spamConditions (host : Host) (text : jsstring) : list (jsstring * bool) :=
  let lowerText := toLowerCase host text in
  [ (lit "promotional_content", existsb (includes lowerText) SPAM_PATTERNS.promotional);
    (lit "monetary_scheme", existsb (includes lowerText) SPAM_PATTERNS.monetary);
    (lit "repetitive_pattern", existsb (includes lowerText) SPAM_PATTERNS.repetitive);
    (lit "suspicious_content", existsb (includes lowerText) SPAM_PATTERNS.suspicious);
    (lit "too_short", Nat.ltb (List.length text) 10);
    (lit "excessive_emojis", Nat.ltb 5 (emojiCount text));
    (lit "excessive_caps",
     num_gtb (num_div (of_nat (capsCount text)) (of_nat (List.length text))) (dec 7 10) &&
     Nat.ltb 10 (List.length text));
    (lit "contains_url", hasUrl text) ].

(** Every value [qualityScore] can take, whatever the text and the
    metadata. *)
Definition qualityScores : list number :=
  reachStep (dec 5 100)
    (reachStep (dec 1 10)
       (reachSteps 10 (dec 1 10)
          (reachStep (dec 2 10)
             (reachStep (dec 3 10)
                (reachStep (dec 1 10)
                   (reachStep (dec 2 10) [zero])))))).

(** The values [qualityScore] can take when both engagement factors
    apply. *)
Definition likedScores : list number :=
  reachStep (dec 5 100)
    (reachStep (dec 1 10)
       (reachSteps 10 (dec 1 10)
          (map (fun x => num_add x (dec 2 10))
             (map (fun x => num_add x (dec 3 10))
                (reachStep (dec 1 10)
                   (reachStep (dec 2 10) [zero])))))).

Definition qualityVerdictOk (qualityScore : number) : bool :=
  let s := math_min (of_Z 1) qualityScore in
  num_leb zero s && num_leb s (of_Z 1) &&
  Bool.eqb (num_gtb qualityScore (dec 4 10)) (num_gtb s (dec 4 10)).

(** The conditions under which [assessQuality] records each of its
    factors. *)
Definition qualityConditions (host : Host) (text : jsstring) (likeCount : number)
  : list (jsstring * bool) :=
  [ (lit "adequate_length", Nat.ltb 50 (List.length text));
    (lit "detailed_content", Nat.ltb 100 (List.length text));
    (lit "has_engagement", num_gtb likeCount zero);
    (lit "high_engagement", num_gtb likeCount (of_Z 5));
    (lit "quality_indicator",
     existsb (includes (toLowerCase host text)) QUALITY_INDICATORS.positive);
    (lit "multiple_sentences", Nat.ltb 1 (List.length (sentencesOf text)));
    (lit "proper_capitalization", startsUpper host text) ].

(** The words [extractKeywords] reads off the text: lower case, every
    character that is neither a word character nor white space replaced by a
    space, split at white space. *)
Definition textWords (host : Host) (text : jsstring) : list jsstring :=
  splitSpaces
    (map (fun c => if isWordChar c || isWhiteSpace c then c else 32%N)
       (toLowerCase host text)).

(** [k] is a primary or secondary keyword of the category that the
    lower-cased text contains. *)
Definition relevantKeyword (host : Host) (text category k : jsstring) : Prop :=
  exists categoryKeywords,
    obj_get CATEGORY_KEYWORDS category = Some categoryKeywords /\
    In k (primary categoryKeywords ++ secondary categoryKeywords) /\
    includes (toLowerCase host text) k = true.

(** [k] is a word of the text longer than three characters that is not a
    stop word. *)
Definition contentWord (host : Host) (text k : jsstring) : Prop :=
  In k (textWords host text) /\ 3 < List.length k /\ mem_str k stopWords = false.

(** The last video of the list with the given identifier. *)
Definition lastVideo (videoId : jsstring) (videos : list VideoData.t)
  : option VideoData.t :=
  find (fun v => str_eqb (VideoData.videoId v) videoId) (rev videos).

(** The analyzed comment carries the context of the video, or none. *)
Definition videoContext (a : AnalyzedComment.t) (video : option VideoData.t) : Prop :=
  AnalyzedComment.videoId a = option_map VideoData.videoId video /\
  AnalyzedComment.videoTitle a = option_map VideoData.title video /\
  AnalyzedComment.videoViewCount a = option_map VideoData.viewCount video /\
  AnalyzedComment.videoLikeCount a = option_map VideoData.likeCount video /\
  AnalyzedComment.videoCommentCount a = option_map VideoData.commentCount video /\
  AnalyzedComment.videoTopicCategories a = option_map VideoData.topicCategories video.

(** The rows of an accepted file, whatever their kind. *)
Definition rowCount (data : FileData) : nat :=
  match data with
  | CommentRows rows => List.length rows
  | VideoRows rows => List.length rows
  end.

(** What [processFile] parses the text with, by detected type. *)
Definition parsedAs (host : Host) (type : FileType.t) (text : jsstring)
  : option FileData :=
  match type with
  | FileType.comments => option_map CommentRows (parseComments host text)
  | FileType.videos => option_map VideoRows (parseVideos host text)
  | FileType.unknown => None
  end.

(** The number of comments of a category. *)
Definition inCategory (k : jsstring) (comments : list AnalyzedComment.t) : nat :=
  countIf (fun c => str_eqb (AnalyzedComment.category c) k) comments.

(** The number of comments published in an hour of the day. *)
Definition inHour (host : Host) (hour : nat) (comments : list AnalyzedComment.t) : nat :=
  countIf (fun c => hourKey_eqb (hourOf host (AnalyzedComment.publishedAt c)) (Some hour))
    comments.

(** The entry of [topPerformingVideos] for a video. *)
Definition topVideoOf (v : AnalyzedVideo.t) : TopVideo.t :=
  {| TopVideo.videoId := AnalyzedVideo.videoId v;
     TopVideo.title := AnalyzedVideo.title v;
     TopVideo.engagementRate := AnalyzedVideo.engagementRate v |}.

(** An analyzed comment of the given category and time stamp. *)
Definition sampleComment (category publishedAt : string) : AnalyzedComment.t :=
  {| AnalyzedComment.commentId := lit "c1";
     AnalyzedComment.textOriginal := lit "nice";
     AnalyzedComment.authorId := lit "a1";
     AnalyzedComment.likeCount := of_Z 2;
     AnalyzedComment.publishedAt := lit publishedAt;
     AnalyzedComment.videoId := None;
     AnalyzedComment.videoTitle := None;
     AnalyzedComment.videoViewCount := None;
     AnalyzedComment.videoLikeCount := None;
     AnalyzedComment.videoCommentCount := None;
     AnalyzedComment.videoTopicCategories := None;
     AnalyzedComment.sentiment := Sentiment.positive;
     AnalyzedComment.sentimentScore := of_Z 1;
     AnalyzedComment.category := lit category;
     AnalyzedComment.subcategory := None;
     AnalyzedComment.isSpam := false;
     AnalyzedComment.spamScore := zero;
     AnalyzedComment.isQuality := false;
     AnalyzedComment.qualityScore := zero;
     AnalyzedComment.relevanceScore := zero;
     AnalyzedComment.keywords := [];
     AnalyzedComment.entities := [];
     AnalyzedComment.emotions := [];
     AnalyzedComment.toxicity := zero;
     AnalyzedComment.engagement := low;
     AnalyzedComment.language := lit "en";
     AnalyzedComment.readabilityScore := zero |}.

(** A counter object holds counts only. *)
Definition countsOnly (o : jsobj tally) (k : jsstring) : Prop :=
  obj_get o k <> Some Junk.

Definition countOf (o : jsobj tally) (k : jsstring) : nat :=
  match obj_get o k with
  | Some (Count n) => n
  | _ => 0
  end.

(** A text of white space and sentence marks only. *)
Definition wordless (text : jsstring) : Prop :=
  Forall (fun c => isWhiteSpace c || isSentenceEnd c = true) text.

(** The filter state with the given spam and quality selections. *)
Definition selecting (search category sentiment spam quality : jsstring) : FilterState :=
  {| searchTerm := search;
     selectedCategory := category;
     selectedSentiment := sentiment;
     selectedSpamFilter := spam;
     selectedQualityFilter := quality |}.

(** * Properties *)

Local Open Scope Z_scope.

Lemma digits2_pos_lower (m : positive) :
  2 ^ (Z.pos (digits2_pos m) - 1) <= Z.pos m.
Proof.
  induction m as [m IH | m IH |]; simpl digits2_pos.
  - rewrite Pos2Z.inj_succ.
    replace (Z.succ (Z.pos (digits2_pos m)) - 1) with (Z.succ (Z.pos (digits2_pos m) - 1)) by lia.
    rewrite Z.pow_succ_r by lia. lia.
  - rewrite Pos2Z.inj_succ.
    replace (Z.succ (Z.pos (digits2_pos m)) - 1) with (Z.succ (Z.pos (digits2_pos m) - 1)) by lia.
    rewrite Z.pow_succ_r by lia. lia.
  - simpl. lia.
Qed.

Lemma digits2_pos_upper (m : positive) :
  Z.pos m < 2 ^ Z.pos (digits2_pos m).
Proof.
  induction m as [m IH | m IH |]; simpl digits2_pos.
  - rewrite Pos2Z.inj_succ, Z.pow_succ_r by lia. lia.
  - rewrite Pos2Z.inj_succ, Z.pow_succ_r by lia. lia.
  - simpl. lia.
Qed.

Lemma shr_1_m (mrs : shr_record) :
  0 <= shr_m mrs -> shr_m (shr_1 mrs) = shr_m mrs / 2.
Proof.
  destruct mrs as [m r s]; simpl. intros Hm.
  destruct m as [| p | p]; try lia.
  - reflexivity.
  - destruct p as [p | p |]; simpl.
    + rewrite Pos2Z.inj_xI. apply Z.div_unique with (r := 1); lia.
    + rewrite Pos2Z.inj_xO. apply Z.div_unique with (r := 0); lia.
    + reflexivity.
Qed.

Lemma pow2_xO (p : positive) : 2 ^ Z.pos p~0 = 2 ^ Z.pos p * 2 ^ Z.pos p.
Proof. rewrite Pos2Z.inj_xO, <- Z.pow_add_r by lia. f_equal. lia. Qed.

Lemma pow2_xI (p : positive) : 2 ^ Z.pos p~1 = 2 * (2 ^ Z.pos p * 2 ^ Z.pos p).
Proof.
  rewrite Pos2Z.inj_xI, <- Z.pow_add_r by lia.
  replace (2 * Z.pos p + 1) with (Z.succ (Z.pos p + Z.pos p)) by lia.
  rewrite Z.pow_succ_r by lia. reflexivity.
Qed.

Lemma shr_iter_m (p : positive) : forall mrs,
  0 <= shr_m mrs ->
  shr_m (iter_pos shr_1 p mrs) = shr_m mrs / 2 ^ Z.pos p.
Proof.
  induction p as [p IH | p IH |]; intros mrs Hm; simpl iter_pos.
  - assert (H1 : 0 <= shr_m (shr_1 mrs)).
    { rewrite shr_1_m by assumption. apply Z.div_pos; lia. }
    assert (H2 : 0 <= shr_m (iter_pos shr_1 p (shr_1 mrs))).
    { rewrite IH by assumption. apply Z.div_pos; [assumption | lia]. }
    rewrite IH, IH, shr_1_m by assumption.
    rewrite !Z.div_div by lia.
    rewrite pow2_xI. reflexivity.
  - assert (H2 : 0 <= shr_m (iter_pos shr_1 p mrs)).
    { rewrite IH by assumption. apply Z.div_pos; [assumption | lia]. }
    rewrite IH, IH by assumption.
    rewrite Z.div_div by lia.
    rewrite pow2_xO. reflexivity.
  - rewrite shr_1_m by assumption. reflexivity.
Qed.

Lemma shr_record_of_loc_m m l : shr_m (shr_record_of_loc m l) = m.
Proof. destruct l as [| c]; [reflexivity | destruct c; reflexivity]. Qed.

Lemma shr_fexp_pos (m e : Z) (l : location) :
  0 < m -> emin64 <= e ->
  0 < shr_m (fst (shr_fexp prec emax m e l)) /\
  emin64 <= snd (shr_fexp prec emax m e l).
Proof.
  intros Hm He. unfold shr_fexp, shr.
  destruct (fexp prec emax (Zdigits2 m + e) - e) as [| p | p] eqn:En;
    simpl fst; simpl snd; rewrite ?shr_record_of_loc_m; try (split; assumption).
  rewrite shr_iter_m by (rewrite shr_record_of_loc_m; lia).
  rewrite shr_record_of_loc_m.
  destruct m as [| q | q]; try lia.
  simpl Zdigits2 in En.
  pose proof (digits2_pos_lower q) as Hd.
  unfold fexp, emin64, emin, prec, emax in *.
  assert (Hp : Z.pos p <= Z.pos (digits2_pos q) - 1) by lia.
  split; [| lia].
  apply Z.div_str_pos. split; [apply Z.pow_pos_nonneg; lia |].
  apply Z.le_trans with (2 ^ (Z.pos (digits2_pos q) - 1)); [| assumption].
  apply Z.pow_le_mono_r; lia.
Qed.

Lemma round_nearest_even_ge (m : Z) (l : location) : m <= round_nearest_even m l.
Proof.
  destruct l as [| c]; simpl; [lia |].
  destruct c; try lia. destruct (Z.even m); lia.
Qed.

Lemma binary_round_aux_signed (s : bool) (m e : Z) (l : location) :
  0 < m -> emin64 <= e -> signed s (binary_round_aux prec emax s m e l).
Proof.
  intros Hm He. unfold binary_round_aux.
  pose proof (shr_fexp_pos m e l Hm He) as [H1 H2].
  destruct (shr_fexp prec emax m e l) as [mrs' e'] eqn:E1. simpl in H1, H2.
  pose proof (round_nearest_even_ge (shr_m mrs') (loc_of_shr_record mrs')) as Hr.
  assert (Hm' : 0 < round_nearest_even (shr_m mrs') (loc_of_shr_record mrs')) by lia.
  pose proof (shr_fexp_pos _ _ loc_Exact Hm' H2) as [H3 _].
  destruct (shr_fexp prec emax _ e' loc_Exact) as [mrs'' e''] eqn:E2. simpl in H3.
  destruct (shr_m mrs'') as [| q | q]; try lia.
  destruct (e'' <=? emax - prec); reflexivity.
Qed.

Lemma shift_pos_value (m d : positive) :
  Z.pos (Pos.iter xO m d) = Z.pos m * 2 ^ Z.pos d.
Proof.
  change (Pos.iter xO m d) with (shift_pos d m).
  rewrite shift_pos_correct, Z.pow_pos_fold. lia.
Qed.

Lemma shl_align_value (m : positive) (e e' : Z) :
  e' <= e ->
  Z.pos (fst (shl_align m e e')) = Z.pos m * 2 ^ (e - e') /\
  snd (shl_align m e e') = e'.
Proof.
  intros H. unfold shl_align.
  destruct (e' - e) as [| d | d] eqn:Ed; simpl fst; simpl snd; try lia.
  - replace (e - e') with 0 by lia. simpl. lia.
  - rewrite shift_pos_value. replace (e - e') with (Z.pos d) by lia. lia.
Qed.

Lemma binary_round_signed (s : bool) (m : positive) (e : Z) :
  emin64 <= e -> signed s (binary_round prec emax s m e).
Proof.
  intros He. unfold binary_round.
  destruct (shl_align m e (fexp prec emax (Z.pos (digits2_pos m) + e))) as [mz ez] eqn:Ea.
  apply binary_round_aux_signed; [lia |].
  unfold shl_align in Ea.
  destruct (fexp prec emax (Z.pos (digits2_pos m) + e) - e) eqn:Ed;
    inversion Ea; subst; try assumption.
  unfold fexp, emin64. lia.
Qed.

Lemma of_Z_pos_signed (p : positive) : signed false (of_Z (Z.pos p)).
Proof.
  unfold of_Z. simpl binary_normalize. apply binary_round_signed.
  unfold emin64, emin, prec, emax. lia.
Qed.

Lemma valid_finite (s : bool) (m : positive) (e : Z) :
  valid_binary prec emax (S754_finite s m e) = true ->
  emin64 <= e /\ Z.pos (digits2_pos m) <= 53 /\
  (emin64 < e -> Z.pos (digits2_pos m) = 53).
Proof.
  simpl. unfold bounded, canonical_mantissa, fexp, emin64, emin, prec, emax.
  intros H. apply andb_true_iff in H. destruct H as [H _].
  apply Z.eqb_eq in H. lia.
Qed.

Lemma gt_zero_signed (x : number) (s : bool) :
  signed s x -> num_gtb x zero = negb s.
Proof.
  destruct x as [s' | s' | | s' m e]; simpl; intros H; try contradiction; subst;
    destruct s; reflexivity.
Qed.

Lemma normalize_gt_zero (M e : Z) :
  emin64 <= e ->
  num_gtb (binary_normalize prec emax M e false) zero = (0 <? M).
Proof.
  intros He. destruct M as [| p | p]; simpl binary_normalize.
  - reflexivity.
  - rewrite (gt_zero_signed _ false) by (apply binary_round_signed; assumption).
    reflexivity.
  - rewrite (gt_zero_signed _ true) by (apply binary_round_signed; assumption).
    reflexivity.
Qed.

(** Scaled mantissas of two valid numbers compare as exponent, then
    mantissa. *)
Lemma aligned_lt (mx my : positive) (ex ey : Z) :
  emin64 <= ey -> Z.pos (digits2_pos my) <= 53 ->
  (emin64 < ex -> Z.pos (digits2_pos mx) = 53) ->
  ey < ex ->
  Z.pos my * 2 ^ (ey - Z.min ex ey) < Z.pos mx * 2 ^ (ex - Z.min ex ey).
Proof.
  intros Hey Hdy Hdx Hlt.
  rewrite Z.min_r by lia. replace (ey - ey) with 0 by lia.
  rewrite Z.pow_0_r, Z.mul_1_r.
  assert (Hd : Z.pos (digits2_pos mx) = 53) by (apply Hdx; lia).
  pose proof (digits2_pos_lower mx) as Hl. rewrite Hd in Hl.
  pose proof (digits2_pos_upper my) as Hu.
  assert (Hp : 2 ^ Z.pos (digits2_pos my) <= 2 ^ 53)
    by (apply Z.pow_le_mono_r; lia).
  assert (Hq : 2 ^ 1 <= 2 ^ (ex - ey)) by (apply Z.pow_le_mono_r; lia).
  change (2 ^ 1) with 2 in Hq.
  change (2 ^ (53 - 1)) with 4503599627370496 in Hl.
  change (2 ^ 53) with 9007199254740992 in Hp.
  nia.
Qed.

Lemma sub_finite_gt_zero (sx sy : bool) (mx my : positive) (ex ey : Z) :
  valid_binary prec emax (S754_finite sx mx ex) = true ->
  valid_binary prec emax (S754_finite sy my ey) = true ->
  num_gtb (num_sub (S754_finite sx mx ex) (S754_finite sy my ey)) zero =
  num_ltb (S754_finite sy my ey) (S754_finite sx mx ex).
Proof.
  intros Vx Vy.
  destruct (valid_finite _ _ _ Vx) as (Hex & Hdx & Hnx).
  destruct (valid_finite _ _ _ Vy) as (Hey & Hdy & Hny).
  unfold num_sub, SFsub.
  rewrite normalize_gt_zero by lia.
  destruct (shl_align_value mx ex (Z.min ex ey)) as [Ex _]; [lia |].
  destruct (shl_align_value my ey (Z.min ex ey)) as [Ey _]; [lia |].
  rewrite Ex, Ey. clear Ex Ey.
  unfold num_ltb, SFltb, SFcompare.
  assert (Px : 0 < Z.pos mx * 2 ^ (ex - Z.min ex ey))
    by (apply Z.mul_pos_pos; [lia | apply Z.pow_pos_nonneg; lia]).
  assert (Py : 0 < Z.pos my * 2 ^ (ey - Z.min ex ey))
    by (apply Z.mul_pos_pos; [lia | apply Z.pow_pos_nonneg; lia]).
  assert (Hlt : ey < ex ->
            Z.pos my * 2 ^ (ey - Z.min ex ey) < Z.pos mx * 2 ^ (ex - Z.min ex ey))
    by (apply aligned_lt; assumption).
  assert (Hgt : ex < ey ->
            Z.pos mx * 2 ^ (ex - Z.min ex ey) < Z.pos my * 2 ^ (ey - Z.min ex ey)).
  { intros H. rewrite (Z.min_comm ex ey). apply aligned_lt; assumption. }
  assert (Heq : ey = ex ->
            Z.pos mx * 2 ^ (ex - Z.min ex ey) = Z.pos mx /\
            Z.pos my * 2 ^ (ey - Z.min ex ey) = Z.pos my).
  { intros ->. rewrite Z.min_id, Z.sub_diag, Z.pow_0_r. lia. }
  change (Pos.compare_cont Eq my mx) with (Pos.compare my mx).
  remember (Z.pos mx * 2 ^ (ex - Z.min ex ey)) as X eqn:EX.
  remember (Z.pos my * 2 ^ (ey - Z.min ex ey)) as Y eqn:EY.
  clear EX EY. unfold cond_Zopp.
  destruct sx, sy;
    destruct (Z.compare_spec ey ex) as [E | E | E];
    try (destruct (Pos.compare_spec my mx) as [C | C | C]; simpl CompOpp);
    cbv beta iota;
    first [ apply Z.ltb_lt; lia | apply Z.ltb_ge; lia ].
Qed.

Lemma sub_gt_zero (x y : number) :
  valid_binary prec emax x = true -> valid_binary prec emax y = true ->
  notNaN x -> notNaN y ->
  num_gtb (num_sub x y) zero = num_ltb y x.
Proof.
  intros Vx Vy Nx Ny.
  destruct x as [sx | sx | | sx mx ex]; try discriminate Nx;
    destruct y as [sy | sy | | sy my ey]; try discriminate Ny;
    try (apply sub_finite_gt_zero; assumption);
    try (destruct sx); try (destruct sy); reflexivity.
Qed.

Ltac order_cases :=
  repeat match goal with
  | |- context [Z.compare ?a ?b] => destruct (Z.compare_spec a b)
  | |- context [Pos.compare ?a ?b] => destruct (Pos.compare_spec a b)
  end;
  simpl;
  (split;
   [ intros HH; try discriminate HH; repeat split; try reflexivity; lia
   | intros (_ & _ & HH); try reflexivity; lia ]).

Lemma leb_iff (x y : number) :
  num_leb x y = true <-> notNaN x /\ notNaN y /\ lex_le (key x) (key y).
Proof.
  unfold num_leb, SFleb, SFcompare, notNaN, lex_le.
  change (Pos.compare_cont Eq) with Pos.compare.
  destruct x as [sx | sx | | sx mx ex]; destruct y as [sy | sy | | sy my ey];
    try destruct sx; try destruct sy; simpl;
    try (split; [intros H; discriminate H | intros (H1 & H2 & _); discriminate]);
    order_cases.
Qed.

Lemma ltb_iff (x y : number) :
  num_ltb x y = true <-> notNaN x /\ notNaN y /\ lex_lt (key x) (key y).
Proof.
  unfold num_ltb, SFltb, SFcompare, notNaN, lex_lt.
  change (Pos.compare_cont Eq) with Pos.compare.
  destruct x as [sx | sx | | sx mx ex]; destruct y as [sy | sy | | sy my ey];
    try destruct sx; try destruct sy; simpl;
    try (split; [intros H; discriminate H | intros (H1 & H2 & _); discriminate]);
    order_cases.
Qed.

Lemma leb_trans (x y z : number) :
  num_leb x y = true -> num_leb y z = true -> num_leb x z = true.
Proof.
  rewrite !leb_iff. unfold lex_le.
  intros (Hx & Hy & H1) (_ & Hz & H2). repeat split; try assumption. lia.
Qed.

Lemma not_ltb_leb (x y : number) :
  notNaN x -> notNaN y -> num_ltb x y = false -> num_leb y x = true.
Proof.
  intros Hx Hy H. apply leb_iff. repeat split; try assumption.
  destruct (num_ltb x y) eqn:E; [discriminate |].
  assert (N : ~ lex_lt (key x) (key y)).
  { intros L. assert (T : num_ltb x y = true) by (apply ltb_iff; auto).
    congruence. }
  unfold lex_lt, lex_le in *. lia.
Qed.

Lemma ltb_leb (x y : number) : num_ltb x y = true -> num_leb x y = true.
Proof.
  rewrite ltb_iff, leb_iff. unfold lex_lt, lex_le.
  intros (Hx & Hy & H). repeat split; try assumption. lia.
Qed.

Local Close Scope Z_scope.

Section Sorting.

Context {A : Type} (after : A -> A -> bool).

Lemma insertSorted_perm (x : A) (l : list A) :
  Permutation (x :: l) (insertSorted after x l).
Proof.
  induction l as [| y l IH]; simpl.
  - apply Permutation_refl.
  - destruct (after y x).
    + apply Permutation_refl.
    + apply perm_trans with (y :: x :: l); [apply perm_swap |].
      apply perm_skip. exact IH.
Qed.

Lemma sort_fold_perm (l : list A) : forall acc,
  Permutation (acc ++ l) (fold_left (fun acc x => insertSorted after x acc) l acc).
Proof.
  induction l as [| x l IH]; intros acc; simpl.
  - rewrite app_nil_r. apply Permutation_refl.
  - apply perm_trans with (insertSorted after x acc ++ l); [| apply IH].
    apply perm_trans with ((x :: acc) ++ l).
    + apply Permutation_sym. apply Permutation_middle.
    + apply Permutation_app_tail. apply insertSorted_perm.
Qed.

Lemma jsSort_perm (l : list A) : Permutation l (jsSort after l).
Proof. exact (sort_fold_perm l []). Qed.

(** Sortedness for an order [R] that the comparison function decides on
    the elements satisfying [P]. *)
Context (R : A -> A -> Prop) (P : A -> Prop).
Hypothesis after_true : forall x y, P x -> P y -> after y x = true -> R x y.
Hypothesis after_false : forall x y, P x -> P y -> after y x = false -> R y x.
Hypothesis R_trans : forall x y z, R x y -> R y z -> R x z.

Lemma insertSorted_sorted (x : A) (l : list A) :
  P x -> Forall P l -> StronglySorted R l ->
  StronglySorted R (insertSorted after x l).
Proof.
  intros Px Pl Sl. induction Sl as [| y l Sl IH Hy]; simpl.
  - constructor; constructor.
  - inversion Pl as [| y' l' Py Pl']; subst.
    destruct (after y x) eqn:E.
    + constructor; [constructor; assumption |].
      constructor; [apply after_true; assumption |].
      apply Forall_impl with (P := R y); [| assumption].
      intros z Hz. apply R_trans with y; [apply after_true; assumption | assumption].
    + constructor; [apply IH; assumption |].
      apply Forall_forall. intros z Hz.
      apply (Permutation_in z (Permutation_sym (insertSorted_perm x l))) in Hz.
      destruct Hz as [<- | Hz].
      * apply after_false; assumption.
      * rewrite Forall_forall in Hy. apply Hy. assumption.
Qed.

Lemma sort_fold_sorted (l : list A) : forall acc,
  Forall P l -> Forall P acc -> StronglySorted R acc ->
  StronglySorted R (fold_left (fun acc x => insertSorted after x acc) l acc).
Proof.
  induction l as [| x l IH]; intros acc Pl Pacc Sacc; simpl.
  - assumption.
  - inversion Pl as [| x' l' Px Pl']; subst.
    apply IH; [assumption | | apply insertSorted_sorted; assumption].
    apply Forall_forall. intros z Hz.
    apply (Permutation_in z (Permutation_sym (insertSorted_perm x acc))) in Hz.
    destruct Hz as [<- | Hz]; [assumption |].
    rewrite Forall_forall in Pacc. apply Pacc. assumption.
Qed.

Lemma jsSort_sorted (l : list A) :
  Forall P l -> StronglySorted R (jsSort after l).
Proof.
  intros Pl. apply sort_fold_sorted; [assumption | constructor | constructor].
Qed.

End Sorting.

Lemma str_eqb_eq (a : jsstring) : forall b, str_eqb a b = true <-> a = b.
Proof.
  induction a as [| x a IH]; intros [| y b]; simpl.
  - split; reflexivity.
  - split; discriminate.
  - split; discriminate.
  - rewrite andb_true_iff, N.eqb_eq, IH.
    split; [intros [-> ->]; reflexivity | intros H; inversion H; auto].
Qed.

Lemma mem_str_In (x : jsstring) (l : list jsstring) :
  mem_str x l = true <-> In x l.
Proof.
  unfold mem_str. rewrite existsb_exists. split.
  - intros (y & Hy & E). apply str_eqb_eq in E. subst. exact Hy.
  - intros H. exists x. split; [exact H | apply str_eqb_eq; reflexivity].
Qed.

Lemma bool_eq_of_iff (a b : bool) : (a = true <-> b = true) -> a = b.
Proof.
  destruct a, b; intros [H1 H2]; try reflexivity.
  - symmetry. apply H1. reflexivity.
  - apply H2. reflexivity.
Qed.

Lemma tallyWords_present (lowerText : jsstring) (present : jsstring -> bool)
  (weight : Z) (words : list jsstring) : forall st,
  (forall w, In w words -> includes lowerText w = present w) ->
  tallyWords lowerText weight words st = tallyBy present weight words st.
Proof.
  unfold tallyWords, tallyBy.
  induction words as [| w words IH]; intros st H; simpl; [reflexivity |].
  rewrite (H w) by (left; reflexivity).
  apply IH. intros w' Hw'. apply H. right. exact Hw'.
Qed.

Lemma analyzeSentiment_present (host : Host) (text : jsstring)
  (present : jsstring -> bool) :
  (forall w, In w sentimentWords -> includes (toLowerCase host text) w = present w) ->
  analyzeSentiment host text = sentimentFrom present.
Proof.
  intros H. unfold analyzeSentiment, sentimentFrom.
  assert (E : forall weight words st,
             incl words sentimentWords ->
             tallyWords (toLowerCase host text) weight words st =
             tallyBy present weight words st).
  { intros weight words st Hi. apply tallyWords_present.
    intros w Hw. apply H. apply Hi. exact Hw. }
  unfold sentimentWords in E.
  rewrite !E; [reflexivity | ..];
    intros w Hw; repeat (apply in_or_app; first [left; exact Hw | right]);
    exact Hw.
Qed.

Lemma matchesOnly_present (host : Host) (text : jsstring) (ws : list jsstring) :
  matchesOnly host text ws ->
  analyzeSentiment host text = sentimentFrom (fun w => mem_str w ws).
Proof.
  intros H. apply analyzeSentiment_present. intros w Hw.
  apply bool_eq_of_iff. rewrite mem_str_In. apply H. exact Hw.
Qed.

Lemma matchesOnlyb_sound (host : Host) (text : jsstring) (ws : list jsstring) :
  matchesOnlyb host text ws = true -> matchesOnly host text ws.
Proof.
  unfold matchesOnlyb, matchesOnly. rewrite forallb_forall.
  intros H w Hw. specialize (H w Hw). apply eqb_prop in H.
  rewrite H. apply mem_str_In.
Qed.

(** C7. A text whose lower-cased form contains one strong positive word
    and no other entry of the sentiment lists gets score 1 and label
    [positive]; a text containing one strong positive word, one strong
    negative word and no other entry gets score 0 and label [neutral]. *)
Theorem analyzeSentiment_boundary (host : Host) (text : jsstring) :
  (forall w, In w SENTIMENT_PATTERNS.positive_strong ->
     matchesOnly host text [w] ->
     analyzeSentiment host text = (Sentiment.positive, of_Z 1)) /\
  (forall w1 w2, In w1 SENTIMENT_PATTERNS.positive_strong ->
     In w2 SENTIMENT_PATTERNS.negative_strong ->
     matchesOnly host text [w1; w2] ->
     analyzeSentiment host text = (Sentiment.neutral, zero)).
Proof.
  split.
  - intros w Hw Hm. rewrite (matchesOnly_present _ _ _ Hm). clear Hm.
    cbv in Hw.
    repeat (destruct Hw as [<- | Hw]; [vm_compute; reflexivity |]).
    contradiction.
  - intros w1 w2 H1 H2 Hm. rewrite (matchesOnly_present _ _ _ Hm). clear Hm.
    cbv in H1.
    repeat (destruct H1 as [<- | H1];
            [cbv in H2;
             repeat (destruct H2 as [<- | H2]; [vm_compute; reflexivity |]);
             contradiction |]).
    contradiction.
Qed.

Lemma analyzeSentiment_boundary_witness :
  (In (lit "amazing") SENTIMENT_PATTERNS.positive_strong /\
   matchesOnly refHost (lit "This is AMAZING") [lit "amazing"] /\
   analyzeSentiment refHost (lit "This is AMAZING") = (Sentiment.positive, of_Z 1)) /\
  (In (lit "amazing") SENTIMENT_PATTERNS.positive_strong /\
   In (lit "terrible") SENTIMENT_PATTERNS.negative_strong /\
   matchesOnly refHost (lit "amazing colour, terrible smell")
     [lit "amazing"; lit "terrible"] /\
   analyzeSentiment refHost (lit "amazing colour, terrible smell") = (Sentiment.neutral, zero)).
Proof.
  assert (P : In (lit "amazing") SENTIMENT_PATTERNS.positive_strong)
    by (left; reflexivity).
  assert (N : In (lit "terrible") SENTIMENT_PATTERNS.negative_strong)
    by (left; reflexivity).
  assert (M1 : matchesOnly refHost (lit "This is AMAZING") [lit "amazing"])
    by (apply matchesOnlyb_sound; vm_compute; reflexivity).
  assert (M2 : matchesOnly refHost (lit "amazing colour, terrible smell")
                 [lit "amazing"; lit "terrible"])
    by (apply matchesOnlyb_sound; vm_compute; reflexivity).
  split.
  - split; [exact P |]. split; [exact M1 |].
    exact (proj1 (analyzeSentiment_boundary refHost (lit "This is AMAZING")) _ P M1).
  - split; [exact P |]. split; [exact N |]. split; [exact M2 |].
    exact (proj2 (analyzeSentiment_boundary refHost
                    (lit "amazing colour, terrible smell")) _ _ P N M2).
Defined.

Lemma nodupb_NoDup (l : list jsstring) : nodupb l = true -> NoDup l.
Proof.
  induction l as [| x l IH]; simpl; intros H; constructor.
  - apply andb_true_iff in H. destruct H as [H _].
    apply negb_true_iff in H. intros Hin. apply mem_str_In in Hin. congruence.
  - apply IH. apply andb_true_iff in H. tauto.
Qed.

Lemma startsWith_prefix (pat : jsstring) : forall s,
  startsWith s pat = true <-> exists suf, s = pat ++ suf.
Proof.
  induction pat as [| p pat IH]; intros [| c s]; simpl.
  - split; [intros _; exists []; reflexivity | reflexivity].
  - split; [intros _; exists (c :: s); reflexivity | reflexivity].
  - split; [discriminate | intros [suf E]; discriminate E].
  - rewrite andb_true_iff, N.eqb_eq, IH. split.
    + intros [-> [suf ->]]. exists suf. reflexivity.
    + intros [suf E]. inversion E; subst. split; [reflexivity | exists suf; reflexivity].
Qed.

Lemma includes_nil (pat : jsstring) : includes [] pat = startsWith [] pat.
Proof. simpl. apply orb_false_r. Qed.

Lemma includes_cons (c : N) (s pat : jsstring) :
  includes (c :: s) pat = startsWith (c :: s) pat || includes s pat.
Proof. reflexivity. Qed.

Lemma includes_substring (pat : jsstring) : forall s,
  includes s pat = true <-> substring pat s.
Proof.
  unfold substring. induction s as [| c s IH].
  - rewrite includes_nil, startsWith_prefix. split.
    + intros [suf E]. exists [], suf. exact E.
    + intros (pre & suf & E). destruct pre as [| x pre]; [| discriminate E].
      exists suf. exact E.
  - rewrite includes_cons, orb_true_iff, startsWith_prefix, IH. split.
    + intros [[suf E] | (pre & suf & E)].
      * exists [], suf. exact E.
      * exists (c :: pre), suf. simpl. rewrite E. reflexivity.
    + intros (pre & suf & E). destruct pre as [| x pre].
      * left. exists suf. exact E.
      * right. inversion E; subst. exists pre, suf. reflexivity.
Qed.

Lemma headerMatches_iff (host : Host) (headers : list jsstring) (token : jsstring) :
  headerMatches (map (toLowerCase host) headers) token = true <->
  tokenMatches host headers token.
Proof.
  unfold headerMatches, tokenMatches. rewrite existsb_exists. split.
  - intros (h' & Hin & Hm). apply in_map_iff in Hin. destruct Hin as (h & <- & Hin).
    exists h. split; [exact Hin |].
    apply orb_true_iff in Hm. rewrite !includes_substring in Hm. exact Hm.
  - intros (h & Hin & Hm). exists (toLowerCase host h). split.
    + apply in_map. exact Hin.
    + apply orb_true_iff. rewrite !includes_substring. exact Hm.
Qed.

Lemma firstn_In (A : Type) (n : nat) (l : list A) (x : A) :
  In x (firstn n l) -> In x l.
Proof.
  intros H. rewrite <- (firstn_skipn n l). apply in_or_app. left. exact H.
Qed.

Lemma NoDup_firstn (A : Type) (n : nat) (l : list A) : NoDup l -> NoDup (firstn n l).
Proof.
  intros H. rewrite <- (firstn_skipn n l) in H.
  apply NoDup_app_remove_r in H. exact H.
Qed.

Lemma atLeast_count (n : nat) (P : jsstring -> Prop) (p : jsstring -> bool)
  (tokens : list jsstring) :
  (forall t, p t = true <-> P t) -> NoDup tokens ->
  (atLeast n P tokens <-> n <= List.length (filter p tokens)).
Proof.
  intros Hp Hnd. unfold atLeast. split.
  - intros (l & Hl & Hi & <- & Hf).
    apply NoDup_incl_length; [exact Hl |].
    intros t Ht. apply filter_In. split; [apply Hi; exact Ht |].
    apply Hp. rewrite Forall_forall in Hf. apply Hf. exact Ht.
  - intros Hn. exists (firstn n (filter p tokens)). repeat split.
    + apply NoDup_firstn. apply List.NoDup_filter. exact Hnd.
    + intros t Ht. apply firstn_In in Ht. apply filter_In in Ht. tauto.
    + apply firstn_length_le. exact Hn.
    + apply Forall_forall. intros t Ht. apply firstn_In in Ht.
      apply filter_In in Ht. apply Hp. tauto.
Qed.

Lemma commentHeaders_NoDup : NoDup commentHeaders.
Proof. apply nodupb_NoDup. vm_compute. reflexivity. Qed.

Lemma videoHeaders_NoDup : NoDup videoHeaders.
Proof. apply nodupb_NoDup. vm_compute. reflexivity. Qed.

(** C2, as amended. [detectFileType] answers [comments] exactly when at
    least three of the four comment tokens match, [videos] exactly when
    fewer than three comment tokens and at least three of the five video
    tokens match, and [unknown] exactly when neither signature reaches
    three. A token matches when it occurs in a lower-cased header or a
    lower-cased header occurs in it. *)
Theorem detectFileType_decision (host : Host) (headers : list jsstring) :
  (detectFileType host headers = FileType.comments <->
     atLeast 3 (tokenMatches host headers) commentHeaders) /\
  (detectFileType host headers = FileType.videos <->
     ~ atLeast 3 (tokenMatches host headers) commentHeaders /\
     atLeast 3 (tokenMatches host headers) videoHeaders) /\
  (detectFileType host headers = FileType.unknown <->
     ~ atLeast 3 (tokenMatches host headers) commentHeaders /\
     ~ atLeast 3 (tokenMatches host headers) videoHeaders).
Proof.
  rewrite (atLeast_count 3 (tokenMatches host headers)
             (headerMatches (map (toLowerCase host) headers)) commentHeaders
             (headerMatches_iff host headers) commentHeaders_NoDup).
  rewrite (atLeast_count 3 (tokenMatches host headers)
             (headerMatches (map (toLowerCase host) headers)) videoHeaders
             (headerMatches_iff host headers) videoHeaders_NoDup).
  unfold detectFileType.
  destruct (Nat.leb_spec 3
              (List.length (filter (headerMatches (map (toLowerCase host) headers))
                              commentHeaders))) as [Hc | Hc];
    destruct (Nat.leb_spec 3
                (List.length (filter (headerMatches (map (toLowerCase host) headers))
                                videoHeaders))) as [Hv | Hv];
    repeat split; intros; try discriminate; try lia;
      try match goal with H : _ /\ _ |- _ => destruct H; lia end.
Qed.

(** C2, counterexample: both signatures reach three matches and the answer
    is [comments], not [unknown]. *)
Lemma detectFileType_both_signatures :
  let headers := map lit ["commentId"; "textOriginal"; "authorId"; "videoId";
                          "title"; "description"]%string in
  atLeast 3 (tokenMatches refHost headers) commentHeaders /\
  atLeast 3 (tokenMatches refHost headers) videoHeaders /\
  detectFileType refHost headers = FileType.comments /\
  detectFileType refHost headers <> FileType.unknown.
Proof.
  intros headers. repeat split.
  - apply (atLeast_count 3 _ _ commentHeaders (headerMatches_iff refHost headers)
             commentHeaders_NoDup).
    vm_compute. lia.
  - apply (atLeast_count 3 _ _ videoHeaders (headerMatches_iff refHost headers)
             videoHeaders_NoDup).
    vm_compute. lia.
  - vm_compute. discriminate.
Qed.

Lemma str_eqb_refl (a : jsstring) : str_eqb a a = true.
Proof. apply str_eqb_eq. reflexivity. Qed.

Lemma str_eqb_neq (a b : jsstring) : a <> b -> str_eqb a b = false.
Proof.
  intros H. destruct (str_eqb a b) eqn:E; [| reflexivity].
  apply str_eqb_eq in E. contradiction.
Qed.

Section Objects.

Context {V : Type}.

Lemma obj_get_set (o : jsobj V) (k k' : jsstring) (v : V) :
  obj_get (obj_set o k v) k' = if str_eqb k k' then Some v else obj_get o k'.
Proof.
  induction o as [| [k0 v0] o IH]; simpl.
  - destruct (str_eqb k k'); reflexivity.
  - destruct (str_eqb k0 k) eqn:E0; simpl.
    + apply str_eqb_eq in E0. subst k0.
      destruct (str_eqb k k'); reflexivity.
    + destruct (str_eqb k0 k') eqn:E1; [| exact IH].
      apply str_eqb_eq in E1. subst k0.
      destruct (str_eqb k k') eqn:E2; [| reflexivity].
      apply str_eqb_eq in E2. subst k'. rewrite str_eqb_refl in E0. discriminate.
Qed.

Lemma obj_get_None (o : jsobj V) (k : jsstring) :
  obj_get o k = None <-> ~ In k (map fst o).
Proof.
  induction o as [| [k0 v0] o IH]; simpl.
  - tauto.
  - destruct (str_eqb k0 k) eqn:E.
    + apply str_eqb_eq in E. subst. split; [discriminate | intros H; exfalso; auto].
    + rewrite IH. split.
      * intros H [H1 | H1]; [subst; rewrite str_eqb_refl in E; discriminate | auto].
      * intros H H1. apply H. right. exact H1.
Qed.

Lemma obj_get_In (o : jsobj V) (k : jsstring) (v : V) :
  obj_get o k = Some v -> In (k, v) o.
Proof.
  induction o as [| [k0 v0] o IH]; simpl; [discriminate |].
  destruct (str_eqb k0 k) eqn:E.
  - apply str_eqb_eq in E. subst. intros H. inversion H. left. reflexivity.
  - intros H. right. apply IH. exact H.
Qed.

Lemma In_obj_get (o : jsobj V) (k : jsstring) (v : V) :
  NoDup (map fst o) -> In (k, v) o -> obj_get o k = Some v.
Proof.
  induction o as [| [k0 v0] o IH]; simpl; intros Hn Hin; [contradiction |].
  inversion Hn as [| ? ? Hk Hn']; subst.
  destruct Hin as [E | Hin].
  - inversion E; subst. rewrite str_eqb_refl. reflexivity.
  - destruct (str_eqb k0 k) eqn:E.
    + apply str_eqb_eq in E. subst. exfalso. apply Hk.
      apply (in_map fst) in Hin. exact Hin.
    + apply IH; assumption.
Qed.

Lemma obj_set_keys (o : jsobj V) (k : jsstring) (v : V) :
  map fst (obj_set o k v) =
  match obj_get o k with
  | Some _ => map fst o
  | None => map fst o ++ [k]
  end.
Proof.
  induction o as [| [k0 v0] o IH]; simpl; [reflexivity |].
  destruct (str_eqb k0 k) eqn:E; simpl; [reflexivity |].
  rewrite IH. destruct (obj_get o k); reflexivity.
Qed.

Lemma obj_set_NoDup (o : jsobj V) (k : jsstring) (v : V) :
  NoDup (map fst o) -> NoDup (map fst (obj_set o k v)).
Proof.
  intros H. rewrite obj_set_keys. destruct (obj_get o k) eqn:E; [exact H |].
  apply obj_get_None in E.
  apply (Permutation_NoDup (l := k :: map fst o)).
  - apply Permutation_cons_append.
  - constructor; assumption.
Qed.

Lemma insertIndexed_perm (i : N) (p : jsstring * V) (l : list (N * (jsstring * V))) :
  Permutation ((i, p) :: l) (insertIndexed i p l).
Proof.
  induction l as [| [j q] l IH]; simpl; [apply Permutation_refl |].
  destruct (N.ltb i j); [apply Permutation_refl |].
  apply perm_trans with ((j, q) :: (i, p) :: l); [apply perm_swap |].
  apply perm_skip. exact IH.
Qed.

Lemma indexedProps_perm (o : jsobj V) :
  Permutation (map snd (indexedProps o)) (filter isIndexed o).
Proof.
  induction o as [| [k v] o IH]; simpl; [apply Permutation_refl |].
  unfold isIndexed at 1. simpl fst.
  destruct (arrayIndex k) as [i |]; [| exact IH].
  apply perm_trans with (map snd ((i, (k, v)) :: indexedProps o)).
  - apply Permutation_sym. apply Permutation_map. apply insertIndexed_perm.
  - simpl. apply perm_skip. exact IH.
Qed.

Lemma filter_split_perm (A : Type) (p : A -> bool) (l : list A) :
  Permutation (filter p l ++ filter (fun x => negb (p x)) l) l.
Proof.
  induction l as [| x l IH]; simpl; [apply Permutation_refl |].
  destruct (p x); simpl.
  - apply perm_skip. exact IH.
  - apply Permutation_sym. apply Permutation_cons_app.
    apply Permutation_sym. exact IH.
Qed.

Lemma entries_perm (o : jsobj V) : Permutation (entries o) o.
Proof.
  unfold entries, namedProps.
  apply perm_trans with (filter isIndexed o ++ filter (fun x => negb (isIndexed x)) o).
  - apply Permutation_app; [apply indexedProps_perm |].
    replace (filter (fun x => negb (isIndexed x)) o)
      with (filter (fun p : jsstring * V =>
                      match arrayIndex (fst p) with Some _ => false | None => true end) o);
      [apply Permutation_refl |].
    apply filter_ext. intros p. unfold isIndexed.
    destruct (arrayIndex (fst p)); reflexivity.
  - apply filter_split_perm.
Qed.

End Objects.

Lemma StronglySorted_firstn (A : Type) (R : A -> A -> Prop) (n : nat) (l : list A) :
  StronglySorted R l -> StronglySorted R (firstn n l).
Proof.
  intros H. revert n. induction H as [| x l Hl IH Hx]; intros [| n]; simpl;
    try constructor.
  - apply IH.
  - apply Forall_forall. intros y Hy. apply firstn_In in Hy.
    rewrite Forall_forall in Hx. apply Hx. exact Hy.
Qed.

Lemma StronglySorted_app_le (A : Type) (R : A -> A -> Prop) (l1 l2 : list A) :
  StronglySorted R (l1 ++ l2) ->
  forall a b, In a l1 -> In b l2 -> R a b.
Proof.
  induction l1 as [| x l1 IH]; simpl; intros H a b Ha Hb; [contradiction |].
  inversion H as [| ? ? Hs Hf]; subst.
  destruct Ha as [-> | Ha].
  - rewrite Forall_forall in Hf. apply Hf. apply in_or_app. right. exact Hb.
  - apply IH; assumption.
Qed.

Lemma StronglySorted_map (A B : Type) (f : A -> B) (R : B -> B -> Prop) (l : list A) :
  StronglySorted (fun a b => R (f a) (f b)) l -> StronglySorted R (map f l).
Proof.
  induction 1 as [| x l Hl IH Hx]; simpl; constructor; [exact IH |].
  apply Forall_forall. intros y Hy. apply in_map_iff in Hy.
  destruct Hy as (z & <- & Hz). rewrite Forall_forall in Hx. apply Hx. exact Hz.
Qed.

Lemma splitOn_nonempty (sep : N) (s : jsstring) : splitOn sep s <> [].
Proof.
  destruct s as [| c s]; simpl; [discriminate |].
  destruct (N.eqb c sep); [discriminate |].
  destruct (splitOn sep s); discriminate.
Qed.

Lemma splitOn_app (sep : N) (a b : jsstring) :
  splitOn sep (a ++ sep :: b) = splitOn sep a ++ splitOn sep b.
Proof.
  induction a as [| c a IH]; simpl.
  - rewrite N.eqb_refl. reflexivity.
  - destruct (N.eqb c sep); [rewrite IH; reflexivity |].
    rewrite IH. pose proof (splitOn_nonempty sep a) as H.
    destruct (splitOn sep a) as [| l ls]; [contradiction | reflexivity].
Qed.

Lemma splitOn_single (sep : N) (s : jsstring) :
  ~ In sep s -> List.length (splitOn sep s) = 1.
Proof.
  induction s as [| c s IH]; simpl; intros H; [reflexivity |].
  destruct (N.eqb_spec c sep) as [E | E]; [exfalso; apply H; left; exact E |].
  assert (Hs : ~ In sep s) by (intros Hin; apply H; right; exact Hin).
  specialize (IH Hs).
  destruct (splitOn sep s) as [| l ls]; [discriminate IH | exact IH].
Qed.

Lemma nonEmptyLines_app (a b : jsstring) :
  List.length (nonEmptyLines (a ++ 10%N :: b)) =
  List.length (nonEmptyLines a) + List.length (nonEmptyLines b).
Proof.
  unfold nonEmptyLines. rewrite splitOn_app, filter_app, length_app. reflexivity.
Qed.

Lemma nonEmptyLines_some (s : jsstring) (c : N) :
  In c s -> c <> 10%N -> 1 <= List.length (nonEmptyLines s).
Proof.
  unfold nonEmptyLines. induction s as [| d s IH]; intros Hin Hc; [contradiction |].
  simpl splitOn. destruct (N.eqb_spec d 10) as [E | E].
  - simpl. apply IH; [| exact Hc].
    destruct Hin as [-> | Hin]; [contradiction | exact Hin].
  - destruct (splitOn 10 s) as [| l ls]; simpl; lia.
Qed.

Lemma dropWhile_head (s : jsstring) : headNotSpace (dropWhile isWhiteSpace s).
Proof.
  induction s as [| c s IH]; simpl; [exact I |].
  destruct (isWhiteSpace c) eqn:E; [exact IH | exact E].
Qed.

Lemma dropWhile_suffix (A : Type) (p : A -> bool) (s : list A) :
  exists pre, s = pre ++ dropWhile p s.
Proof.
  induction s as [| c s [pre IH]]; simpl.
  - exists []. reflexivity.
  - destruct (p c).
    + exists (c :: pre). simpl. rewrite <- IH. reflexivity.
    + exists []. reflexivity.
Qed.

Lemma trimEnd_prefix (s : jsstring) : exists suf, s = trimEnd s ++ suf.
Proof.
  unfold trimEnd. destruct (dropWhile_suffix N isWhiteSpace (rev s)) as [pre E].
  exists (rev pre). rewrite <- rev_app_distr, <- E, rev_involutive. reflexivity.
Qed.

Lemma trim_shape (s : jsstring) :
  (exists pre suf, s = pre ++ trim s ++ suf) /\
  headNotSpace (trim s) /\ headNotSpace (rev (trim s)).
Proof.
  unfold trim. split; [| split].
  - destruct (dropWhile_suffix N isWhiteSpace s) as [pre E].
    destruct (trimEnd_prefix (trimStart s)) as [suf F].
    exists pre, suf. rewrite <- F. exact E.
  - pose proof (dropWhile_head s) as H. fold (trimStart s) in H.
    destruct (trimEnd_prefix (trimStart s)) as [suf F].
    destruct (trimEnd (trimStart s)) as [| c t]; [exact I |].
    rewrite F in H. exact H.
  - unfold trimEnd. rewrite rev_involutive. apply dropWhile_head.
Qed.

Lemma two_lines_after_trim (text : jsstring) :
  2 <= List.length (splitOn 10 (trim text)) ->
  2 <= List.length (nonEmptyLines text).
Proof.
  intros H.
  destruct (trim_shape text) as ((pre & suf & E) & Hh & Hl).
  destruct (in_dec N.eq_dec 10%N (trim text)) as [Hin | Hn];
    [| rewrite (splitOn_single 10 (trim text) Hn) in H; lia].
  apply in_split in Hin. destruct Hin as (a & b & Ec).
  rewrite Ec in Hh, Hl, E.
  destruct a as [| x a]; [discriminate Hh |].
  rewrite rev_app_distr in Hl. simpl rev in Hl. rewrite <- app_assoc in Hl.
  destruct (rev b) as [| y rb] eqn:Eb; [discriminate Hl |].
  simpl in Hh, Hl.
  assert (Hy : In y b) by (apply in_rev; rewrite Eb; left; reflexivity).
  rewrite E.
  replace (pre ++ ((x :: a) ++ 10%N :: b) ++ suf)
    with ((pre ++ x :: a) ++ 10%N :: (b ++ suf))
    by (rewrite <- !app_assoc; reflexivity).
  rewrite nonEmptyLines_app.
  assert (H1 : 1 <= List.length (nonEmptyLines (pre ++ x :: a))).
  { apply (nonEmptyLines_some _ x).
    - apply in_or_app. right. left. reflexivity.
    - intros ->. discriminate Hh. }
  assert (H2 : 1 <= List.length (nonEmptyLines (b ++ suf))).
  { apply (nonEmptyLines_some _ y).
    - apply in_or_app. left. exact Hy.
    - intros ->. discriminate Hl. }
  lia.
Qed.

(** C3, as amended. For every text with fewer than two non-empty lines
    [parseCSV] returns the empty array; it does not throw. *)
Theorem parseCSV_too_short (host : Host) (csvText : jsstring)
  (expectedColumns : list jsstring) :
  List.length (nonEmptyLines csvText) < 2 ->
  parseCSV host csvText expectedColumns = Some [].
Proof.
  intros H. unfold parseCSV.
  destruct (Nat.ltb_spec (List.length (splitOn 10 (trim csvText))) 2) as [L | L];
    [reflexivity |].
  apply two_lines_after_trim in L. lia.
Qed.

Lemma parseCSV_too_short_witness :
  List.length (nonEmptyLines (lit "commentId,textOriginal,videoId")) < 2 /\
  parseCSV refHost (lit "commentId,textOriginal,videoId")
    (map lit ["commentId"; "textOriginal"]%string) = Some [].
Proof.
  assert (H : List.length (nonEmptyLines (lit "commentId,textOriginal,videoId")) < 2)
    by (vm_compute; lia).
  split; [exact H |].
  exact (parseCSV_too_short refHost _ _ H).
Defined.

(** C3, counterexample: a header without data lines is answered with the
    empty array, not with an exception. *)
Lemma parseCSV_header_only_returns :
  List.length (nonEmptyLines (lit "commentId,textOriginal,videoId")) < 2 /\
  parseCSV refHost (lit "commentId,textOriginal,videoId")
    (map lit ["commentId"; "textOriginal"]%string) <> None.
Proof. split; [vm_compute; lia | vm_compute; discriminate]. Qed.

Lemma num_same_eq (x y : number) : num_same x y = true -> x = y.
Proof.
  destruct x as [a | a | | a m e]; destruct y as [b | b | | b n f]; simpl;
    intros H; try discriminate H.
  - apply eqb_prop in H. congruence.
  - apply eqb_prop in H. congruence.
  - reflexivity.
  - apply andb_true_iff in H. destruct H as [H He].
    apply andb_true_iff in H. destruct H as [Hs Hm].
    apply eqb_prop in Hs. apply Pos.eqb_eq in Hm. apply Z.eqb_eq in He.
    congruence.
Qed.

Lemma addNew_in (x : number) (l : list number) : In x (addNew x l).
Proof.
  induction l as [| y l IH]; simpl; [left; reflexivity |].
  destruct (num_same x y) eqn:E.
  - left. symmetry. apply num_same_eq. exact E.
  - right. exact IH.
Qed.

Lemma addNew_keeps (x z : number) (l : list number) : In z l -> In z (addNew x l).
Proof.
  induction l as [| y l IH]; simpl; [contradiction |].
  intros H. destruct (num_same x y); simpl; [exact H |].
  destruct H as [-> | H]; auto.
Qed.

Lemma reach_fold_keeps (w : number) (S : list number) : forall acc z,
  In z acc -> In z (fold_left (fun acc x => addNew (num_add x w) acc) S acc).
Proof.
  induction S as [| y S IH]; intros acc z H; simpl; [exact H |].
  apply IH. apply addNew_keeps. exact H.
Qed.

Lemma reach_fold_adds (w : number) (S : list number) : forall acc x,
  In x S -> In (num_add x w) (fold_left (fun acc x => addNew (num_add x w) acc) S acc).
Proof.
  induction S as [| y S IH]; intros acc x H; simpl; [contradiction |].
  destruct H as [-> | H].
  - apply reach_fold_keeps. apply addNew_in.
  - apply IH. exact H.
Qed.

Lemma reachStep_in (w x : number) (b : bool) (S : list number) :
  In x S -> In (if b then num_add x w else x) (reachStep w S).
Proof.
  intros H. unfold reachStep. destruct b.
  - apply reach_fold_adds. exact H.
  - apply reach_fold_keeps. exact H.
Qed.

Lemma flagIf_in (cond : bool) (w : number) (reason : jsstring)
  (st : number * list jsstring) (S : list number) :
  In (fst st) S -> In (fst (flagIf cond w reason st)) (reachStep w S).
Proof.
  intros H. unfold flagIf.
  replace (fst (if cond then (num_add (fst st) w, snd st ++ [reason]) else st))
    with (if cond then num_add (fst st) w else fst st) by (destruct cond; reflexivity).
  apply reachStep_in. exact H.
Qed.

Lemma flagPatterns_in (lowerText : jsstring) (w : number) (reason : jsstring)
  (patterns : list jsstring) : forall st S,
  In (fst st) S ->
  In (fst (flagPatterns lowerText w reason patterns st))
     (reachSteps (List.length patterns) w S).
Proof.
  unfold flagPatterns.
  induction patterns as [| p patterns IH]; intros st S H; simpl; [exact H |].
  apply IH.
  replace (fst (if includes lowerText p
                then (num_add (fst st) w, snd st ++ [reason]) else st))
    with (if includes lowerText p then num_add (fst st) w else fst st)
    by (destruct (includes lowerText p); reflexivity).
  apply reachStep_in. exact H.
Qed.

Lemma spamTally_reachable (host : Host) (text : jsstring) :
  In (fst (spamTally host text)) spamScores.
Proof.
  unfold spamTally, spamScores.
  do 4 apply flagIf_in.
  apply (flagPatterns_in _ _ _ SPAM_PATTERNS.suspicious).
  apply (flagPatterns_in _ _ _ SPAM_PATTERNS.repetitive).
  apply (flagPatterns_in _ _ _ SPAM_PATTERNS.monetary).
  apply (flagPatterns_in _ _ _ SPAM_PATTERNS.promotional).
  left. reflexivity.
Qed.

Lemma spamScores_ok : forallb spamVerdictOk spamScores = true.
Proof. vm_compute. reflexivity. Qed.

(** C8. For every text and metadata the score of [detectSpam] lies between
    0 and 1, and [isSpam] holds exactly when the score is greater than 0.5;
    a score equal to 0.5 never comes with [isSpam]. *)
Theorem detectSpam_score_range (host : Host) (text : jsstring)
  (metadata : number * jsstring) :
  let r := detectSpam host text metadata in
  num_leb zero (score r) = true /\
  num_leb (score r) (of_Z 1) = true /\
  isSpam r = num_gtb (score r) (dec 5 10) /\
  num_eqb (score r) (dec 5 10) && isSpam r = false.
Proof.
  pose proof (spamTally_reachable host text) as Hin.
  pose proof spamScores_ok as Hall.
  rewrite forallb_forall in Hall. specialize (Hall _ Hin). clear Hin.
  unfold detectSpam. destruct (spamTally host text) as [spamScore reasons].
  cbv [fst] in Hall. cbv zeta. cbv [score isSpam].
  unfold spamVerdictOk in Hall. cbv zeta in Hall.
  apply andb_true_iff in Hall. destruct Hall as [Hall H4].
  apply andb_true_iff in Hall. destruct Hall as [Hall H3].
  apply andb_true_iff in Hall. destruct Hall as [H1 H2].
  apply eqb_prop in H3. apply negb_true_iff in H4.
  repeat split; assumption.
Qed.

Lemma cleanComment_step (host : Host) (st : list CommentData.t * CommentCounters)
  (comment : CommentRow.t) :
  List.length (fst (cleanComment host st comment)) +
  commentDrops (snd (cleanComment host st comment)) =
  S (List.length (fst st) + commentDrops (snd st)).
Proof.
  destruct st as [cleaned n]. unfold cleanComment, commentDrops.
  destruct (isBlank (CommentRow.videoId comment)); [simpl; lia |].
  destruct (isBlank (CommentRow.commentId comment)); [simpl; lia |].
  destruct (isBlank (CommentRow.textOriginal comment)); [simpl; lia |].
  cbn [fst snd cc_nullVideoIds cc_nullCommentIds cc_nullTexts].
  rewrite length_app. simpl. lia.
Qed.

Lemma cleanComment_fold (host : Host) (comments : list CommentRow.t) : forall st,
  List.length (fst (fold_left (cleanComment host) comments st)) +
  commentDrops (snd (fold_left (cleanComment host) comments st)) =
  List.length (fst st) + commentDrops (snd st) + List.length comments.
Proof.
  induction comments as [| c comments IH]; intros st; simpl; [lia |].
  rewrite IH, cleanComment_step. lia.
Qed.

Lemma cleanVideo_step (host : Host) (st : list VideoData.t * VideoCounters)
  (video : VideoRow.t) :
  List.length (fst (cleanVideo host st video)) +
  videoDrops (snd (cleanVideo host st video)) =
  S (List.length (fst st) + videoDrops (snd st)).
Proof.
  destruct st as [cleaned n]. unfold cleanVideo, videoDrops.
  destruct (isBlank (VideoRow.videoId video)); [simpl; lia |].
  destruct (isBlank (VideoRow.title video)); [simpl; lia |].
  cbn [fst snd vc_nullVideoIds vc_nullTitles].
  rewrite length_app. simpl. lia.
Qed.

Lemma cleanVideo_fold (host : Host) (videos : list VideoRow.t) : forall st,
  List.length (fst (fold_left (cleanVideo host) videos st)) +
  videoDrops (snd (fold_left (cleanVideo host) videos st)) =
  List.length (fst st) + videoDrops (snd st) + List.length videos.
Proof.
  induction videos as [| v videos IH]; intros st; simpl; [lia |].
  rewrite IH, cleanVideo_step. lia.
Qed.

(** C9. For every list of rows, the statistics of [cleanCommentData] and of
    [cleanVideoData] satisfy: the number of cleaned rows plus [removedCount]
    is [originalCount], and [removedCount] is the sum of the drop counters
    ([nullVideoIds + nullCommentIds + nullTexts] for comments,
    [nullVideoIds + nullTitles] for videos), so no row is counted under two
    reasons. *)
Theorem cleaning_row_count (host : Host) :
  (forall comments : list CommentRow.t,
     let r := cleanCommentData host comments in
     CommentStats.originalCount (snd r) = List.length comments /\
     CommentStats.cleanedCount (snd r) = List.length (fst r) /\
     List.length (fst r) + CommentStats.removedCount (snd r) =
       CommentStats.originalCount (snd r) /\
     CommentStats.removedCount (snd r) =
       CommentStats.nullVideoIds (snd r) + CommentStats.nullCommentIds (snd r) +
       CommentStats.nullTexts (snd r)) /\
  (forall videos : list VideoRow.t,
     let r := cleanVideoData host videos in
     VideoStats.originalCount (snd r) = List.length videos /\
     VideoStats.cleanedCount (snd r) = List.length (fst r) /\
     List.length (fst r) + VideoStats.removedCount (snd r) =
       VideoStats.originalCount (snd r) /\
     VideoStats.removedCount (snd r) =
       VideoStats.nullVideoIds (snd r) + VideoStats.nullTitles (snd r)).
Proof.
  split.
  - intros comments. unfold cleanCommentData.
    pose proof (cleanComment_fold host comments
                  ([], {| cc_nullVideoIds := 0; cc_nullCommentIds := 0;
                          cc_nullTexts := 0; cc_invalidDates := 0 |})) as H.
    destruct (fold_left (cleanComment host) comments _) as [cleaned n].
    unfold commentDrops in H. simpl in H |- *. lia.
  - intros videos. unfold cleanVideoData.
    pose proof (cleanVideo_fold host videos
                  ([], {| vc_nullVideoIds := 0; vc_nullTitles := 0;
                          vc_invalidDates := 0; vc_invalidMetrics := 0 |})) as H.
    destruct (fold_left (cleanVideo host) videos _) as [cleaned n].
    unfold videoDrops in H. simpl in H |- *. lia.
Qed.

(** C4. On an empty list of rows the division by the original count is not
    guarded: the cleaning rate reported by [cleanCommentData] and by
    [cleanVideoData] is the text "NaN". *)
Theorem cleaningRate_of_no_rows (host : Host) :
  CommentStats.cleaningRate (snd (cleanCommentData host [])) = lit "NaN" /\
  VideoStats.cleaningRate (snd (cleanVideoData host [])) = lit "NaN".
Proof. split; vm_compute; reflexivity. Qed.

(** C1, counterexample: for no comments and no videos the trend array is
    not made of 24 buckets. *)
Lemma generateMetrics_nothing_has_no_buckets :
  List.length
    (AnalysisMetrics.engagementTrends (fst (generateMetrics refHost [] (Some [])))) <> 24.
Proof. vm_compute. discriminate. Qed.

(** C1, as amended. With no comments and no videos [generateMetrics]
    answers the empty snapshot: [totalComments] is 0, every ratio,
    percentage and average is the number 0 (finite, not [NaN]), there is no
    video block, and [categoryDistribution], [topKeywords] and
    [engagementTrends] are empty: no hourly bucket is emitted. *)
Theorem generateMetrics_nothing (host : Host) :
  let m := fst (generateMetrics host [] (Some [])) in
  AnalysisMetrics.totalComments m = 0 /\
  AnalysisMetrics.totalVideos m = 0 /\
  AnalysisMetrics.qualityRatio m = zero /\
  AnalysisMetrics.spamRatio m = zero /\
  AnalysisMetrics.averageEngagement m = zero /\
  AnalysisMetrics.sentimentDistribution m =
    {| SentimentDistribution.positive := zero;
       SentimentDistribution.negative := zero;
       SentimentDistribution.neutral := zero |} /\
  AnalysisMetrics.qualityIndicators m =
    {| QualityIndicators.avgLength := zero;
       QualityIndicators.avgLikes := zero;
       QualityIndicators.avgReadability := zero |} /\
  AnalysisMetrics.categoryDistribution m = [] /\
  AnalysisMetrics.videoMetrics m = None /\
  AnalysisMetrics.topKeywords m = [] /\
  AnalysisMetrics.engagementTrends m = [] /\
  isFinite zero = true.
Proof. repeat split. Qed.

Lemma categorizeComment_known (host : Host) (text : jsstring) :
  In (fst (categorizeComment host text)) knownCategories.
Proof.
  unfold categorizeComment.
  set (scores := map (fun p => (fst p, categoryScore (toLowerCase host text) (snd p)))
                   CATEGORY_KEYWORDS).
  destruct (filter (fun p => (0 <? snd p)%Z) (jsSort scoreAfter scores))
    as [| [c n] rest] eqn:E.
  - left. reflexivity.
  - right. simpl fst.
    assert (Hin : In (c, n) (filter (fun p => (0 <? snd p)%Z) (jsSort scoreAfter scores)))
      by (rewrite E; left; reflexivity).
    apply filter_In in Hin. destruct Hin as [Hin _].
    apply (Permutation_in _ (Permutation_sym (jsSort_perm scoreAfter scores))) in Hin.
    unfold scores in Hin. apply in_map_iff in Hin.
    destruct Hin as (p & Ep & Hp). inversion Ep; subst.
    apply in_map. exact Hp.
Qed.

Lemma extractKeywords_returns (host : Host) (text category : jsstring) :
  In category knownCategories ->
  exists keywords, extractKeywords host text category = Some keywords.
Proof.
  intros H. unfold extractKeywords.
  destruct (obj_get CATEGORY_KEYWORDS category) eqn:E; [eexists; reflexivity |].
  assert (I : isInherited category = false).
  { cbv in H.
    repeat (destruct H as [<- | H]; [vm_compute; reflexivity |]).
    contradiction. }
  rewrite I. eexists. reflexivity.
Qed.

Lemma analyzeVideo_returns (host : Host) (video : VideoData.t) :
  exists a, analyzeVideo host video = Some a /\ AnalyzedVideo.favouriteCount a = None.
Proof.
  unfold analyzeVideo.
  destruct (extractKeywords_returns host
              (or_str (VideoData.title video) [] ++ lit " " ++
               or_str (VideoData.description video) [])
              (fst (categorizeComment host
                      (or_str (VideoData.title video) [] ++ lit " " ++
                       or_str (VideoData.description video) [])))
              (categorizeComment_known host _)) as [k Ek].
  rewrite Ek. eexists. split; reflexivity.
Qed.

Lemma analyzeVideos_returns (host : Host) (videos : list VideoData.t) :
  exists analyzed,
    analyzeVideos host videos = Some analyzed /\
    List.length analyzed = List.length videos /\
    Forall (fun a => AnalyzedVideo.favouriteCount a = None) analyzed.
Proof.
  induction videos as [| v videos IH]; simpl.
  - exists []. repeat split. constructor.
  - destruct (analyzeVideo_returns host v) as (a & Ea & Fa).
    destruct IH as (l & El & Ll & Fl).
    rewrite Ea, El. exists (a :: l). repeat split.
    + simpl. congruence.
    + constructor; assumption.
Qed.

Lemma sumFavourites_missing (l : list AnalyzedVideo.t) :
  Forall (fun a => AnalyzedVideo.favouriteCount a = None) l ->
  sumFavourites l = zero.
Proof.
  unfold sumFavourites. induction 1 as [| a l Ha Hl IH]; simpl; [reflexivity |].
  rewrite Ha. simpl. exact IH.
Qed.

Lemma zero_div_count (n : nat) : num_div zero (of_nat (S n)) = zero.
Proof.
  unfold of_nat. rewrite Nat2Z.inj_succ.
  destruct (Z.succ (Z.of_nat n)) as [| p | p] eqn:E; try lia.
  pose proof (of_Z_pos_signed p) as H.
  destruct (of_Z (Z.pos p)) as [s | s | | s m e]; simpl in H; try contradiction;
    subst; reflexivity.
Qed.

Lemma generateMetrics_videoMetrics (host : Host) (comments : list AnalyzedComment.t)
  (videos : option (list AnalyzedVideo.t)) :
  AnalysisMetrics.videoMetrics (fst (generateMetrics host comments videos)) =
  fst (videoMetricsOf videos).
Proof.
  unfold generateMetrics.
  destruct (Nat.eqb (List.length comments) 0);
    destruct (videoMetricsOf videos); reflexivity.
Qed.

(** C5. The totals of favourites never see the videos' [favouriteCount]:
    [analyzeVideo] returns for every cleaned video and its result carries no
    [favouriteCount] property, so for every upload [totalFavorites] and
    [avgFavoriteCount] of the video block are 0, whatever the videos'
    favourite counts are. *)
Theorem totalFavorites_of_analyzed_videos (host : Host)
  (videos : list VideoData.t) (comments : list AnalyzedComment.t) :
  exists analyzed,
    analyzeVideos host videos = Some analyzed /\
    match AnalysisMetrics.videoMetrics
            (fst (generateMetrics host comments (Some analyzed))) with
    | Some m =>
        VideoMetrics.totalFavorites m = zero /\
        VideoMetrics.avgFavoriteCount m = zero
    | None => videos = []
    end.
Proof.
  destruct (analyzeVideos_returns host videos) as (analyzed & Ea & La & Fa).
  exists analyzed. split; [exact Ea |].
  rewrite generateMetrics_videoMetrics.
  destruct analyzed as [| a l].
  - destruct videos; [reflexivity | discriminate La].
  - unfold videoMetricsOf, videoBlock. cbn [fst VideoMetrics.totalFavorites
      VideoMetrics.avgFavoriteCount].
    rewrite (sumFavourites_missing _ Fa). split; [reflexivity |].
    apply zero_div_count.
Qed.

(** One upload: a video with 7 favourites is analyzed and aggregated, and
    the totals of favourites are 0. *)
Example totalFavorites_of_seven :
  VideoData.favouriteCount (sampleVideo "Skincare Routine" 1000 50 7 2) = of_Z 7 /\
  option_map
    (fun analyzed =>
       option_map
         (fun m => (VideoMetrics.totalFavorites m, VideoMetrics.avgFavoriteCount m))
         (AnalysisMetrics.videoMetrics
            (fst (generateMetrics refHost [] (Some analyzed)))))
    (analyzeVideos refHost [sampleVideo "Skincare Routine" 1000 50 7 2])
  = Some (Some (zero, zero)).
Proof. split; vm_compute; reflexivity. Qed.

Lemma countKeyword_get (s : Sentiment.t) (o : jsobj KeywordData) (keyword k : jsstring) :
  obj_get (countKeyword s o keyword) k = recordStep k s keyword (obj_get o k).
Proof.
  unfold countKeyword, recordStep.
  destruct (str_eqb keyword k) eqn:E.
  - apply str_eqb_eq in E. subst k.
    destruct (obj_get o keyword) as [d |] eqn:G.
    + rewrite obj_get_set, str_eqb_refl. reflexivity.
    + destruct (isInherited keyword); [exact G |].
      rewrite obj_get_set, str_eqb_refl. reflexivity.
  - destruct (obj_get o keyword) as [d |] eqn:G.
    + rewrite obj_get_set, E. reflexivity.
    + destruct (isInherited keyword); [reflexivity |].
      rewrite obj_get_set, E. reflexivity.
Qed.

Lemma countKeyword_NoDup (s : Sentiment.t) (o : jsobj KeywordData) (keyword : jsstring) :
  NoDup (map fst o) -> NoDup (map fst (countKeyword s o keyword)).
Proof.
  intros H. unfold countKeyword.
  destruct (obj_get o keyword); [apply obj_set_NoDup; exact H |].
  destruct (isInherited keyword); [exact H | apply obj_set_NoDup; exact H].
Qed.

Lemma countKeywords_get (k : jsstring) (c : AnalyzedComment.t) :
  forall o : jsobj KeywordData,
  obj_get (countKeywords o c) k =
  fold_left (fun d keyword => recordStep k (AnalyzedComment.sentiment c) keyword d)
    (AnalyzedComment.keywords c) (obj_get o k).
Proof.
  unfold countKeywords.
  induction (AnalyzedComment.keywords c) as [| kw l IH]; intros o; simpl;
    [reflexivity |].
  rewrite IH, countKeyword_get. reflexivity.
Qed.

Lemma countKeywords_NoDup (c : AnalyzedComment.t) : forall o : jsobj KeywordData,
  NoDup (map fst o) -> NoDup (map fst (countKeywords o c)).
Proof.
  unfold countKeywords.
  induction (AnalyzedComment.keywords c) as [| kw l IH]; intros o H; simpl;
    [exact H |].
  apply IH. apply countKeyword_NoDup. exact H.
Qed.

Lemma keywordCounts_get (k : jsstring) (comments : list AnalyzedComment.t) :
  forall o : jsobj KeywordData,
  obj_get (fold_left countKeywords comments o) k = recorded k comments (obj_get o k).
Proof.
  induction comments as [| c rest IH]; intros o; simpl; [reflexivity |].
  rewrite IH, countKeywords_get. reflexivity.
Qed.

Lemma keywordCounts_NoDup (comments : list AnalyzedComment.t) :
  forall o : jsobj KeywordData,
  NoDup (map fst o) -> NoDup (map fst (fold_left countKeywords comments o)).
Proof.
  induction comments as [| c rest IH]; intros o H; simpl; [exact H |].
  apply IH. apply countKeywords_NoDup. exact H.
Qed.

Lemma str_eqb_sym (a b : jsstring) : str_eqb a b = str_eqb b a.
Proof.
  destruct (str_eqb a b) eqn:E.
  - apply str_eqb_eq in E. subst. symmetry. apply str_eqb_refl.
  - destruct (str_eqb b a) eqn:F; [| reflexivity].
    apply str_eqb_eq in F. subst. rewrite str_eqb_refl in E. discriminate.
Qed.

(** Within one record: a keyword already recorded gains its occurrences. *)
Lemma record_list_some (k : jsstring) (s : Sentiment.t) (l : list jsstring) :
  forall d,
  fold_left (fun d keyword => recordStep k s keyword d) l (Some d) =
  Some {| kd_count := kd_count d + countIn k l; kd_sentiment := kd_sentiment d |}.
Proof.
  unfold countIn.
  induction l as [| kw l IH]; intros d; simpl.
  - rewrite Nat.add_0_r. destruct d; reflexivity.
  - unfold recordStep at 2. rewrite (str_eqb_sym k kw).
    destruct (str_eqb kw k); rewrite IH; simpl; f_equal; f_equal; lia.
Qed.

Lemma record_list_none (k : jsstring) (s : Sentiment.t) (l : list jsstring) :
  fold_left (fun d keyword => recordStep k s keyword d) l None =
  if isInherited k || negb (mem_str k l) then None
  else Some {| kd_count := countIn k l; kd_sentiment := s |}.
Proof.
  unfold countIn, mem_str.
  induction l as [| kw l IH]; simpl.
  - rewrite orb_true_r. reflexivity.
  - unfold recordStep at 2. rewrite (str_eqb_sym k kw).
    destruct (str_eqb kw k) eqn:E; simpl.
    + destruct (isInherited k) eqn:I; simpl.
      * rewrite IH. reflexivity.
      * rewrite record_list_some. reflexivity.
    + exact IH.
Qed.

Lemma countIn_zero (k : jsstring) (l : list jsstring) :
  mem_str k l = false -> countIn k l = 0.
Proof.
  unfold mem_str, countIn. induction l as [| x l IH]; simpl; [reflexivity |].
  destruct (str_eqb k x); simpl; [discriminate | exact IH].
Qed.

Lemma countIn_pos (k : jsstring) (l : list jsstring) :
  mem_str k l = true -> 0 < countIn k l.
Proof.
  unfold mem_str, countIn. induction l as [| x l IH]; simpl; [discriminate |].
  destruct (str_eqb k x); simpl; [lia | exact IH].
Qed.

Lemma recorded_some (k : jsstring) (comments : list AnalyzedComment.t) : forall d,
  recorded k comments (Some d) =
  Some {| kd_count := kd_count d + occurrences k comments;
          kd_sentiment := kd_sentiment d |}.
Proof.
  induction comments as [| c rest IH]; intros d; simpl.
  - rewrite Nat.add_0_r. destruct d; reflexivity.
  - rewrite record_list_some, IH. simpl. f_equal. f_equal. lia.
Qed.

Lemma recorded_none (k : jsstring) (comments : list AnalyzedComment.t) :
  recorded k comments None =
  if isInherited k then None
  else match firstSentiment k comments with
       | Some s => Some {| kd_count := occurrences k comments; kd_sentiment := s |}
       | None => None
       end.
Proof.
  induction comments as [| c rest IH]; simpl.
  - destruct (isInherited k); reflexivity.
  - rewrite record_list_none.
    destruct (isInherited k) eqn:I; simpl.
    + rewrite IH. reflexivity.
    + destruct (mem_str k (AnalyzedComment.keywords c)) eqn:M; simpl.
      * rewrite recorded_some. simpl. reflexivity.
      * rewrite IH, (countIn_zero _ _ M). reflexivity.
Qed.

Lemma occurrences_pos_first (k : jsstring) (comments : list AnalyzedComment.t) :
  0 < occurrences k comments -> exists s, firstSentiment k comments = Some s.
Proof.
  induction comments as [| c rest IH]; simpl; [lia |].
  intros H. destruct (mem_str k (AnalyzedComment.keywords c)) eqn:M.
  - eexists. reflexivity.
  - rewrite (countIn_zero _ _ M) in H. apply IH. exact H.
Qed.

Lemma generateMetrics_topKeywords (host : Host) (comments : list AnalyzedComment.t)
  (videos : option (list AnalyzedVideo.t)) :
  AnalysisMetrics.topKeywords (fst (generateMetrics host comments videos)) =
  topKeywordsOf comments.
Proof.
  unfold generateMetrics. destruct comments as [| c rest].
  - simpl. destruct (videoMetricsOf videos). reflexivity.
  - cbn [List.length Nat.eqb]. destruct (videoMetricsOf videos). reflexivity.
Qed.

(** C6, as amended. [topKeywords] holds at most 20 entries with different
    keywords, in descending order of count. The count of an entry is the
    number of occurrences of its keyword in the keyword lists of all
    records, repetitions within one list included, and its sentiment is
    that of the first record whose list contains the keyword. A keyword
    that occurs (and is not the name of an inherited property) is either
    listed, or the list is full and no listed count is below its own. *)
Theorem topKeywords_counts (host : Host) (comments : list AnalyzedComment.t)
  (videos : option (list AnalyzedVideo.t)) :
  let top := AnalysisMetrics.topKeywords (fst (generateMetrics host comments videos)) in
  List.length top <= 20 /\
  StronglySorted (fun a b => TopKeyword.count b <= TopKeyword.count a) top /\
  NoDup (map TopKeyword.keyword top) /\
  Forall (fun e =>
            TopKeyword.count e = occurrences (TopKeyword.keyword e) comments /\
            firstSentiment (TopKeyword.keyword e) comments =
              Some (TopKeyword.sentiment e)) top /\
  (forall k, 0 < occurrences k comments -> isInherited k = false ->
     (exists e, In e top /\ TopKeyword.keyword e = k) \/
     (List.length top = 20 /\
      Forall (fun e => occurrences k comments <= TopKeyword.count e) top)).
Proof.
  cbv zeta. rewrite generateMetrics_topKeywords. unfold topKeywordsOf.
  set (o := fold_left countKeywords comments []).
  set (sorted := jsSort countAfter (entries o)).
  fold toTopKeyword.
  change (fun p : jsstring * KeywordData =>
            {| TopKeyword.keyword := fst p; TopKeyword.count := kd_count (snd p);
               TopKeyword.sentiment := kd_sentiment (snd p) |}) with toTopKeyword.
  assert (Ho : NoDup (map fst o)) by (apply keywordCounts_NoDup; constructor).
  assert (Hperm : Permutation o sorted).
  { apply perm_trans with (entries o).
    - apply Permutation_sym. apply entries_perm.
    - apply jsSort_perm. }
  assert (Hsorted : StronglySorted
                      (fun a b : jsstring * KeywordData =>
                         kd_count (snd b) <= kd_count (snd a)) sorted).
  { apply (jsSort_sorted countAfter _ (fun _ => True)).
    - intros x y _ _ H. unfold countAfter in H. apply Nat.ltb_lt in H. lia.
    - intros x y _ _ H. unfold countAfter in H. apply Nat.ltb_ge in H. lia.
    - intros x y z H1 H2. lia.
    - apply Forall_forall. intros; exact I. }
  assert (Hget : forall k d, In (k, d) sorted ->
             isInherited k = false /\
             kd_count d = occurrences k comments /\
             firstSentiment k comments = Some (kd_sentiment d)).
  { intros k d Hin.
    apply (Permutation_in _ (Permutation_sym Hperm)) in Hin.
    apply (In_obj_get _ _ _ Ho) in Hin. unfold o in Hin.
    rewrite keywordCounts_get, recorded_none in Hin. simpl obj_get in Hin.
    destruct (isInherited k); [discriminate |].
    destruct (firstSentiment k comments); [| discriminate].
    inversion Hin; subst. simpl. auto. }
  split; [| split; [| split; [| split]]].
  - rewrite length_map. apply firstn_le_length.
  - apply StronglySorted_map. apply StronglySorted_firstn. exact Hsorted.
  - replace (map TopKeyword.keyword (map toTopKeyword (firstn 20 sorted)))
      with (firstn 20 (map fst sorted))
      by (rewrite map_map, firstn_map; reflexivity).
    apply NoDup_firstn.
    apply (Permutation_NoDup (Permutation_map fst Hperm)). exact Ho.
  - apply Forall_forall. intros e He. apply in_map_iff in He.
    destruct He as ([k d] & <- & Hin). apply firstn_In in Hin.
    destruct (Hget k d Hin) as (_ & H1 & H2). simpl. auto.
  - intros k Hk Hi.
    destruct (occurrences_pos_first k comments Hk) as [s Hs].
    assert (Hin : In (k, {| kd_count := occurrences k comments; kd_sentiment := s |}) sorted).
    { apply (Permutation_in _ Hperm). apply obj_get_In. unfold o.
      rewrite keywordCounts_get, recorded_none, Hi, Hs. reflexivity. }
    rewrite <- (firstn_skipn 20 sorted) in Hin, Hsorted.
    apply in_app_or in Hin. destruct Hin as [Hin | Hin].
    + left. eexists. split; [apply in_map; exact Hin | reflexivity].
    + right. split.
      * rewrite length_map. apply firstn_length_le.
        destruct (Nat.le_gt_cases 20 (List.length sorted)) as [L | L]; [exact L |].
        rewrite skipn_all2 in Hin by lia. contradiction.
      * apply Forall_forall. intros e He. apply in_map_iff in He.
        destruct He as (p & <- & Hp).
        apply (StronglySorted_app_le _ _ _ _ Hsorted _ _ Hp Hin).
Qed.

(** C6, counterexample: the keywords extracted from the text "moisturizer"
    name it twice; one record with this list gives the count 2, while one
    record contains the keyword. *)
Lemma repeated_keyword_counted_twice :
  extractKeywords refHost (lit "moisturizer") (lit "skincare") =
    Some [lit "moisturizer"; lit "moisturizer"] /\
  let comments := [commentWithKeywords [lit "moisturizer"; lit "moisturizer"]] in
  map (fun e => (TopKeyword.keyword e, TopKeyword.count e))
    (AnalysisMetrics.topKeywords (fst (generateMetrics refHost comments None)))
    = [(lit "moisturizer", 2)] /\
  recordsContaining (lit "moisturizer") comments = 1.
Proof. repeat split; vm_compute; reflexivity. Qed.

Lemma rateAfter_ltb (y x : AnalyzedVideo.t) :
  rateOk x -> rateOk y ->
  rateAfter y x =
  num_ltb (AnalyzedVideo.engagementRate y) (AnalyzedVideo.engagementRate x).
Proof.
  intros [Vx Nx] [Vy Ny]. unfold rateAfter. apply sub_gt_zero; assumption.
Qed.

Lemma rate_sort_sorted (l : list AnalyzedVideo.t) :
  Forall rateOk l -> StronglySorted descending (jsSort rateAfter l).
Proof.
  apply jsSort_sorted.
  - intros x y Px Py H. rewrite rateAfter_ltb in H by assumption.
    apply ltb_leb. exact H.
  - intros x y Px Py H. rewrite rateAfter_ltb in H by assumption.
    apply not_ltb_leb; [apply Py | apply Px | exact H].
  - intros x y z H1 H2. unfold descending in *.
    apply leb_trans with (AnalyzedVideo.engagementRate y); assumption.
Qed.

Lemma videoMetricsOf_after (videos : list AnalyzedVideo.t) :
  videos <> [] ->
  snd (videoMetricsOf (Some videos)) = Some (jsSort rateAfter videos).
Proof.
  intros H. destruct videos as [| v vs]; [contradiction |]. reflexivity.
Qed.

Lemma generateMetrics_after (host : Host) (comments : list AnalyzedComment.t)
  (videos : option (list AnalyzedVideo.t)) :
  snd (generateMetrics host comments videos) = snd (videoMetricsOf videos).
Proof.
  unfold generateMetrics.
  destruct (Nat.eqb (List.length comments) 0);
    destruct (videoMetricsOf videos); reflexivity.
Qed.





Lemma splitFields_plain (sep : N) (line : jsstring) : forall current result,
  ~ In 34%N line ->
  splitFields sep line current false result =
  result ++ match splitOn sep line with
            | l :: ls => (current ++ l) :: ls
            | [] => [current]
            end.
Proof.
  induction line as [| c line IH]; intros current result H; simpl.
  - rewrite app_nil_r. reflexivity.
  - assert (Hc : N.eqb c 34 = false).
    { apply N.eqb_neq. intros ->. apply H. left. reflexivity. }
    assert (Hl : ~ In 34%N line) by (intros Hin; apply H; right; exact Hin).
    rewrite Hc. pose proof (splitOn_nonempty sep line) as Hn.
    destruct (N.eqb c sep); simpl.
    + rewrite IH by assumption.
      destruct (splitOn sep line) as [| l ls]; [contradiction |].
      rewrite app_nil_r, <- app_assoc. reflexivity.
    + rewrite IH by assumption.
      destruct (splitOn sep line) as [| l ls]; [contradiction |].
      rewrite <- app_assoc. reflexivity.
Qed.

(** X1. On a line that holds no double quote, [parseCSVLine] is the plain
    split at the separator: the fields are exactly the pieces between
    separators, empty pieces included. *)
Theorem parseCSVLine_without_quotes (line : jsstring) (separator : N) :
  ~ In 34%N line -> parseCSVLine line separator = splitOn separator line.
Proof.
  intros H. unfold parseCSVLine. rewrite splitFields_plain by assumption.
  pose proof (splitOn_nonempty separator line) as Hn.
  destruct (splitOn separator line); [contradiction | reflexivity].
Qed.

Lemma parseCSVLine_without_quotes_witness :
  ~ In 34%N (lit "v1;Skincare Routine;;1000") /\
  parseCSVLine (lit "v1;Skincare Routine;;1000") 59 =
    [lit "v1"; lit "Skincare Routine"; []; lit "1000"].
Proof.
  assert (H : ~ In 34%N (lit "v1;Skincare Routine;;1000")).
  { intros Hin. vm_compute in Hin.
    repeat (destruct Hin as [Hin | Hin]; [discriminate Hin |]). exact Hin. }
  split; [exact H |].
  rewrite (parseCSVLine_without_quotes _ 59 H). reflexivity.
Defined.

Lemma splitFields_quoted (sep : N) (text : jsstring) : forall rest current result,
  notQuoteFirst rest ->
  splitFields sep (escapeQuotes text ++ 34%N :: rest) current true result =
  splitFields sep rest (current ++ text) false result.
Proof.
  induction text as [| c text IH]; intros rest current result H.
  - simpl escapeQuotes. simpl app. rewrite app_nil_r.
    destruct rest as [| d rest]; [reflexivity |].
    simpl in H. simpl. apply N.eqb_neq in H. rewrite H. reflexivity.
  - simpl escapeQuotes. destruct (N.eqb_spec c 34) as [-> | Hc].
    + simpl app. simpl splitFields.
      rewrite IH by assumption. rewrite <- app_assoc. reflexivity.
    + change (([c] ++ escapeQuotes text) ++ 34%N :: rest)
        with (c :: (escapeQuotes text ++ 34%N :: rest)).
      simpl splitFields. apply N.eqb_neq in Hc. rewrite Hc.
      rewrite andb_false_r.
      rewrite IH by assumption. rewrite <- app_assoc. reflexivity.
Qed.

Lemma splitFields_open_quote (sep : N) (text rest current : jsstring)
  (result : list jsstring) :
  notQuoteFirst rest ->
  splitFields sep (exportText text ++ rest) current false result =
  splitFields sep rest (current ++ text) false result.
Proof.
  intros H. unfold exportText. fold (escapeQuotes text).
  change ((34%N :: escapeQuotes text ++ [34%N]) ++ rest)
    with (34%N :: ((escapeQuotes text ++ [34%N]) ++ rest)).
  rewrite <- app_assoc. simpl app.
  assert (E : splitFields sep (34%N :: (escapeQuotes text ++ 34%N :: rest))
                current false result =
              splitFields sep (escapeQuotes text ++ 34%N :: rest) current true result).
  { simpl. destruct (escapeQuotes text ++ 34%N :: rest); reflexivity. }
  rewrite E. apply splitFields_quoted. exact H.
Qed.

Lemma splitFields_separator (sep : N) (rest current : jsstring)
  (result : list jsstring) :
  sep <> 34%N ->
  splitFields sep (sep :: rest) current false result =
  splitFields sep rest [] false (result ++ [current]).
Proof.
  intros H. simpl. apply N.eqb_neq in H. rewrite H, N.eqb_refl. reflexivity.
Qed.

Lemma splitFields_line_of_quoted (sep : N) (fields : list jsstring) :
  sep <> 34%N -> forall f result,
  splitFields sep (joinWith sep (map exportText (f :: fields))) [] false result =
  result ++ f :: fields.
Proof.
  intros Hs. induction fields as [| g fields IH]; intros f result.
  - simpl joinWith. rewrite <- (app_nil_r (exportText f)).
    rewrite splitFields_open_quote by exact I. reflexivity.
  - change (joinWith sep (map exportText (f :: g :: fields)))
      with (exportText f ++ sep :: joinWith sep (map exportText (g :: fields))).
    rewrite splitFields_open_quote by (simpl; exact Hs).
    rewrite splitFields_separator by exact Hs.
    rewrite IH. rewrite <- app_assoc. reflexivity.
Qed.

(** X2. Reading back what the export writes: when every field is written
    as [exportText] writes the comment text (in double quotes, each quote
    inside doubled) and the fields are joined by a separator other than the
    quote, [parseCSVLine] returns the original fields, whatever separators
    and quotes they contain. *)
Theorem parseCSVLine_reads_quoted_fields (separator : N) (f : jsstring)
  (fields : list jsstring) :
  separator <> 34%N ->
  parseCSVLine (joinWith separator (map exportText (f :: fields))) separator =
  f :: fields.
Proof.
  intros H. unfold parseCSVLine.
  rewrite splitFields_line_of_quoted by exact H. reflexivity.
Qed.

Lemma parseCSVLine_reads_quoted_fields_witness :
  44%N <> 34%N /\
  parseCSVLine
    (joinWith 44
       (map exportText [lit "so " ++ 34%N :: lit "dry" ++ 34%N :: lit ", twice";
                        []; lit "a,b"])) 44 =
  [lit "so " ++ 34%N :: lit "dry" ++ 34%N :: lit ", twice"; []; lit "a,b"].
Proof.
  assert (H : 44%N <> 34%N) by discriminate.
  split; [exact H |].
  exact (parseCSVLine_reads_quoted_fields 44 _ _ H).
Defined.

(** X3. The separator [parseCSV] picks is the first one, in the order
    comma, semicolon, pipe, tab, whose header score is the greatest: the
    recorded score is the score of the picked separator, every earlier
    candidate scores strictly less and every later one scores no more. When
    no candidate matches any expected column the comma is kept. *)
Theorem pickSeparator_first_best (host : Host) (expectedColumns : list jsstring)
  (headerLine : jsstring) :
  let best := pickSeparator host expectedColumns headerLine in
  let score := separatorScore host expectedColumns headerLine in
  snd best = score (fst best) /\
  exists earlier later,
    separators = earlier ++ fst best :: later /\
    Forall (fun s => score s < snd best) earlier /\
    Forall (fun s => score s <= snd best) later.
Proof.
  cbv zeta. unfold pickSeparator, separators. cbn [fold_left fst snd].
  fold (separatorScore host expectedColumns headerLine 44).
  fold (separatorScore host expectedColumns headerLine 59).
  fold (separatorScore host expectedColumns headerLine 124).
  fold (separatorScore host expectedColumns headerLine 9).
  set (a := separatorScore host expectedColumns headerLine 44).
  set (b := separatorScore host expectedColumns headerLine 59).
  set (c := separatorScore host expectedColumns headerLine 124).
  set (d := separatorScore host expectedColumns headerLine 9).
  destruct (Nat.ltb_spec 0 a) as [Ha | Ha]; cbn [fst snd];
    repeat match goal with
           | |- context [Nat.ltb ?x ?y] =>
               first [is_var x | unify x 0]; is_var y;
               destruct (Nat.ltb_spec x y); cbn [fst snd]
           end;
    (split; [reflexivity || (fold a; lia) |]);
    first
      [ exists [], [59; 124; 9]%N; split; [reflexivity |];
        split; repeat first [apply Forall_nil | apply Forall_cons]; cbv beta; fold a b c d; lia
      | exists [44%N], [124; 9]%N; split; [reflexivity |];
        split; repeat first [apply Forall_nil | apply Forall_cons]; cbv beta; fold a b c d; lia
      | exists [44; 59]%N, [9%N]; split; [reflexivity |];
        split; repeat first [apply Forall_nil | apply Forall_cons]; cbv beta; fold a b c d; lia
      | exists [44; 59; 124]%N, []; split; [reflexivity |];
        split; repeat first [apply Forall_nil | apply Forall_cons]; cbv beta; fold a b c d; lia ].
Qed.



Lemma headNotSpace_dropWhile (s : jsstring) :
  headNotSpace s -> dropWhile isWhiteSpace s = s.
Proof.
  destruct s as [| c s]; simpl; [reflexivity |]. intros ->. reflexivity.
Qed.

Lemma trim_idempotent (s : jsstring) : trim (trim s) = trim s.
Proof.
  destruct (trim_shape s) as (_ & Hh & Hl).
  unfold trim at 1. unfold trimStart, trimEnd.
  rewrite (headNotSpace_dropWhile _ Hh).
  rewrite (headNotSpace_dropWhile _ Hl).
  apply rev_involutive.
Qed.






Lemma or_str_nil (s : jsstring) : or_str s [] = s.
Proof. destruct s; reflexivity. Qed.

Lemma Forall2_snoc (A B : Type) (R : A -> B -> Prop) (l : list A) (l' : list B)
  (x : A) (y : B) :
  Forall2 R l l' -> R x y -> Forall2 R (l ++ [x]) (l' ++ [y]).
Proof.
  intros H Hxy. apply Forall2_app; [exact H |]. constructor; [exact Hxy | constructor].
Qed.

Lemma cleanComment_fold_rows (host : Host) (comments : list CommentRow.t) :
  forall kept cleaned n,
  Forall2 (commentFrom host) kept cleaned ->
  let r := fold_left (cleanComment host) comments (cleaned, n) in
  Forall2 (commentFrom host) (kept ++ filter keepsComment comments) (fst r) /\
  cc_nullVideoIds (snd r) =
    cc_nullVideoIds n + countIf (fun c => isBlank (CommentRow.videoId c)) comments /\
  cc_nullCommentIds (snd r) =
    cc_nullCommentIds n +
    countIf (fun c => negb (isBlank (CommentRow.videoId c)) &&
                      isBlank (CommentRow.commentId c)) comments /\
  cc_nullTexts (snd r) =
    cc_nullTexts n +
    countIf (fun c => negb (isBlank (CommentRow.videoId c)) &&
                      negb (isBlank (CommentRow.commentId c)) &&
                      isBlank (CommentRow.textOriginal c)) comments /\
  cc_invalidDates (snd r) =
    cc_invalidDates n +
    countIf (fun c => keepsComment c && badDate host (CommentRow.publishedAt c))
      comments.
Proof.
  unfold countIf.
  induction comments as [| c comments IH]; intros kept cleaned n H; cbv zeta.
  - simpl. rewrite app_nil_r. repeat split; try lia. exact H.
  - simpl fold_left. simpl filter.
    pose proof (eq_refl (keepsComment c)) as K. unfold keepsComment at 2 in K.
    remember (cleanComment host (cleaned, n) c) as st eqn:Est.
    unfold cleanComment in Est.
    destruct (isBlank (CommentRow.videoId c)) eqn:E1; simpl negb; simpl andb;
      [subst st; rewrite ?E1, ?E2, ?E3 in K; simpl in K; rewrite K;
       match goal with
       | |- context [fold_left _ comments (cleaned, ?n')] =>
           destruct (IH kept cleaned n' H) as (I1 & I2 & I3 & I4 & I5)
       end;
       repeat split; [exact I1 | | | |];
       cbn [cc_nullVideoIds cc_nullCommentIds cc_nullTexts cc_invalidDates] in *;
       cbv beta iota; rewrite ?E1, ?E2, ?E3; simpl negb; simpl andb; cbv beta iota;
       simpl List.length; lia |].
    destruct (isBlank (CommentRow.commentId c)) eqn:E2; simpl negb; simpl andb;
      [subst st; rewrite ?E1, ?E2, ?E3 in K; simpl in K; rewrite K;
       match goal with
       | |- context [fold_left _ comments (cleaned, ?n')] =>
           destruct (IH kept cleaned n' H) as (I1 & I2 & I3 & I4 & I5)
       end;
       repeat split; [exact I1 | | | |];
       cbn [cc_nullVideoIds cc_nullCommentIds cc_nullTexts cc_invalidDates] in *;
       cbv beta iota; rewrite ?E1, ?E2, ?E3; simpl negb; simpl andb; cbv beta iota;
       simpl List.length; lia |].
    destruct (isBlank (CommentRow.textOriginal c)) eqn:E3; simpl negb; simpl andb;
      [subst st; rewrite ?E1, ?E2, ?E3 in K; simpl in K; rewrite K;
       match goal with
       | |- context [fold_left _ comments (cleaned, ?n')] =>
           destruct (IH kept cleaned n' H) as (I1 & I2 & I3 & I4 & I5)
       end;
       repeat split; [exact I1 | | | |];
       cbn [cc_nullVideoIds cc_nullCommentIds cc_nullTexts cc_invalidDates] in *;
       cbv beta iota; rewrite ?E1, ?E2, ?E3; simpl negb; simpl andb; cbv beta iota;
       simpl List.length; lia |].
    cbv zeta in Est. subst st.
    change (truthy_str (CommentRow.publishedAt c) &&
            negb (isValidDate host (CommentRow.publishedAt c)))
      with (badDate host (CommentRow.publishedAt c)).
    match goal with
    | |- context [fold_left _ comments (cleaned ++ [?rec], ?n')] =>
        assert (H' : Forall2 (commentFrom host) (kept ++ [c]) (cleaned ++ [rec]))
          by (apply Forall2_snoc; [exact H | repeat split; apply or_str_nil]);
        destruct (IH (kept ++ [c]) (cleaned ++ [rec]) n' H')
          as (I1 & I2 & I3 & I4 & I5)
    end.
    rewrite <- app_assoc in I1. simpl app in I1.
    rewrite ?E1, ?E2, ?E3 in K. simpl in K. rewrite K.
    repeat split; [exact I1 | | | |];
      cbn [cc_nullVideoIds cc_nullCommentIds cc_nullTexts cc_invalidDates] in *;
      cbv beta iota; rewrite ?E1, ?E2, ?E3; simpl negb; simpl andb; cbv beta iota;
      destruct (badDate host (CommentRow.publishedAt c)); cbv beta iota in *;
      simpl List.length; lia.
Qed.

(** X5. [cleanCommentData] keeps exactly the rows whose [videoId],
    [commentId] and [textOriginal] are not blank, in the order of the input,
    each turned into a record with the text trimmed, the like count cleaned
    and an invalid time stamp emptied. [nullVideoIds] counts the rows with a
    blank [videoId], [nullCommentIds] those with a [videoId] but a blank
    [commentId], [nullTexts] those with both identifiers but a blank text,
    and [invalidDates] the kept rows with a time stamp that is present and
    invalid. *)
Theorem cleanCommentData_keeps (host : Host) (comments : list CommentRow.t) :
  let r := cleanCommentData host comments in
  Forall2 (commentFrom host) (filter keepsComment comments) (fst r) /\
  CommentStats.nullVideoIds (snd r) =
    countIf (fun c => isBlank (CommentRow.videoId c)) comments /\
  CommentStats.nullCommentIds (snd r) =
    countIf (fun c => negb (isBlank (CommentRow.videoId c)) &&
                      isBlank (CommentRow.commentId c)) comments /\
  CommentStats.nullTexts (snd r) =
    countIf (fun c => negb (isBlank (CommentRow.videoId c)) &&
                      negb (isBlank (CommentRow.commentId c)) &&
                      isBlank (CommentRow.textOriginal c)) comments /\
  CommentStats.invalidDates (snd r) =
    countIf (fun c => keepsComment c && badDate host (CommentRow.publishedAt c))
      comments.
Proof.
  cbv zeta. unfold cleanCommentData.
  pose proof (cleanComment_fold_rows host comments [] []
                {| cc_nullVideoIds := 0; cc_nullCommentIds := 0;
                   cc_nullTexts := 0; cc_invalidDates := 0 |}
                (Forall2_nil _)) as H.
  cbv zeta in H.
  destruct (fold_left (cleanComment host) comments _) as [cleaned n].
  simpl in H |- *. exact H.
Qed.

Lemma cleanVideo_fold_rows (host : Host) (videos : list VideoRow.t) :
  forall kept cleaned n,
  Forall2 (videoFrom host) kept cleaned ->
  let r := fold_left (cleanVideo host) videos (cleaned, n) in
  Forall2 (videoFrom host) (kept ++ filter keepsVideo videos) (fst r) /\
  vc_nullVideoIds (snd r) =
    vc_nullVideoIds n + countIf (fun v => isBlank (VideoRow.videoId v)) videos /\
  vc_nullTitles (snd r) =
    vc_nullTitles n +
    countIf (fun v => negb (isBlank (VideoRow.videoId v)) &&
                      isBlank (VideoRow.title v)) videos /\
  vc_invalidDates (snd r) =
    vc_invalidDates n +
    countIf (fun v => keepsVideo v && badDate host (VideoRow.publishedAt v)) videos /\
  vc_invalidMetrics (snd r) =
    vc_invalidMetrics n +
    countIf (fun v => keepsVideo v && badMetric (VideoRow.viewCount v)) videos.
Proof.
  unfold countIf.
  induction videos as [| v videos IH]; intros kept cleaned n H; cbv zeta.
  - simpl. rewrite app_nil_r. repeat split; try lia. exact H.
  - simpl fold_left. simpl filter.
    pose proof (eq_refl (keepsVideo v)) as K. unfold keepsVideo at 2 in K.
    remember (cleanVideo host (cleaned, n) v) as st eqn:Est.
    unfold cleanVideo in Est.
    destruct (isBlank (VideoRow.videoId v)) eqn:E1; simpl negb; simpl andb;
      [subst st; rewrite ?E1, ?E2 in K; simpl in K; rewrite K;
       match goal with
       | |- context [fold_left _ videos (cleaned, ?n')] =>
           destruct (IH kept cleaned n' H) as (I1 & I2 & I3 & I4 & I5)
       end;
       repeat split; [exact I1 | | | |];
       cbn [vc_nullVideoIds vc_nullTitles vc_invalidDates vc_invalidMetrics] in *;
       cbv beta iota; rewrite ?E1, ?E2; simpl negb; simpl andb; cbv beta iota;
       simpl List.length; lia |].
    destruct (isBlank (VideoRow.title v)) eqn:E2; simpl negb; simpl andb;
      [subst st; rewrite ?E1, ?E2 in K; simpl in K; rewrite K;
       match goal with
       | |- context [fold_left _ videos (cleaned, ?n')] =>
           destruct (IH kept cleaned n' H) as (I1 & I2 & I3 & I4 & I5)
       end;
       repeat split; [exact I1 | | | |];
       cbn [vc_nullVideoIds vc_nullTitles vc_invalidDates vc_invalidMetrics] in *;
       cbv beta iota; rewrite ?E1, ?E2; simpl negb; simpl andb; cbv beta iota;
       simpl List.length; lia |].
    cbv zeta in Est. subst st.
    change (truthy_str (VideoRow.publishedAt v) &&
            negb (isValidDate host (VideoRow.publishedAt v)))
      with (badDate host (VideoRow.publishedAt v)).
    change (truthy_str (VideoRow.viewCount v) &&
            num_eqb (cleanCount (VideoRow.viewCount v)) zero)
      with (badMetric (VideoRow.viewCount v)).
    match goal with
    | |- context [fold_left _ videos (cleaned ++ [?rec], ?n')] =>
        assert (H' : Forall2 (videoFrom host) (kept ++ [v]) (cleaned ++ [rec]))
          by (apply Forall2_snoc; [exact H | repeat split; apply or_str_nil]);
        destruct (IH (kept ++ [v]) (cleaned ++ [rec]) n' H')
          as (I1 & I2 & I3 & I4 & I5)
    end.
    rewrite <- app_assoc in I1. simpl app in I1.
    rewrite ?E1, ?E2 in K. simpl in K. rewrite K.
    repeat split; [exact I1 | | | |];
      cbn [vc_nullVideoIds vc_nullTitles vc_invalidDates vc_invalidMetrics] in *;
      cbv beta iota; rewrite ?E1, ?E2; simpl negb; simpl andb; cbv beta iota;
      destruct (badDate host (VideoRow.publishedAt v));
      destruct (badMetric (VideoRow.viewCount v)); cbv beta iota in *;
      simpl List.length; lia.
Qed.

(** X6. [cleanVideoData] keeps exactly the rows whose [videoId] and
    [title] are not blank, in the order of the input, each turned into a
    record with the title trimmed, the four counters cleaned, the tag lists
    split and an invalid time stamp emptied. [nullVideoIds] counts the rows
    with a blank [videoId], [nullTitles] those with a [videoId] but a blank
    title, [invalidDates] the kept rows with a time stamp that is present
    and invalid, and [invalidMetrics] the kept rows whose view count is
    present but cleans to zero. *)
Theorem cleanVideoData_keeps (host : Host) (videos : list VideoRow.t) :
  let r := cleanVideoData host videos in
  Forall2 (videoFrom host) (filter keepsVideo videos) (fst r) /\
  VideoStats.nullVideoIds (snd r) =
    countIf (fun v => isBlank (VideoRow.videoId v)) videos /\
  VideoStats.nullTitles (snd r) =
    countIf (fun v => negb (isBlank (VideoRow.videoId v)) &&
                      isBlank (VideoRow.title v)) videos /\
  VideoStats.invalidDates (snd r) =
    countIf (fun v => keepsVideo v && badDate host (VideoRow.publishedAt v)) videos /\
  VideoStats.invalidMetrics (snd r) =
    countIf (fun v => keepsVideo v && badMetric (VideoRow.viewCount v)) videos.
Proof.
  cbv zeta. unfold cleanVideoData.
  pose proof (cleanVideo_fold_rows host videos [] []
                {| vc_nullVideoIds := 0; vc_nullTitles := 0;
                   vc_invalidDates := 0; vc_invalidMetrics := 0 |}
                (Forall2_nil _)) as H.
  cbv zeta in H.
  destruct (fold_left (cleanVideo host) videos _) as [cleaned n].
  simpl in H |- *. exact H.
Qed.

Lemma Forall2_filter_Forall (A B : Type) (keep : A -> bool) (R : A -> B -> Prop)
  (P : B -> Prop) (rows : list A) (cleaned : list B) :
  (forall row c, keep row = true -> R row c -> P c) ->
  Forall2 R (filter keep rows) cleaned -> Forall P cleaned.
Proof.
  intros HP H.
  assert (K : Forall (fun row => keep row = true) (filter keep rows))
    by (apply Forall_forall; intros x Hx; apply filter_In in Hx; tauto).
  induction H as [| row c kept cleaned HR _ IH]; constructor.
  - inversion K; subst. eapply HP; eassumption.
  - inversion K; subst. apply IH. assumption.
Qed.

Lemma isBlank_false (s : jsstring) :
  isBlank s = false -> trim s <> [].
Proof.
  unfold isBlank. intros H. apply orb_false_elim in H. destruct H as [_ H].
  destruct (trim s); [discriminate | discriminate].
Qed.

Lemma or_num_notNaN (x : number) : notNaN (or_num x zero).
Proof. unfold notNaN, or_num. destruct x; reflexivity. Qed.

Lemma math_max_zero (y : number) : notNaN y -> nonNegative (math_max zero y).
Proof.
  unfold notNaN, nonNegative, math_max. intros Hy.
  change (isNaN zero) with false. rewrite Hy. cbv [orb].
  destruct (num_ltb zero y) eqn:L.
  - split; [exact Hy | apply ltb_leb; exact L].
  - destruct (num_ltb y zero); split; reflexivity.
Qed.

Lemma cleanCount_nonNegative (s : jsstring) : nonNegative (cleanCount s).
Proof. apply math_max_zero, or_num_notNaN. Qed.

Lemma badDate_cleared (host : Host) (s : jsstring) :
  let d := if badDate host s then [] else s in
  d = [] \/ isValidDate host d = true.
Proof.
  cbv zeta. unfold badDate. destruct s as [| c s]; [left; reflexivity |].
  cbn [truthy_str andb].
  destruct (isValidDate host (c :: s)) eqn:V; [right; exact V | left; reflexivity].
Qed.

Lemma splitList_items (s : jsstring) :
  Forall (fun t => t <> [] /\ trim t = t) (splitList s).
Proof.
  unfold splitList. apply Forall_forall. intros t Ht.
  apply in_map_iff in Ht. destruct Ht as (u & <- & Hu).
  apply filter_In in Hu. destruct Hu as [_ Hu].
  split; [destruct (trim u); [discriminate | discriminate] | apply trim_idempotent].
Qed.

(** X7. Every record [cleanCommentData] returns has a [videoId] and a
    [commentId] that are not blank, a text that is not empty and is trimmed,
    an [authorId] that is not empty, a like count that is a number (not
    [NaN]) and not below zero, and a [publishedAt] that is empty or
    valid. *)
Theorem cleanCommentData_records (host : Host) (comments : list CommentRow.t) :
  Forall (fun c =>
            isBlank (CommentData.videoId c) = false /\
            isBlank (CommentData.commentId c) = false /\
            CommentData.textOriginal c <> [] /\
            trim (CommentData.textOriginal c) = CommentData.textOriginal c /\
            CommentData.authorId c <> [] /\
            nonNegative (CommentData.likeCount c) /\
            (CommentData.publishedAt c = [] \/
             isValidDate host (CommentData.publishedAt c) = true))
    (fst (cleanCommentData host comments)).
Proof.
  destruct (cleanCommentData_keeps host comments) as [H _].
  revert H. apply Forall2_filter_Forall.
  intros row c K (_ & E1 & _ & E2 & E3 & E4 & _ & E5 & E6 & _).
  unfold keepsComment in K.
  apply andb_prop in K. destruct K as [K K3].
  apply andb_prop in K. destruct K as [K1 K2].
  apply negb_true_iff in K1, K2, K3.
  rewrite E1, E2, E3, E4, E5, E6.
  repeat split.
  - exact K1.
  - exact K2.
  - apply isBlank_false. exact K3.
  - apply trim_idempotent.
  - unfold or_str. destruct (CommentRow.authorId row); discriminate.
  - apply cleanCount_nonNegative.
  - apply cleanCount_nonNegative.
  - apply badDate_cleared.
Qed.

(** X8. Every record [cleanVideoData] returns has a [videoId] that is not
    blank, a title that is not empty and is trimmed, a default language that
    is not empty, view, like, favourite and comment counts that are numbers
    (not [NaN]) and not below zero, tags and topic categories that are
    trimmed and not empty, and a [publishedAt] that is empty or valid. *)
Theorem cleanVideoData_records (host : Host) (videos : list VideoRow.t) :
  Forall (fun v =>
            isBlank (VideoData.videoId v) = false /\
            VideoData.title v <> [] /\
            trim (VideoData.title v) = VideoData.title v /\
            VideoData.defaultLanguage v <> [] /\
            nonNegative (VideoData.viewCount v) /\
            nonNegative (VideoData.likeCount v) /\
            nonNegative (VideoData.favouriteCount v) /\
            nonNegative (VideoData.commentCount v) /\
            Forall (fun t => t <> [] /\ trim t = t) (VideoData.tags v) /\
            Forall (fun t => t <> [] /\ trim t = t) (VideoData.topicCategories v) /\
            (VideoData.publishedAt v = [] \/
             isValidDate host (VideoData.publishedAt v) = true))
    (fst (cleanVideoData host videos)).
Proof.
  destruct (cleanVideoData_keeps host videos) as [H _].
  revert H. apply Forall2_filter_Forall.
  intros row v K
    (_ & E1 & E2 & _ & E3 & _ & E4 & E5 & _ & _ & E6 & E7 & E8 & E9 & E10).
  unfold keepsVideo in K.
  apply andb_prop in K. destruct K as [K1 K2].
  apply negb_true_iff in K1, K2.
  rewrite E1, E2, E3, E4, E5, E6, E7, E8, E9, E10.
  split; [exact K1 |].
  split; [apply isBlank_false; exact K2 |].
  split; [apply trim_idempotent |].
  split; [unfold or_str; destruct (VideoRow.defaultLanguage row); discriminate |].
  split; [apply cleanCount_nonNegative |].
  split; [apply cleanCount_nonNegative |].
  split; [apply cleanCount_nonNegative |].
  split; [apply cleanCount_nonNegative |].
  split; [apply splitList_items |].
  split; [apply splitList_items |].
  apply badDate_cleared.
Qed.

Lemma forCounters_sound (maxWords : nat) (check : Z -> Z -> bool) (score wordCount : Z) :
  forCounters maxWords check = true ->
  (0 <= wordCount <= Z.of_nat maxWords)%Z ->
  (- (3 * wordCount) <= score <= 3 * wordCount)%Z ->
  check score wordCount = true.
Proof.
  unfold forCounters. intros H Hw Hs.
  rewrite forallb_forall in H.
  specialize (H (Z.to_nat wordCount)).
  rewrite forallb_forall in H.
  assert (I1 : In (Z.to_nat wordCount) (seq 0 (maxWords + 1))) by (apply in_seq; lia).
  specialize (H I1 (Z.to_nat (score + 3 * wordCount))).
  assert (I2 : In (Z.to_nat (score + 3 * wordCount))
                 (seq 0 (6 * Z.to_nat wordCount + 1))) by (apply in_seq; lia).
  specialize (H I2).
  replace (Z.of_nat (Z.to_nat (score + 3 * wordCount)) -
           3 * Z.of_nat (Z.to_nat wordCount))%Z with score in H by lia.
  replace (Z.of_nat (Z.to_nat wordCount)) with wordCount in H by lia.
  exact H.
Qed.

Lemma tallyWords_counters (lowerText : jsstring) (weight : Z) (words : list jsstring) :
  forall st,
  let r := tallyWords lowerText weight words st in
  (snd st <= snd r <= snd st + Z.of_nat (List.length words))%Z /\
  (fst r = fst st + weight * (snd r - snd st))%Z.
Proof.
  unfold tallyWords.
  induction words as [| w words IH]; intros st; cbv zeta; simpl fold_left.
  - simpl. lia.
  - destruct (includes lowerText w).
    + specialize (IH (fst st + weight, snd st + 1)%Z). cbv zeta in IH.
      cbn [fst snd] in IH. simpl List.length. nia.
    + specialize (IH st). cbv zeta in IH. simpl List.length. nia.
Qed.

Ltac count_words l H :=
  let n := eval vm_compute in (List.length l) in
  change (List.length l) with n in H.

Lemma analyzeSentiment_counters (host : Host) (text : jsstring) :
  exists score wordCount,
    analyzeSentiment host text = sentimentVerdict score wordCount /\
    (0 <= wordCount <= 50)%Z /\ (- (3 * wordCount) <= score <= 3 * wordCount)%Z.
Proof.
  unfold analyzeSentiment. cbv zeta.
  set (lowerText := toLowerCase host text).
  set (s1 := tallyWords lowerText 3 SENTIMENT_PATTERNS.positive_strong (0, 0)%Z).
  set (s2 := tallyWords lowerText 2 SENTIMENT_PATTERNS.positive_moderate s1).
  set (s3 := tallyWords lowerText 1 SENTIMENT_PATTERNS.positive_mild s2).
  set (s4 := tallyWords lowerText (-3) SENTIMENT_PATTERNS.negative_strong s3).
  set (s5 := tallyWords lowerText (-2) SENTIMENT_PATTERNS.negative_moderate s4).
  set (s6 := tallyWords lowerText (-1) SENTIMENT_PATTERNS.negative_mild s5).
  pose proof (tallyWords_counters lowerText 3 SENTIMENT_PATTERNS.positive_strong (0, 0)%Z) as H1.
  pose proof (tallyWords_counters lowerText 2 SENTIMENT_PATTERNS.positive_moderate s1) as H2.
  pose proof (tallyWords_counters lowerText 1 SENTIMENT_PATTERNS.positive_mild s2) as H3.
  pose proof (tallyWords_counters lowerText (-3) SENTIMENT_PATTERNS.negative_strong s3) as H4.
  pose proof (tallyWords_counters lowerText (-2) SENTIMENT_PATTERNS.negative_moderate s4) as H5.
  pose proof (tallyWords_counters lowerText (-1) SENTIMENT_PATTERNS.negative_mild s5) as H6.
  cbv zeta in H1, H2, H3, H4, H5, H6.
  fold s1 in H1. fold s2 in H2. fold s3 in H3. fold s4 in H4. fold s5 in H5.
  fold s6 in H6.
  count_words SENTIMENT_PATTERNS.positive_strong H1.
  count_words SENTIMENT_PATTERNS.positive_moderate H2.
  count_words SENTIMENT_PATTERNS.positive_mild H3.
  count_words SENTIMENT_PATTERNS.negative_strong H4.
  count_words SENTIMENT_PATTERNS.negative_moderate H5.
  count_words SENTIMENT_PATTERNS.negative_mild H6.
  cbn [fst snd] in H1.
  destruct s6 as [score wordCount]. cbn [fst snd] in H6.
  exists score, wordCount. split; [reflexivity | lia].
Qed.

Lemma sentimentVerdict_agrees :
  forCounters 50 (fun score wordCount => sentimentAgrees (sentimentVerdict score wordCount))
  = true.
Proof. vm_compute. reflexivity. Qed.

(** X9. For every text the score [analyzeSentiment] returns lies between
    -1 and 1, and it agrees with the label: with [positive] the score is
    above 0.5, with [negative] it is below -0.5, and with [neutral] it lies
    between -0.5 and 0.5. *)
Theorem analyzeSentiment_score_and_label (host : Host) (text : jsstring) :
  let r := analyzeSentiment host text in
  num_leb (of_Z (-1)) (snd r) = true /\ num_leb (snd r) (of_Z 1) = true /\
  match fst r with
  | Sentiment.positive => num_gtb (snd r) (dec 5 10) = true
  | Sentiment.negative => num_ltb (snd r) (dec (-5) 10) = true
  | Sentiment.neutral =>
      num_leb (dec (-5) 10) (snd r) = true /\ num_leb (snd r) (dec 5 10) = true
  end.
Proof.
  cbv zeta.
  destruct (analyzeSentiment_counters host text) as (score & wordCount & E & Hw & Hs).
  rewrite E.
  pose proof (forCounters_sound 50 _ score wordCount sentimentVerdict_agrees) as H.
  cbv beta in H. specialize (H ltac:(lia) Hs).
  unfold sentimentAgrees in H.
  apply andb_prop in H. destruct H as [H H3].
  apply andb_prop in H. destruct H as [H1 H2].
  split; [exact H1 |]. split; [exact H2 |].
  destruct (fst (sentimentVerdict score wordCount)); [exact H3 | exact H3 |].
  apply andb_prop in H3. exact H3.
Qed.

Section FirstBest.
Context {A : Type} (f : A -> Z).

Lemma firstBest_snoc (p : list A) (h x : A) :
  firstBest f p h ->
  firstBest f (p ++ [x]) (if (0 <? f x - f h)%Z then x else h).
Proof.
  intros (before & later & -> & Hb & Hl).
  destruct (0 <? f x - f h)%Z eqn:E.
  - apply Z.ltb_lt in E. exists (before ++ h :: later), [].
    split; [reflexivity |]. split; [| constructor].
    apply Forall_app. split.
    + apply Forall_impl with (2 := Hb). intros a Ha. lia.
    + constructor; [lia |]. apply Forall_impl with (2 := Hl). intros a Ha. lia.
  - apply Z.ltb_ge in E. exists before, (later ++ [x]).
    split; [rewrite <- app_assoc; reflexivity |]. split; [exact Hb |].
    apply Forall_app. split; [exact Hl |]. constructor; [lia | constructor].
Qed.

Lemma sort_fold_head (l : list A) : forall p acc,
  (acc = [] /\ p = []) \/ (exists h t, acc = h :: t /\ firstBest f p h) ->
  let r := fold_left
             (fun acc x => insertSorted (fun y x => (0 <? f x - f y)%Z) x acc) l acc in
  (r = [] /\ p ++ l = []) \/ (exists h t, r = h :: t /\ firstBest f (p ++ l) h).
Proof.
  induction l as [| x l IH]; intros p acc H; cbv zeta; simpl fold_left.
  - rewrite app_nil_r. exact H.
  - replace (p ++ x :: l) with ((p ++ [x]) ++ l) by (rewrite <- app_assoc; reflexivity).
    apply IH. right. destruct H as [[-> ->] | (h & t & -> & Hh)].
    + exists x, []. split; [reflexivity |].
      exists [], []. repeat split; constructor.
    + simpl insertSorted. pose proof (firstBest_snoc p h x Hh) as Hs.
      destruct (0 <? f x - f h)%Z; eexists; eexists; (split; [reflexivity | exact Hs]).
Qed.

Lemma jsSort_head (l : list A) :
  match jsSort (fun y x => (0 <? f x - f y)%Z) l with
  | [] => l = []
  | h :: _ => firstBest f l h
  end.
Proof.
  pose proof (sort_fold_head l [] [] (or_introl (conj eq_refl eq_refl))) as H.
  cbv zeta in H. simpl app in H. unfold jsSort.
  destruct H as [[-> H] | (h & t & -> & H)]; assumption.
Qed.

Lemma firstBest_bound (l : list A) (h : A) :
  firstBest f l h -> Forall (fun a => (f a <= f h)%Z) l.
Proof.
  intros (before & later & -> & Hb & Hl). apply Forall_app. split.
  - apply Forall_impl with (2 := Hb). intros a Ha. lia.
  - constructor; [lia | exact Hl].
Qed.

End FirstBest.

Lemma firstBest_map (A B : Type) (g : A -> B) (f : B -> Z) (l : list A) (h : B) :
  firstBest f (map g l) h ->
  exists top, h = g top /\ firstBest (fun a => f (g a)) l top.
Proof.
  intros (before & later & E & Hb & Hl).
  apply map_eq_app in E. destruct E as (b & r & -> & <- & E).
  apply map_eq_cons in E. destruct E as (top & l' & -> & <- & <-).
  exists top. split; [reflexivity |]. exists b, l'.
  split; [reflexivity |]. split.
  - rewrite Forall_forall in Hb |- *. intros a Ha. apply Hb, in_map, Ha.
  - rewrite Forall_forall in Hl |- *. intros a Ha. apply Hl, in_map, Ha.
Qed.

Lemma addWeights_bounds (lowerText : jsstring) (weight : Z) (words : list jsstring) :
  (0 <= weight)%Z -> forall score,
  (score <= addWeights lowerText weight words score
         <= score + weight * Z.of_nat (List.length words))%Z.
Proof.
  intros Hw. unfold addWeights.
  induction words as [| w words IH]; intros score; simpl fold_left.
  - simpl. lia.
  - simpl List.length. destruct (includes lowerText w).
    + specialize (IH (score + weight)%Z). nia.
    + specialize (IH score). nia.
Qed.

Lemma categoryScore_bounds (lowerText : jsstring) (keywords : CategoryKeywords) :
  (0 <= categoryScore lowerText keywords
     <= 3 * Z.of_nat (List.length (primary keywords)) +
        2 * Z.of_nat (List.length (secondary keywords)) +
        Z.of_nat (List.length (negativeContext keywords)))%Z.
Proof.
  unfold categoryScore.
  pose proof (addWeights_bounds lowerText 3 (primary keywords) ltac:(lia) 0%Z) as H1.
  set (s1 := addWeights lowerText 3 (primary keywords) 0) in *.
  pose proof (addWeights_bounds lowerText 2 (secondary keywords) ltac:(lia) s1) as H2.
  set (s2 := addWeights lowerText 2 (secondary keywords) s1) in *.
  pose proof (addWeights_bounds lowerText 1 (negativeContext keywords) ltac:(lia) s2) as H3.
  lia.
Qed.

Lemma fold_add_from (l : list Z) : forall a,
  fold_left Z.add l a = (a + fold_left Z.add l 0)%Z.
Proof.
  induction l as [| x l IH]; intros a; simpl; [lia |].
  rewrite IH, (IH x). lia.
Qed.

Ltac score_bounds lowerText B :=
  simpl map; simpl fold_left; cbn [snd];
  repeat match goal with
  | |- context [categoryScore lowerText ?k] =>
      let s := fresh "s" in let Bk := fresh "Bk" in
      pose proof (B k) as Bk;
      cbn [primary secondary negativeContext] in Bk;
      repeat match type of Bk with
             | context [List.length ?l] =>
                 let n := eval vm_compute in (List.length l) in
                 change (List.length l) with n in Bk
             end;
      set (s := categoryScore lowerText k) in *
  end;
  lia.

Lemma total_bounds (host : Host) (text : jsstring) (top : jsstring * CategoryKeywords) :
  In top CATEGORY_KEYWORDS ->
  (scoreOf host text top <= totalScoreOf host text <= 246)%Z.
Proof.
  unfold totalScoreOf, scoreOf. set (lowerText := toLowerCase host text).
  intros H. cbv [CATEGORY_KEYWORDS] in H |- *.
  assert (B : forall k,
            (0 <= categoryScore lowerText k
               <= 3 * Z.of_nat (List.length (primary k)) +
                  2 * Z.of_nat (List.length (secondary k)) +
                  Z.of_nat (List.length (negativeContext k)))%Z)
    by (intros k; apply categoryScore_bounds).
  simpl In in H.
  repeat (destruct H as [<- | H]; [score_bounds lowerText B |]).
  contradiction.
Qed.

Lemma filter_head_positive (A : Type) (f : A -> Z) (h : A) (t : list A) :
  Forall (fun a => (f a <= f h)%Z) (h :: t) ->
  filter (fun a => (0 <? f a)%Z) (h :: t) =
  if (0 <? f h)%Z then h :: filter (fun a => (0 <? f a)%Z) t else [].
Proof.
  intros H. simpl. destruct (0 <? f h)%Z eqn:E; [reflexivity |].
  apply Z.ltb_ge in E. inversion H as [| ? ? _ Ht]; subst.
  induction Ht as [| a t Ha Ht IH]; simpl; [reflexivity |].
  assert (F : (0 <? f a)%Z = false) by (apply Z.ltb_ge; lia).
  rewrite F. apply IH. constructor; [lia | exact Ht].
Qed.

Lemma categorizeComment_shape (host : Host) (text : jsstring) :
  exists top,
    firstBest (scoreOf host text) CATEGORY_KEYWORDS top /\
    categorizeComment host text =
      if (0 <? scoreOf host text top)%Z
      then (fst top,
            if (0 <? totalScoreOf host text)%Z
            then num_div (of_Z (scoreOf host text top)) (of_Z (totalScoreOf host text))
            else zero)
      else (lit "general", dec 1 10).
Proof.
  unfold categorizeComment. cbv zeta.
  set (g := fun p : jsstring * CategoryKeywords =>
              (fst p, categoryScore (toLowerCase host text) (snd p))).
  pose proof (jsSort_head (@snd jsstring Z) (map g CATEGORY_KEYWORDS)) as H.
  change (fun y x : jsstring * Z => (0 <? snd x - snd y)%Z) with scoreAfter in H.
  pose proof (jsSort_perm scoreAfter (map g CATEGORY_KEYWORDS)) as P.
  destruct (jsSort scoreAfter (map g CATEGORY_KEYWORDS)) as [| h t] eqn:E.
  - discriminate H.
  - pose proof (firstBest_bound _ _ _ H) as B.
    assert (B' : Forall (fun a : jsstring * Z => (snd a <= snd h)%Z) (h :: t)).
    { apply Forall_forall. intros a Ha. rewrite Forall_forall in B. apply B.
      apply (Permutation_in a (Permutation_sym P)). exact Ha. }
    rewrite (filter_head_positive _ (@snd jsstring Z) h t B').
    apply firstBest_map in H. destruct H as (top & -> & H).
    change (fun a => snd (g a)) with (scoreOf host text) in H.
    change (snd (g top)) with (scoreOf host text top) in *.
    exists top. split; [exact H |].
    destruct (0 <? scoreOf host text top)%Z; [| reflexivity].
    rewrite map_map. change (fun x => snd (g x)) with (scoreOf host text).
    reflexivity.
Qed.

Lemma firstBest_In (A : Type) (f : A -> Z) (l : list A) (h : A) :
  firstBest f l h -> In h l.
Proof. intros (b & r & -> & _). apply in_or_app. right. left. reflexivity. Qed.

(** X10. [categorizeComment] answers [general] with confidence 0.1 when
    no category scores, and otherwise the first category of the table, in
    table order, whose score is the greatest: that score is positive, every
    earlier category scores strictly less, every later one scores no more,
    and the confidence is that score divided by the sum of all scores. *)
Theorem categorizeComment_first_best (host : Host) (text : jsstring) :
  (Forall (fun p => scoreOf host text p = 0%Z) CATEGORY_KEYWORDS /\
   categorizeComment host text = (lit "general", dec 1 10)) \/
  (exists top,
     firstBest (scoreOf host text) CATEGORY_KEYWORDS top /\
     (0 < scoreOf host text top)%Z /\
     categorizeComment host text =
       (fst top, num_div (of_Z (scoreOf host text top)) (of_Z (totalScoreOf host text)))).
Proof.
  destruct (categorizeComment_shape host text) as (top & H & E).
  destruct (0 <? scoreOf host text top)%Z eqn:Z0.
  - right. exists top. apply Z.ltb_lt in Z0.
    split; [exact H |]. split; [exact Z0 |].
    pose proof (total_bounds host text top (firstBest_In _ _ _ _ H)) as T.
    assert (Z1 : (0 <? totalScoreOf host text)%Z = true) by (apply Z.ltb_lt; lia).
    rewrite Z1 in E. exact E.
  - left. split; [| exact E].
    apply Z.ltb_ge in Z0. apply firstBest_bound in H.
    apply Forall_forall. intros p Hp. rewrite Forall_forall in H.
    specialize (H p Hp). cbv beta in H.
    pose proof (categoryScore_bounds (toLowerCase host text) (snd p)) as Q.
    unfold scoreOf in *. lia.
Qed.

Lemma forRatios_sound (bound : nat) (check : Z -> Z -> bool) (top total : Z) :
  forRatios bound check = true ->
  (1 <= top <= total)%Z -> (total <= Z.of_nat bound)%Z ->
  check top total = true.
Proof.
  unfold forRatios. intros H Ht Hb.
  rewrite forallb_forall in H. specialize (H (Z.to_nat total)).
  rewrite forallb_forall in H.
  assert (I1 : In (Z.to_nat total) (seq 1 bound)) by (apply in_seq; lia).
  assert (I2 : In (Z.to_nat top) (seq 1 (Z.to_nat total))) by (apply in_seq; lia).
  specialize (H I1 _ I2).
  rewrite !Z2Nat.id in H by lia. exact H.
Qed.

Lemma ratio_in_unit_range :
  forRatios 246
    (fun top total =>
       num_gtb (num_div (of_Z top) (of_Z total)) zero &&
       num_leb (num_div (of_Z top) (of_Z total)) (of_Z 1)) = true.
Proof. vm_compute. reflexivity. Qed.

(** X11. For every text the confidence [categorizeComment] returns is
    greater than 0 and at most 1. *)
Theorem categorizeComment_confidence (host : Host) (text : jsstring) :
  let r := categorizeComment host text in
  num_gtb (snd r) zero = true /\ num_leb (snd r) (of_Z 1) = true.
Proof.
  cbv zeta.
  destruct (categorizeComment_shape host text) as (top & H & ->).
  destruct (0 <? scoreOf host text top)%Z eqn:Z0.
  - apply Z.ltb_lt in Z0.
    pose proof (total_bounds host text top (firstBest_In _ _ _ _ H)) as T.
    assert (Z1 : (0 <? totalScoreOf host text)%Z = true) by (apply Z.ltb_lt; lia).
    rewrite Z1. cbn [snd].
    pose proof (forRatios_sound 246 _ (scoreOf host text top) (totalScoreOf host text)
                  ratio_in_unit_range ltac:(lia) ltac:(lia)) as R.
    cbv beta in R. apply andb_prop in R. exact R.
  - split; vm_compute; reflexivity.
Qed.

Lemma dedupe_In (l : list jsstring) : forall seen x,
  In x (dedupe seen l) <-> In x l /\ ~ In x seen.
Proof.
  induction l as [| y l IH]; intros seen x; simpl.
  - tauto.
  - destruct (mem_str y seen) eqn:E.
    + apply mem_str_In in E. rewrite IH. split.
      * tauto.
      * intros [[<- | H] N]; [contradiction | tauto].
    + assert (N : ~ In y seen) by (rewrite <- mem_str_In; congruence).
      simpl. rewrite IH. simpl. split.
      * intros [<- | (H & K)]; [tauto |]. tauto.
      * intros [[<- | H] K]; [tauto |].
        destruct (list_eq_dec N.eq_dec y x) as [<- | D]; [tauto |]. right. tauto.
Qed.

Lemma dedupe_NoDup (l : list jsstring) : forall seen, NoDup (dedupe seen l).
Proof.
  induction l as [| y l IH]; intros seen; simpl; [constructor |].
  destruct (mem_str y seen); [apply IH |].
  constructor; [| apply IH]. rewrite dedupe_In. simpl. tauto.
Qed.

Lemma uniq_In (l : list jsstring) (x : jsstring) : In x (uniq l) <-> In x l.
Proof. unfold uniq. rewrite dedupe_In. simpl. tauto. Qed.

Lemma flagPatterns_reasons (lowerText : jsstring) (weight : number)
  (reason : jsstring) (patterns : list jsstring) : forall st tag,
  In tag (snd (flagPatterns lowerText weight reason patterns st)) <->
  In tag (snd st) \/ (tag = reason /\ existsb (includes lowerText) patterns = true).
Proof.
  unfold flagPatterns.
  induction patterns as [| p patterns IH]; intros st tag; simpl fold_left.
  - simpl. split; [tauto | intros [H | [_ H]]; [exact H | discriminate]].
  - rewrite IH. simpl existsb. destruct (includes lowerText p); simpl.
    + rewrite in_app_iff. simpl. split.
      * intros [[H | [<- | []]] | [-> H]]; auto.
      * intros [H | [-> _]]; [tauto |]. left. right. left. reflexivity.
    + tauto.
Qed.

Lemma flagIf_reasons (cond : bool) (weight : number) (reason : jsstring)
  (st : number * list jsstring) (tag : jsstring) :
  In tag (snd (flagIf cond weight reason st)) <->
  In tag (snd st) \/ (tag = reason /\ cond = true).
Proof.
  unfold flagIf. destruct cond; simpl.
  - rewrite in_app_iff. simpl. split.
    + intros [H | [<- | []]]; auto.
    + intros [H | [-> _]]; auto.
  - split; [tauto | intros [H | [_ H]]; [exact H | discriminate]].
Qed.

Lemma flagPatterns_unflagged (lowerText : jsstring) (weight : number)
  (reason : jsstring) (patterns : list jsstring) : forall st,
  snd (flagPatterns lowerText weight reason patterns st) = [] ->
  flagPatterns lowerText weight reason patterns st = st.
Proof.
  unfold flagPatterns.
  induction patterns as [| p patterns IH]; intros st H; simpl fold_left in *.
  - reflexivity.
  - destruct (includes lowerText p).
    + exfalso.
      assert (I : In reason
                    (snd (flagPatterns lowerText weight reason patterns
                            (num_add (fst st) weight, snd st ++ [reason])))).
      { apply flagPatterns_reasons. left. simpl. apply in_or_app. right.
        left. reflexivity. }
      unfold flagPatterns in I. rewrite H in I. exact I.
    + apply IH. exact H.
Qed.

Lemma flagIf_unflagged (cond : bool) (weight : number) (reason : jsstring)
  (st : number * list jsstring) :
  snd (flagIf cond weight reason st) = [] -> flagIf cond weight reason st = st.
Proof.
  unfold flagIf. destruct cond; [| reflexivity].
  simpl. intros H. apply app_eq_nil in H. destruct H as [_ H]. discriminate H.
Qed.

Lemma spamTally_unflagged (host : Host) (text : jsstring) :
  snd (spamTally host text) = [] -> spamTally host text = (zero, []).
Proof.
  unfold spamTally. cbv zeta. intros H.
  repeat match goal with
  | H : snd (flagIf ?c ?w ?r ?st) = [] |- _ =>
      let E := fresh "E" in
      pose proof (flagIf_unflagged c w r st H) as E; rewrite E in H |- *; clear E
  | H : snd (flagPatterns ?t ?w ?r ?p ?st) = [] |- _ =>
      let E := fresh "E" in
      pose proof (flagPatterns_unflagged t w r p st H) as E; rewrite E in H |- *;
      clear E
  end.
  reflexivity.
Qed.

(** X12. The reasons [detectSpam] returns hold no duplicate, and a reason
    is among them exactly when its condition holds: a pattern of its list
    occurs in the lower-cased text (promotional, monetary, repetitive,
    suspicious), the text has fewer than 10 code units, more than 5 emojis,
    a share of capitals above 0.7 together with a length above 10, or a
    URL. When no reason is returned the score is 0 and the comment is not
    spam. *)
Theorem detectSpam_reasons (host : Host) (text : jsstring)
  (metadata : number * jsstring) :
  let r := detectSpam host text metadata in
  NoDup (reasons r) /\
  (forall tag, In tag (reasons r) <-> In (tag, true) (spamConditions host text)) /\
  (reasons r = [] -> score r = zero /\ isSpam r = false).
Proof.
  cbv zeta. unfold detectSpam.
  pose proof (spamTally_unflagged host text) as U.
  assert (R : forall tag, In tag (snd (spamTally host text)) <->
                          In (tag, true) (spamConditions host text)).
  { intros tag. unfold spamTally. cbv zeta.
    rewrite !flagIf_reasons, !flagPatterns_reasons. unfold spamConditions.
    cbv zeta. cbn [snd].
    generalize (existsb (includes (toLowerCase host text)) SPAM_PATTERNS.promotional).
    generalize (existsb (includes (toLowerCase host text)) SPAM_PATTERNS.monetary).
    generalize (existsb (includes (toLowerCase host text)) SPAM_PATTERNS.repetitive).
    generalize (existsb (includes (toLowerCase host text)) SPAM_PATTERNS.suspicious).
    generalize (Nat.ltb (List.length text) 10).
    generalize (Nat.ltb 5 (emojiCount text)).
    generalize (num_gtb (num_div (of_nat (capsCount text)) (of_nat (List.length text)))
                  (dec 7 10) && Nat.ltb 10 (List.length text)).
    generalize (hasUrl text).
    intros c8 c7 c6 c5 c4 c3 c2 c1. simpl In. split.
    - intros H.
      repeat (destruct H as [H | [-> ->]]; [| tauto]).
      contradiction.
    - intros H.
      repeat (destruct H as [H | H]; [inversion H; subst; tauto |]).
      contradiction. }
  destruct (spamTally host text) as [spamScore rs]. cbn [snd] in U, R.
  cbn [reasons score isSpam].
  split; [apply dedupe_NoDup |].
  split; [intros tag; rewrite uniq_In; apply R |].
  intros E.
  assert (N : rs = []).
  { destruct rs as [| x rs]; [reflexivity |].
    assert (I : In x (uniq (x :: rs))) by (apply uniq_In; left; reflexivity).
    rewrite E in I. contradiction. }
  specialize (U N). inversion U; subst. split; reflexivity.
Qed.

Lemma qualityTally_reachable (host : Host) (text : jsstring) (likeCount : number) :
  In (fst (qualityTally host text likeCount)) qualityScores.
Proof.
  unfold qualityTally, qualityScores.
  do 2 apply flagIf_in.
  apply (flagPatterns_in _ _ _ QUALITY_INDICATORS.positive).
  do 4 apply flagIf_in.
  left. reflexivity.
Qed.

Lemma flagIf_forced (w : number) (reason : jsstring)
  (st : number * list jsstring) (S : list number) :
  In (fst st) S ->
  In (fst (flagIf true w reason st)) (map (fun x => num_add x w) S).
Proof. intros H. unfold flagIf. cbn [fst]. apply in_map with (f := fun x => num_add x w). exact H. Qed.

Lemma gt_five_gt_zero (x : number) :
  num_gtb x (of_Z 5) = true -> num_gtb x zero = true.
Proof.
  unfold num_gtb. intros H. apply ltb_iff in H. apply ltb_iff.
  destruct H as (_ & N & L).
  split; [reflexivity |]. split; [exact N |].
  revert L. set (k := key x).
  let v := eval vm_compute in (key (of_Z 5)) in change (key (of_Z 5)) with v.
  change (key zero) with (0, 0, 0)%Z. unfold lex_lt. cbn [fst snd]. lia.
Qed.

Lemma qualityTally_liked (host : Host) (text : jsstring) (likeCount : number) :
  num_gtb likeCount (of_Z 5) = true ->
  In (fst (qualityTally host text likeCount)) likedScores.
Proof.
  intros H. unfold qualityTally, likedScores.
  rewrite H, (gt_five_gt_zero _ H).
  do 2 apply flagIf_in.
  apply (flagPatterns_in _ _ _ QUALITY_INDICATORS.positive).
  do 2 apply flagIf_forced.
  do 2 apply flagIf_in.
  left. reflexivity.
Qed.

Lemma qualityScores_ok : forallb qualityVerdictOk qualityScores = true.
Proof. vm_compute. reflexivity. Qed.

Lemma likedScores_ok :
  forallb (fun q => num_gtb q (dec 4 10)) likedScores = true.
Proof. vm_compute. reflexivity. Qed.

Lemma qualityTally_factors (host : Host) (text : jsstring) (likeCount : number)
  (tag : jsstring) :
  In tag (snd (qualityTally host text likeCount)) <->
  In (tag, true) (qualityConditions host text likeCount).
Proof.
  unfold qualityTally. cbv zeta.
  rewrite !flagIf_reasons, !flagPatterns_reasons, !flagIf_reasons.
  unfold qualityConditions. cbn [snd].
  generalize (Nat.ltb 50 (List.length text)).
  generalize (Nat.ltb 100 (List.length text)).
  generalize (num_gtb likeCount zero).
  generalize (num_gtb likeCount (of_Z 5)).
  generalize (existsb (includes (toLowerCase host text)) QUALITY_INDICATORS.positive).
  generalize (Nat.ltb 1 (List.length (sentencesOf text))).
  generalize (startsUpper host text).
  intros c7 c6 c5 c4 c3 c2 c1. simpl In. split.
  - intros H.
    repeat (destruct H as [H | [-> ->]]; [| tauto]).
    contradiction.
  - intros H.
    repeat (destruct H as [H | H]; [inversion H; subst; tauto |]).
    contradiction.
Qed.

(** X13. For every text and metadata the score [assessQuality] returns
    lies between 0 and 1, and [isQuality] holds exactly when that score is
    greater than 0.4. *)
Theorem assessQuality_score_range (host : Host) (text : jsstring)
  (metadata : number * jsstring) :
  let r := assessQuality host text metadata in
  num_leb zero (QualityResult.score r) = true /\
  num_leb (QualityResult.score r) (of_Z 1) = true /\
  QualityResult.isQuality r = num_gtb (QualityResult.score r) (dec 4 10).
Proof.
  pose proof (qualityTally_reachable host text (fst metadata)) as Hin.
  pose proof qualityScores_ok as Hall.
  rewrite forallb_forall in Hall. specialize (Hall _ Hin). clear Hin.
  unfold assessQuality.
  destruct (qualityTally host text (fst metadata)) as [qualityScore factors].
  cbv [fst] in Hall. cbv zeta. cbv [QualityResult.score QualityResult.isQuality].
  unfold qualityVerdictOk in Hall. cbv zeta in Hall.
  apply andb_true_iff in Hall. destruct Hall as [Hall H3].
  apply andb_true_iff in Hall. destruct Hall as [H1 H2].
  apply eqb_prop in H3.
  repeat split; assumption.
Qed.

(** X14. The factors [assessQuality] returns hold no duplicate, and a
    factor is among them exactly when its condition holds: a length above
    50, a length above 100, a like count above 0, a like count above 5, a
    quality indicator in the lower-cased text, more than one sentence, or a
    first character that is its own upper case. *)
Theorem assessQuality_factors (host : Host) (text : jsstring)
  (metadata : number * jsstring) :
  let r := assessQuality host text metadata in
  NoDup (QualityResult.factors r) /\
  forall tag,
    In tag (QualityResult.factors r) <->
    In (tag, true) (qualityConditions host text (fst metadata)).
Proof.
  cbv zeta. unfold assessQuality.
  pose proof (qualityTally_factors host text (fst metadata)) as R.
  destruct (qualityTally host text (fst metadata)) as [qualityScore factors].
  cbn [snd] in R. cbn [QualityResult.factors].
  split; [apply dedupe_NoDup |].
  intros tag. rewrite uniq_In. apply R.
Qed.

(** X15. A comment with more than 5 likes is of quality, whatever its
    text. *)
Theorem assessQuality_liked (host : Host) (text : jsstring)
  (metadata : number * jsstring) :
  num_gtb (fst metadata) (of_Z 5) = true ->
  QualityResult.isQuality (assessQuality host text metadata) = true.
Proof.
  intros H.
  pose proof (qualityTally_liked host text (fst metadata) H) as Hin.
  pose proof likedScores_ok as Hall.
  rewrite forallb_forall in Hall. specialize (Hall _ Hin). clear Hin.
  unfold assessQuality.
  destruct (qualityTally host text (fst metadata)) as [qualityScore factors].
  exact Hall.
Qed.

Lemma assessQuality_liked_witness :
  num_gtb (fst (of_Z 6, lit "2024-01-01")) (of_Z 5) = true /\
  QualityResult.isQuality
    (assessQuality refHost (lit "ok") (of_Z 6, lit "2024-01-01")) = true.
Proof.
  split; [vm_compute; reflexivity |].
  apply (assessQuality_liked refHost (lit "ok") (of_Z 6, lit "2024-01-01")).
  vm_compute. reflexivity.
Defined.

Lemma some_eq (A : Type) (x y : A) : Some x = Some y -> y = x.
Proof. intros H. injection H as ->. reflexivity. Qed.

Lemma bump_keys (o : jsobj tally) (k x : jsstring) :
  In x (map fst (bump o k)) -> In x (map fst o) \/ x = k.
Proof.
  unfold bump.
  assert (S : forall v, In x (map fst (obj_set o k v)) -> In x (map fst o) \/ x = k).
  { intros v H. rewrite obj_set_keys in H. destruct (obj_get o k); [tauto |].
    apply in_app_or in H. destruct H as [H | [<- | []]]; tauto. }
  destruct (obj_get o k) as [[n |] |].
  - apply S.
  - tauto.
  - destruct (str_eqb k (lit "__proto__")); [tauto |].
    destruct (isInherited k); apply S.
Qed.

Lemma bump_fold_keys (words : list jsstring) : forall (o : jsobj tally) x,
  In x (map fst (fold_left bump words o)) -> In x (map fst o) \/ In x words.
Proof.
  induction words as [| w words IH]; intros o x H; simpl in *; [tauto |].
  apply IH in H. destruct H as [H | H]; [| tauto].
  apply bump_keys in H. destruct H as [H | <-]; tauto.
Qed.

(** X16. When [extractKeywords] returns, it returns at most 8 keywords,
    and each of them is either a primary or secondary keyword of the
    category that occurs in the lower-cased text, or a word of the text
    longer than three characters that is not a stop word. *)
Theorem extractKeywords_provenance (host : Host) (text category : jsstring)
  (keywords : list jsstring) :
  extractKeywords host text category = Some keywords ->
  List.length keywords <= 8 /\
  Forall (fun k => relevantKeyword host text category k \/ contentWord host text k)
    keywords.
Proof.
  unfold extractKeywords. cbv zeta. fold (textWords host text).
  set (words := filter (fun word => Nat.ltb 3 (List.length word) &&
                                    negb (mem_str word stopWords))
                  (textWords host text)).
  set (frequentWords :=
         map fst (firstn 5 (jsSort tallyAfter
                              (filter isFrequent (entries (fold_left bump words [])))))).
  intros H.
  assert (F : forall k, In k frequentWords -> contentWord host text k).
  { intros k Hk. unfold frequentWords in Hk.
    apply in_map_iff in Hk. destruct Hk as ([k' v] & <- & Hk). cbn [fst].
    apply firstn_In in Hk.
    apply (Permutation_in _ (Permutation_sym (jsSort_perm tallyAfter _))) in Hk.
    apply filter_In in Hk. destruct Hk as [Hk _].
    apply (Permutation_in _ (entries_perm _)) in Hk.
    apply (in_map fst) in Hk. cbn [fst] in Hk.
    apply bump_fold_keys in Hk. destruct Hk as [[] | Hk].
    unfold words in Hk. apply filter_In in Hk. destruct Hk as [Hk Hc].
    apply andb_prop in Hc. destruct Hc as [H1 H2].
    apply Nat.ltb_lt in H1. apply negb_true_iff in H2.
    split; [exact Hk |]. split; assumption. }
  destruct (obj_get CATEGORY_KEYWORDS category) as [categoryKeywords |] eqn:E.
  - apply some_eq in H. subst keywords. split; [apply firstn_le_length |].
    apply Forall_forall. intros k Hk. apply firstn_In in Hk.
    apply in_app_or in Hk. destruct Hk as [Hk | Hk]; [left | right; apply F, Hk].
    rewrite uniq_In in Hk. apply filter_In in Hk. destruct Hk as [Hk Hi].
    exists categoryKeywords. split; [exact E |]. split; assumption.
  - destruct (isInherited category); [discriminate H |].
    apply some_eq in H. subst keywords. split; [apply firstn_le_length |].
    apply Forall_forall. intros k Hk. apply firstn_In in Hk.
    simpl app in Hk. right. apply F, Hk.
Qed.

Lemma extractKeywords_provenance_witness :
  extractKeywords refHost (lit "This serum gives amazing hydration, amazing glow")
    (lit "skincare") =
    Some [lit "serum"; lit "hydration"; lit "glow"; lit "amazing"; lit "hydration"] /\
  List.length [lit "serum"; lit "hydration"; lit "glow"; lit "amazing"; lit "hydration"]
    <= 8 /\
  Forall (fun k =>
            relevantKeyword refHost
              (lit "This serum gives amazing hydration, amazing glow")
              (lit "skincare") k \/
            contentWord refHost
              (lit "This serum gives amazing hydration, amazing glow") k)
    [lit "serum"; lit "hydration"; lit "glow"; lit "amazing"; lit "hydration"].
Proof.
  split; [vm_compute; reflexivity |].
  apply (extractKeywords_provenance refHost
           (lit "This serum gives amazing hydration, amazing glow") (lit "skincare")).
  vm_compute. reflexivity.
Defined.

Lemma analyzeComment_returns (host : Host) (comment : CommentData.t) :
  exists a, analyzeComment host comment = Some a.
Proof.
  unfold analyzeComment. cbv zeta.
  destruct (extractKeywords_returns host (or_str (CommentData.textOriginal comment) [])
              _ (categorizeComment_known host
                   (or_str (CommentData.textOriginal comment) []))) as [k Ek].
  rewrite Ek. eexists. reflexivity.
Qed.

(** X17. [analyzeComment] returns for every comment (it never raises the
    exception [extractKeywords] can raise): the record keeps the comment's
    identifier and text, its category is [general] or a category of the
    table, its keywords are those [extractKeywords] gives for that text and
    category, its like count is not [NaN], it carries no video context, and
    a comment of [high] engagement is of quality. *)
Theorem analyzeComment_never_throws (host : Host) (comment : CommentData.t) :
  exists a,
    analyzeComment host comment = Some a /\
    AnalyzedComment.commentId a = CommentData.commentId comment /\
    AnalyzedComment.textOriginal a = CommentData.textOriginal comment /\
    In (AnalyzedComment.category a) knownCategories /\
    extractKeywords host (AnalyzedComment.textOriginal a) (AnalyzedComment.category a) =
      Some (AnalyzedComment.keywords a) /\
    notNaN (AnalyzedComment.likeCount a) /\
    (AnalyzedComment.engagement a = high ->
     AnalyzedComment.isQuality a = true) /\
    videoContext a None.
Proof.
  destruct (analyzeComment_returns host comment) as [a E]. exists a.
  split; [exact E |]. revert E. unfold analyzeComment. cbv zeta.
  rewrite or_str_nil.
  destruct (extractKeywords host (CommentData.textOriginal comment) _) as [k |] eqn:Ek;
    [| discriminate].
  intros E. apply some_eq in E. subst a.
  cbn [AnalyzedComment.commentId AnalyzedComment.textOriginal AnalyzedComment.category
       AnalyzedComment.keywords AnalyzedComment.likeCount AnalyzedComment.engagement
       AnalyzedComment.isQuality].
  split; [reflexivity |]. split; [reflexivity |].
  split; [apply categorizeComment_known |].
  split; [exact Ek |].
  split; [apply or_num_notNaN |].
  split; [| repeat split].
  unfold engagementOf.
  destruct (num_gtb (or_num (CommentData.likeCount comment) zero) (of_Z 10)) eqn:G;
    [| destruct (num_gtb _ (of_Z 2)); discriminate].
  intros _.
  assert (G5 : num_gtb (fst (or_num (CommentData.likeCount comment) zero,
                             or_str (CommentData.publishedAt comment) [])) (of_Z 5) = true).
  { cbn [fst]. revert G. unfold num_gtb. rewrite !ltb_iff.
    intros (_ & N & L). split; [reflexivity |]. split; [exact N |].
    revert L. set (kx := key (or_num (CommentData.likeCount comment) zero)).
    let v := eval vm_compute in (key (of_Z 10)) in change (key (of_Z 10)) with v.
    let v := eval vm_compute in (key (of_Z 5)) in change (key (of_Z 5)) with v.
    unfold lex_lt. cbn [fst snd]. lia. }
  pose proof (qualityTally_liked host (CommentData.textOriginal comment) _ G5) as Hin.
  pose proof likedScores_ok as Hall.
  rewrite forallb_forall in Hall. specialize (Hall _ Hin). clear Hin.
  unfold assessQuality. cbn [fst] in Hall |- *.
  destruct (qualityTally host (CommentData.textOriginal comment)
              (or_num (CommentData.likeCount comment) zero)) as [q f].
  exact Hall.
Qed.

Lemma analyzeComment_no_context (host : Host) (comment : CommentData.t) :
  exists a, analyzeComment host comment = Some a /\ videoContext a None.
Proof.
  destruct (analyzeComment_returns host comment) as [a E]. exists a.
  split; [exact E |]. revert E. unfold analyzeComment. cbv zeta.
  destruct (extractKeywords host _ _); [| discriminate].
  intros E. apply some_eq in E. subst a. repeat split.
Qed.

Lemma find_last (A : Type) (p : A -> bool) (l : list A) (x : A) :
  find p (l ++ [x]) =
  match find p l with
  | Some y => Some y
  | None => if p x then Some x else None
  end.
Proof.
  induction l as [| y l IH]; simpl; [reflexivity |].
  destruct (p y); [reflexivity | exact IH].
Qed.

Lemma videoMap_fold_get (videos : list VideoData.t) : forall (m : jsobj VideoData.t) id,
  obj_get (fold_left (fun m video => obj_set m (VideoData.videoId video) video) videos m)
    id =
  match lastVideo id videos with
  | Some v => Some v
  | None => obj_get m id
  end.
Proof.
  unfold lastVideo.
  induction videos as [| v videos IH]; intros m id; simpl fold_left; [reflexivity |].
  rewrite IH. simpl rev. rewrite find_last.
  destruct (find _ (rev videos)); [reflexivity |].
  rewrite obj_get_set.
  destruct (str_eqb (VideoData.videoId v) id); reflexivity.
Qed.

Lemma videoMapOf_get (videos : list VideoData.t) (id : jsstring) :
  obj_get (videoMapOf videos) id = lastVideo id videos.
Proof.
  unfold videoMapOf. rewrite videoMap_fold_get.
  destruct (lastVideo id videos); reflexivity.
Qed.

Lemma analyzeCommentWithVideo_returns (host : Host) (comment : CommentData.t)
  (video : option VideoData.t) :
  exists a, analyzeCommentWithVideo host comment video = Some a.
Proof.
  unfold analyzeCommentWithVideo.
  destruct (analyzeComment_returns host comment) as [a ->].
  destruct video; eexists; reflexivity.
Qed.

Lemma analyzeBatch_spec (host : Host) (videoMap : jsobj VideoData.t)
  (batch : list CommentData.t) :
  exists l,
    analyzeBatch host videoMap batch = Some l /\
    Forall2 (fun c a =>
               analyzeCommentWithVideo host c (obj_get videoMap (CommentData.videoId c)) =
               Some a) batch l.
Proof.
  induction batch as [| c batch (l & El & Fl)]; simpl.
  - exists []. split; [reflexivity | constructor].
  - destruct (analyzeCommentWithVideo_returns host c
                (obj_get videoMap (CommentData.videoId c))) as [a Ea].
    rewrite Ea, El. exists (a :: l). split; [reflexivity |].
    constructor; assumption.
Qed.

Lemma analyzeBatch_app (host : Host) (videoMap : jsobj VideoData.t)
  (b1 b2 : list CommentData.t) (l1 l2 : list AnalyzedComment.t) :
  analyzeBatch host videoMap b1 = Some l1 ->
  analyzeBatch host videoMap b2 = Some l2 ->
  analyzeBatch host videoMap (b1 ++ b2) = Some (l1 ++ l2).
Proof.
  revert l1. induction b1 as [| c b1 IH]; intros l1 H1 H2; simpl in *.
  - apply some_eq in H1. subst l1. exact H2.
  - destruct (analyzeCommentWithVideo host c _) as [a |]; [| discriminate].
    destruct (analyzeBatch host videoMap b1) as [l |]; [| discriminate].
    apply some_eq in H1. subst l1. rewrite (IH l eq_refl H2). reflexivity.
Qed.

Lemma analyzeFrom_batches (host : Host) (videoMap : jsobj VideoData.t)
  (comments : list CommentData.t) : forall fuel i done rest,
  List.length comments <= i + fuel ->
  analyzeBatch host videoMap (skipn i comments) = Some rest ->
  analyzeFrom host fuel i videoMap comments done = Some (done ++ rest).
Proof.
  induction fuel as [| fuel IH]; intros i done rest Hf Hr; cbn [analyzeFrom].
  - rewrite skipn_all2 in Hr by lia. apply some_eq in Hr. subst rest.
    rewrite app_nil_r. reflexivity.
  - destruct (Nat.ltb i (List.length comments)) eqn:L.
    + destruct (analyzeBatch_spec host videoMap (firstn batchSize (skipn i comments)))
        as (l1 & E1 & _).
      destruct (analyzeBatch_spec host videoMap (skipn (i + batchSize) comments))
        as (l2 & E2 & _).
      rewrite E1.
      assert (S : skipn i comments =
                  firstn batchSize (skipn i comments) ++ skipn (i + batchSize) comments).
      { rewrite (Nat.add_comm i batchSize), <- skipn_skipn.
        symmetry. apply firstn_skipn. }
      rewrite S in Hr. rewrite (analyzeBatch_app _ _ _ _ _ _ E1 E2) in Hr.
      apply some_eq in Hr. subst rest.
      rewrite (IH (i + batchSize) (done ++ l1) l2); [| unfold batchSize; lia | exact E2].
      rewrite <- app_assoc. reflexivity.
    + apply Nat.ltb_ge in L. rewrite skipn_all2 in Hr by lia.
      apply some_eq in Hr. subst rest. rewrite app_nil_r. reflexivity.
Qed.

(** X18. [handleFileUpload] returns for all comments and videos, and the
    batches of 50 change nothing: there is one analyzed video per video and
    one analyzed comment per comment, in the order of the input, each the
    result of [analyzeCommentWithVideo] on the comment and on the last video
    of the list with the comment's [videoId], whose context it carries;
    with no such video it carries none. *)
Theorem handleFileUpload_joins (host : Host) (comments : list CommentData.t)
  (videos : list VideoData.t) :
  exists analyzedVideos analyzedComments,
    handleFileUpload host comments videos = Some (analyzedVideos, analyzedComments) /\
    analyzeVideos host videos = Some analyzedVideos /\
    List.length analyzedVideos = List.length videos /\
    Forall2 (fun c a =>
               analyzeCommentWithVideo host c
                 (lastVideo (CommentData.videoId c) videos) = Some a /\
               videoContext a (lastVideo (CommentData.videoId c) videos))
      comments analyzedComments.
Proof.
  unfold handleFileUpload. cbv zeta.
  destruct (analyzeVideos_returns host videos) as (avs & Ev & Lv & _).
  destruct (analyzeBatch_spec host (videoMapOf videos) comments) as (acs & Ec & Fc).
  rewrite Ev.
  rewrite (analyzeFrom_batches host (videoMapOf videos) comments
             (List.length comments) 0 [] acs ltac:(lia) Ec).
  exists avs, acs. simpl app.
  split; [reflexivity |]. split; [reflexivity |]. split; [exact Lv |].
  apply Forall2_impl with (2 := Fc).
  intros c a H. rewrite videoMapOf_get in H. split; [exact H |].
  revert H. unfold analyzeCommentWithVideo.
  destruct (analyzeComment_no_context host c) as (a0 & E0 & V0).
  rewrite E0.
  destruct (lastVideo (CommentData.videoId c) videos) as [v |];
    intros H; apply some_eq in H; subst a; [repeat split | exact V0].
Qed.

Lemma parseCSV_returns (host : Host) (csvText : jsstring)
  (expectedColumns : list jsstring) :
  exists rows, parseCSV host csvText expectedColumns = Some rows.
Proof.
  unfold parseCSV. destruct (Nat.ltb _ 2); eexists; reflexivity.
Qed.

Lemma parseComments_returns (host : Host) (csvText : jsstring) :
  exists rows, parseComments host csvText = Some rows.
Proof.
  unfold parseComments.
  destruct (parseCSV_returns host csvText commentColumns) as [rows ->].
  eexists. reflexivity.
Qed.

Lemma parseVideos_returns (host : Host) (csvText : jsstring) :
  exists rows, parseVideos host csvText = Some rows.
Proof.
  unfold parseVideos.
  destruct (parseCSV_returns host csvText videoColumns) as [rows ->].
  eexists. reflexivity.
Qed.

Lemma detectWith_first (host : Host) (headerLine : jsstring) (candidates : list N) :
  let r := detectWith host headerLine candidates in
  match fst r with
  | FileType.unknown =>
      Forall (fun s => detectFileType host (parseCSVLine headerLine s) = FileType.unknown)
        candidates
  | type =>
      exists earlier later,
        candidates = earlier ++ snd r :: later /\
        detectFileType host (parseCSVLine headerLine (snd r)) = type /\
        Forall (fun s => detectFileType host (parseCSVLine headerLine s) = FileType.unknown)
          earlier
  end.
Proof.
  cbv zeta. induction candidates as [| s candidates IH]; simpl detectWith.
  - constructor.
  - destruct (detectFileType host (parseCSVLine headerLine s)) eqn:E; cbn [fst snd].
    + exists [], candidates. repeat split; [exact E | constructor].
    + exists [], candidates. repeat split; [exact E | constructor].
    + destruct (detectWith host headerLine candidates) as [type separator].
      cbn [fst snd] in IH. destruct type.
      * destruct IH as (earlier & later & E1 & H1 & H2).
        exists (s :: earlier), later.
        split; [rewrite E1; reflexivity |]. split; [exact H1 |].
        constructor; assumption.
      * destruct IH as (earlier & later & E1 & H1 & H2).
        exists (s :: earlier), later.
        split; [rewrite E1; reflexivity |]. split; [exact H1 |].
        constructor; assumption.
      * constructor; assumption.
Qed.

(** X19. [processFile] ends in [success] or [error]. With [success] the
    reported separator is the first of comma, semicolon, pipe, tab under
    which the header line is recognised, the type is the one recognised
    there and is not [unknown], and the data are the rows [parseComments] or
    [parseVideos] returns for the text, at least one, with no error
    message. With [error] there are no data and no separator, and the
    message is never the one for a parsing failure: the handler for
    exceptions is not reached. *)
Theorem processFile_outcome (host : Host) (text : jsstring) :
  let f := processFile host text in
  let headerLine := hd [] (splitOn 10 (trim text)) in
  match UploadedFile.status f with
  | UploadStatus.success =>
      exists separator earlier later data,
        UploadedFile.separator f = Some separator /\
        separators = earlier ++ separator :: later /\
        Forall (fun s => detectFileType host (parseCSVLine headerLine s) = FileType.unknown)
          earlier /\
        detectFileType host (parseCSVLine headerLine separator) = UploadedFile.type f /\
        UploadedFile.type f <> FileType.unknown /\
        UploadedFile.data f = Some data /\
        parsedAs host (UploadedFile.type f) text = Some data /\
        0 < rowCount data /\
        UploadedFile.error f = None
  | UploadStatus.error =>
      UploadedFile.data f = None /\ UploadedFile.separator f = None /\
      exists message,
        UploadedFile.error f = Some message /\ message <> lit parseFailure
  | _ => False
  end.
Proof.
  cbv zeta. unfold processFile. cbv zeta.
  assert (M1 : lit "File appears to be empty or has no data rows." <> lit parseFailure)
    by (intros H; apply (f_equal (firstn 2)) in H; vm_compute in H; discriminate H).
  assert (M2 : lit "Unable to detect file type. Expected columns for comments: commentId, textOriginal, authorId, videoId. For videos: videoId, title, description, viewCount, channelId. Tried separators: comma, semicolon, pipe, tab." <> lit parseFailure)
    by (intros H; apply (f_equal (firstn 2)) in H; vm_compute in H; discriminate H).
  assert (M3 : lit "No valid data rows found after parsing." <> lit parseFailure)
    by (intros H; apply (f_equal (firstn 2)) in H; vm_compute in H; discriminate H).
  destruct (Nat.ltb (List.length (splitOn 10 (trim text))) 2).
  - cbn [failed UploadedFile.status UploadedFile.data UploadedFile.separator
         UploadedFile.error].
    repeat split. eexists. split; [reflexivity | exact M1].
  - pose proof (detectWith_first host (hd [] (splitOn 10 (trim text))) separators) as D.
    cbv zeta in D.
    destruct (detectWith host (hd [] (splitOn 10 (trim text))) separators)
      as [detectedType bestSeparator].
    cbn [fst snd] in D.
    destruct detectedType.
    + destruct D as (earlier & later & E & H1 & H2).
      destruct (parseComments_returns host text) as [rows R].
      unfold parsedAs. rewrite R.
      destruct rows as [| row rows].
      * cbn [failed UploadedFile.status UploadedFile.data UploadedFile.separator
             UploadedFile.error].
        repeat split. eexists. split; [reflexivity | exact M3].
      * cbn [accepted UploadedFile.status UploadedFile.data UploadedFile.separator
             UploadedFile.error UploadedFile.type].
        exists bestSeparator, earlier, later, (CommentRows (row :: rows)).
        cbn [option_map rowCount List.length].
        repeat split; try assumption; try discriminate; lia.
    + destruct D as (earlier & later & E & H1 & H2).
      destruct (parseVideos_returns host text) as [rows R].
      unfold parsedAs. rewrite R.
      destruct rows as [| row rows].
      * cbn [failed UploadedFile.status UploadedFile.data UploadedFile.separator
             UploadedFile.error].
        repeat split. eexists. split; [reflexivity | exact M3].
      * cbn [accepted UploadedFile.status UploadedFile.data UploadedFile.separator
             UploadedFile.error UploadedFile.type].
        exists bestSeparator, earlier, later, (VideoRows (row :: rows)).
        cbn [option_map rowCount List.length].
        repeat split; try assumption; try discriminate; lia.
    + cbn [failed UploadedFile.status UploadedFile.data UploadedFile.separator
           UploadedFile.error].
      repeat split. eexists. split; [reflexivity | exact M2].
Qed.

Lemma str_eqb_true (a b : jsstring) : str_eqb a b = true -> a = b.
Proof. apply str_eqb_eq. Qed.

Lemma bump_get (o : jsobj tally) (k k' : jsstring) :
  isInherited k' = false -> countsOnly o k' ->
  countsOnly (bump o k) k' /\
  countOf (bump o k) k' = (if str_eqb k k' then S (countOf o k') else countOf o k') /\
  (obj_get (bump o k) k' = None <-> obj_get o k' = None /\ str_eqb k k' = false).
Proof.
  unfold countsOnly, countOf, bump. intros I C.
  destruct (str_eqb k k') eqn:E.
  - apply str_eqb_true in E. subst k'.
    destruct (obj_get o k) as [[n |] |] eqn:G.
    + rewrite obj_get_set, str_eqb_refl. repeat split; try discriminate.
      intros [H _]. discriminate H.
    + contradiction.
    + assert (P : str_eqb k (lit "__proto__") = false).
      { destruct (str_eqb k (lit "__proto__")) eqn:P; [| reflexivity].
        apply str_eqb_true in P. subst k. vm_compute in I. discriminate I. }
      rewrite P, I, obj_get_set, str_eqb_refl. repeat split; try discriminate.
      intros [_ H]. discriminate H.
  - assert (K : forall v, obj_get (obj_set o k v) k' = obj_get o k')
      by (intros v; rewrite obj_get_set, E; reflexivity).
    destruct (obj_get o k) as [[n |] |] eqn:G.
    + rewrite K. repeat split; tauto.
    + repeat split; tauto.
    + destruct (str_eqb k (lit "__proto__")); [repeat split; tauto |].
      destruct (isInherited k); rewrite K; repeat split; tauto.
Qed.

Lemma bump_fold_get (k' : jsstring) (comments : list AnalyzedComment.t) :
  isInherited k' = false -> forall o,
  countsOnly o k' ->
  let r := fold_left (fun acc c => bump acc (AnalyzedComment.category c)) comments o in
  countsOnly r k' /\
  countOf r k' = countOf o k' + inCategory k' comments /\
  (obj_get r k' = None <-> obj_get o k' = None /\ inCategory k' comments = 0).
Proof.
  intros I. unfold inCategory, countIf.
  induction comments as [| c comments IH]; intros o C; cbv zeta; simpl fold_left.
  - simpl. repeat split; try tauto; lia.
  - destruct (bump_get o (AnalyzedComment.category c) k' I C) as (C1 & N1 & Z1).
    destruct (IH _ C1) as (C2 & N2 & Z2). cbv zeta in C2, N2, Z2.
    split; [exact C2 |]. simpl filter.
    destruct (str_eqb (AnalyzedComment.category c) k'); simpl List.length.
    + split; [lia |]. rewrite Z2, Z1. split; [intros [[_ H] _]; discriminate H |].
      intros [_ H]. discriminate H.
    + split; [lia |]. rewrite Z2, Z1. tauto.
Qed.

(** X20. For a non-empty list of comments and a category name that no
    object inherits, [categoryDistribution] holds under that name the
    number of comments of the category, and no entry when there is
    none. *)
Theorem generateMetrics_category_counts (host : Host)
  (comments : list AnalyzedComment.t) (videos : option (list AnalyzedVideo.t))
  (k : jsstring) :
  comments <> [] -> isInherited k = false ->
  obj_get (AnalysisMetrics.categoryDistribution (fst (generateMetrics host comments videos)))
    k =
  match inCategory k comments with
  | O => None
  | n => Some (Count n)
  end.
Proof.
  intros Hne I. unfold generateMetrics.
  destruct comments as [| c0 comments]; [contradiction |].
  change (Nat.eqb (List.length (c0 :: comments)) 0) with false. cbv iota zeta.
  destruct (videoMetricsOf videos) as [vm va].
  cbn [fst AnalysisMetrics.categoryDistribution].
  assert (C0 : countsOnly [] k) by discriminate.
  destruct (bump_fold_get k (c0 :: comments) I [] C0) as (C & N & Z).
  cbv zeta in C, N, Z.
  change (countOf [] k) with 0 in N. rewrite Nat.add_0_l in N.
  change (obj_get [] k) with (@None tally) in Z.
  set (r := fold_left (fun acc c => bump acc (AnalyzedComment.category c))
              (c0 :: comments) []) in *.
  unfold countsOnly, countOf in *.
  destruct (obj_get r k) as [[n |] |] eqn:G.
  - subst n.
    destruct (inCategory k (c0 :: comments)) eqn:E; [| reflexivity].
    exfalso. destruct Z as [_ Z].
    assert (H : Some (Count 0) = @None tally) by (apply Z; split; reflexivity).
    discriminate H.
  - contradiction.
  - destruct Z as [Z _]. destruct (Z eq_refl) as [_ ->]. reflexivity.
Qed.

Lemma generateMetrics_category_counts_witness :
  let comments := [sampleComment "skincare" "2024-03-01T10:00:00Z";
                   sampleComment "makeup" "2024-03-01T11:00:00Z";
                   sampleComment "skincare" "2024-03-02T10:30:00Z"] in
  comments <> [] /\ isInherited (lit "skincare") = false /\
  obj_get (AnalysisMetrics.categoryDistribution
             (fst (generateMetrics refHost comments None)))
    (lit "skincare") =
  match inCategory (lit "skincare") comments with
  | O => None
  | n => Some (Count n)
  end.
Proof.
  intros comments.
  split; [discriminate |]. split; [vm_compute; reflexivity |].
  apply (generateMetrics_category_counts refHost comments None (lit "skincare")).
  - discriminate.
  - vm_compute. reflexivity.
Defined.

Lemma hour_add_get (o : list (hourKey * (nat * number))) (k k' : hourKey)
  (likes : number) :
  match hour_get (hour_add o k likes) k' with
  | Some v => fst v = (if hourKey_eqb k k' then 1 else 0) +
                      match hour_get o k' with Some w => fst w | None => 0 end
  | None => hourKey_eqb k k' = false /\ hour_get o k' = None
  end.
Proof.
  assert (T : forall a b c, hourKey_eqb a b = true -> hourKey_eqb a c = hourKey_eqb b c).
  { intros [a |] [b |] [c |] H; simpl in *; try discriminate; try reflexivity.
    apply Nat.eqb_eq in H. subst. reflexivity. }
  assert (R : forall a, hourKey_eqb a a = true).
  { intros [a |]; simpl; [apply Nat.eqb_refl | reflexivity]. }
  induction o as [| [k0 v0] o IH]; simpl.
  - destruct (hourKey_eqb k k'); simpl; [reflexivity | split; reflexivity].
  - destruct (hourKey_eqb k0 k) eqn:E; simpl.
    + rewrite <- (T _ _ k' E). destruct (hourKey_eqb k0 k') eqn:E'; simpl.
      * lia.
      * destruct (hour_get o k'); [reflexivity | split; reflexivity].
    + destruct (hourKey_eqb k0 k') eqn:E'; simpl.
      * destruct (hourKey_eqb k k') eqn:E''; [| reflexivity].
        exfalso.
        assert (S : forall a b, hourKey_eqb a b = hourKey_eqb b a).
        { intros [a |] [b |]; simpl; try reflexivity. apply Nat.eqb_sym. }
        rewrite (T _ _ k E') in E. rewrite S in E. congruence.
      * exact IH.
Qed.

Lemma hour_fold_get (host : Host) (hour : nat) (comments : list AnalyzedComment.t) :
  forall o,
  let r := fold_left
             (fun acc c =>
                hour_add acc (hourOf host (AnalyzedComment.publishedAt c))
                  (AnalyzedComment.likeCount c)) comments o in
  match hour_get r (Some hour) with
  | Some v => fst v = match hour_get o (Some hour) with Some w => fst w | None => 0 end +
                      inHour host hour comments
  | None => hour_get o (Some hour) = None /\ inHour host hour comments = 0
  end.
Proof.
  unfold inHour, countIf.
  induction comments as [| c comments IH]; intros o; cbv zeta; simpl fold_left.
  - simpl. destruct (hour_get o (Some hour)); [lia | split; reflexivity].
  - specialize (IH (hour_add o (hourOf host (AnalyzedComment.publishedAt c))
                      (AnalyzedComment.likeCount c))).
    cbv zeta in IH.
    pose proof (hour_add_get o (hourOf host (AnalyzedComment.publishedAt c)) (Some hour)
                  (AnalyzedComment.likeCount c)) as A.
    simpl filter.
    destruct (hour_get (fold_left _ comments _) (Some hour)) as [v |].
    + destruct (hour_get (hour_add o _ _) (Some hour)) as [w |].
      * destruct (hourKey_eqb (hourOf host (AnalyzedComment.publishedAt c)) (Some hour));
          simpl List.length; lia.
      * destruct A as [A1 A2]. rewrite A1, A2. lia.
    + destruct IH as [I1 I2]. rewrite I1 in A. destruct A as [A1 A2].
      rewrite A1. split; [exact A2 | exact I2].
Qed.

(** X21. For a non-empty list of comments [engagementTrends] has one
    entry per hour 0 to 23, in this order, and the [comments] of an entry is
    the number of comments published in that hour; comments whose time
    stamp does not parse are counted in no entry. *)
Theorem generateMetrics_hourly_counts (host : Host)
  (comments : list AnalyzedComment.t) (videos : option (list AnalyzedVideo.t)) :
  comments <> [] ->
  let trends := AnalysisMetrics.engagementTrends (fst (generateMetrics host comments videos)) in
  map Trend.hour trends = seq 0 24 /\
  Forall (fun t => Trend.comments t = inHour host (Trend.hour t) comments) trends.
Proof.
  intros Hne. cbv zeta. unfold generateMetrics.
  destruct comments as [| c0 comments]; [contradiction |].
  change (Nat.eqb (List.length (c0 :: comments)) 0) with false. cbv iota zeta.
  destruct (videoMetricsOf videos) as [vm va].
  cbn [fst AnalysisMetrics.engagementTrends].
  unfold engagementTrendsOf. cbv zeta.
  set (hourlyData := fold_left _ (c0 :: comments) []).
  split.
  - rewrite map_map. rewrite <- (map_id (seq 0 24)) at 2.
    apply map_ext. intros hour.
    destruct (hour_get hourlyData (Some hour)) as [[n l] |]; reflexivity.
  - apply Forall_forall. intros t Ht. apply in_map_iff in Ht.
    destruct Ht as (hour & <- & _).
    pose proof (hour_fold_get host hour (c0 :: comments) []) as H.
    cbv zeta in H. fold hourlyData in H.
    destruct (hour_get hourlyData (Some hour)) as [[n l] |].
    + change (hour_get [] (Some hour)) with (@None (nat * number)) in H.
      cbv iota in H. cbn [Trend.comments Trend.hour fst] in *. lia.
    + cbn [Trend.comments Trend.hour]. destruct H as [_ H]. symmetry. exact H.
Qed.

Lemma generateMetrics_hourly_counts_witness :
  let comments := [sampleComment "skincare" "2024-03-01T10:00:00Z";
                   sampleComment "makeup" "2024-03-01T11:00:00Z";
                   sampleComment "skincare" "2024-03-02T10:30:00Z"] in
  comments <> [] /\
  let trends := AnalysisMetrics.engagementTrends (fst (generateMetrics refHost comments None)) in
  map Trend.hour trends = seq 0 24 /\
  Forall (fun t => Trend.comments t = inHour refHost (Trend.hour t) comments) trends.
Proof.
  intros comments. split; [discriminate |].
  apply (generateMetrics_hourly_counts refHost comments None). discriminate.
Defined.

Lemma videoMetricsOf_top (videos : list AnalyzedVideo.t) :
  videos <> [] ->
  exists m,
    fst (videoMetricsOf (Some videos)) = Some m /\
    VideoMetrics.topPerformingVideos m =
      map topVideoOf (firstn 5 (jsSort rateAfter videos)).
Proof.
  intros H. destruct videos as [| v vs]; [contradiction |].
  eexists. split; reflexivity.
Qed.

Lemma generateMetrics_videoMetricsOf (host : Host) (comments : list AnalyzedComment.t)
  (videos : option (list AnalyzedVideo.t)) :
  AnalysisMetrics.videoMetrics (fst (generateMetrics host comments videos)) =
  fst (videoMetricsOf videos).
Proof.
  unfold generateMetrics.
  destruct (Nat.eqb (List.length comments) 0);
    destruct (videoMetricsOf videos); reflexivity.
Qed.

(** X22. Called with a non-empty array of videos, [generateMetrics]
    reports as [topPerformingVideos] the first five records of the array as
    it leaves it, that is [min 5 n] entries for [n] videos; engagement rates
    being numbers, no video left out has a higher rate than a reported
    one. *)
Theorem generateMetrics_top_videos (host : Host)
  (comments : list AnalyzedComment.t) (videos : list AnalyzedVideo.t) :
  videos <> [] ->
  exists m after,
    AnalysisMetrics.videoMetrics (fst (generateMetrics host comments (Some videos))) =
      Some m /\
    snd (generateMetrics host comments (Some videos)) = Some after /\
    VideoMetrics.topPerformingVideos m = map topVideoOf (firstn 5 after) /\
    List.length (VideoMetrics.topPerformingVideos m) = Nat.min 5 (List.length videos) /\
    (Forall rateOk videos ->
     forall t v,
       In t (VideoMetrics.topPerformingVideos m) -> In v (skipn 5 after) ->
       num_leb (AnalyzedVideo.engagementRate v) (TopVideo.engagementRate t) = true).
Proof.
  intros H.
  destruct (videoMetricsOf_top videos H) as (m & Em & Et).
  exists m, (jsSort rateAfter videos).
  rewrite generateMetrics_videoMetricsOf, generateMetrics_after.
  split; [exact Em |]. split; [apply videoMetricsOf_after; exact H |].
  split; [exact Et |]. split.
  - rewrite Et, length_map, length_firstn.
    rewrite <- (Permutation_length (jsSort_perm rateAfter videos)). reflexivity.
  - intros Hok t v Ht Hv. rewrite Et in Ht. apply in_map_iff in Ht.
    destruct Ht as (a & <- & Ha). cbn [topVideoOf TopVideo.engagementRate].
    pose proof (rate_sort_sorted videos Hok) as Hs.
    rewrite <- (firstn_skipn 5 (jsSort rateAfter videos)) in Hs.
    exact (StronglySorted_app_le _ _ _ _ Hs a v Ha Hv).
Qed.

Lemma generateMetrics_top_videos_witness :
  let videos := [sampleAnalyzed "v1" 1; sampleAnalyzed "v2" 5; sampleAnalyzed "v3" 3;
                 sampleAnalyzed "v4" 2; sampleAnalyzed "v5" 7; sampleAnalyzed "v6" 4] in
  videos <> [] /\
  Forall rateOk videos /\
  exists m after,
    AnalysisMetrics.videoMetrics (fst (generateMetrics refHost [] (Some videos))) =
      Some m /\
    snd (generateMetrics refHost [] (Some videos)) = Some after /\
    VideoMetrics.topPerformingVideos m = map topVideoOf (firstn 5 after) /\
    List.length (VideoMetrics.topPerformingVideos m) = Nat.min 5 (List.length videos) /\
    forall t v,
      In t (VideoMetrics.topPerformingVideos m) -> In v (skipn 5 after) ->
      num_leb (AnalyzedVideo.engagementRate v) (TopVideo.engagementRate t) = true.
Proof.
  intros videos.
  assert (Hne : videos <> []) by discriminate.
  assert (Hok : Forall rateOk videos).
  { repeat constructor. }
  split; [exact Hne |]. split; [exact Hok |].
  destruct (generateMetrics_top_videos refHost [] videos Hne)
    as (m & after & E1 & E2 & E3 & E4 & H).
  exists m, after. repeat split; try assumption. exact (H Hok).
Defined.

Lemma sentiment_partition (comments : list AnalyzedComment.t) :
  countSentiment Sentiment.positive comments +
  countSentiment Sentiment.negative comments +
  countSentiment Sentiment.neutral comments = List.length comments.
Proof.
  unfold countSentiment.
  induction comments as [| c comments IH]; simpl; [reflexivity |].
  destruct (AnalyzedComment.sentiment c); simpl; lia.
Qed.

(** X23. For a non-empty list of comments the three sentiment shares are
    the percentages of three counts that add up to [totalComments], which is
    the number of comments, and [spamRatio] and [qualityRatio] are the
    percentages of the numbers of spam and of quality comments, neither
    above the total. *)
Theorem generateMetrics_shares (host : Host)
  (comments : list AnalyzedComment.t) (videos : option (list AnalyzedVideo.t)) :
  comments <> [] ->
  let m := fst (generateMetrics host comments videos) in
  let total := AnalysisMetrics.totalComments m in
  exists positives negatives neutrals spam quality,
    positives + negatives + neutrals = total /\
    total = List.length comments /\
    spam = countIf AnalyzedComment.isSpam comments /\
    quality = countIf AnalyzedComment.isQuality comments /\
    spam <= total /\ quality <= total /\
    AnalysisMetrics.sentimentDistribution m =
      {| SentimentDistribution.positive := percentage positives total;
         SentimentDistribution.negative := percentage negatives total;
         SentimentDistribution.neutral := percentage neutrals total |} /\
    AnalysisMetrics.spamRatio m = percentage spam total /\
    AnalysisMetrics.qualityRatio m = percentage quality total.
Proof.
  intros Hne. cbv zeta. unfold generateMetrics.
  destruct comments as [| c0 comments]; [contradiction |].
  change (Nat.eqb (List.length (c0 :: comments)) 0) with false. cbv iota zeta.
  destruct (videoMetricsOf videos) as [vm va].
  cbn [fst AnalysisMetrics.totalComments AnalysisMetrics.sentimentDistribution
       AnalysisMetrics.spamRatio AnalysisMetrics.qualityRatio].
  exists (countSentiment Sentiment.positive (c0 :: comments)),
         (countSentiment Sentiment.negative (c0 :: comments)),
         (countSentiment Sentiment.neutral (c0 :: comments)),
         (countIf AnalyzedComment.isSpam (c0 :: comments)),
         (countIf AnalyzedComment.isQuality (c0 :: comments)).
  split; [apply sentiment_partition |].
  split; [reflexivity |]. split; [reflexivity |]. split; [reflexivity |].
  split; [apply filter_length_le |]. split; [apply filter_length_le |].
  repeat split.
Qed.

Lemma generateMetrics_shares_witness :
  let comments := [sampleComment "skincare" "2024-03-01T10:00:00Z";
                   sampleComment "makeup" "2024-03-01T11:00:00Z"] in
  comments <> [] /\
  let m := fst (generateMetrics refHost comments None) in
  let total := AnalysisMetrics.totalComments m in
  exists positives negatives neutrals spam quality,
    positives + negatives + neutrals = total /\
    total = List.length comments /\
    spam = countIf AnalyzedComment.isSpam comments /\
    quality = countIf AnalyzedComment.isQuality comments /\
    spam <= total /\ quality <= total /\
    AnalysisMetrics.sentimentDistribution m =
      {| SentimentDistribution.positive := percentage positives total;
         SentimentDistribution.negative := percentage negatives total;
         SentimentDistribution.neutral := percentage neutrals total |} /\
    AnalysisMetrics.spamRatio m = percentage spam total /\
    AnalysisMetrics.qualityRatio m = percentage quality total.
Proof.
  intros comments. split; [discriminate |].
  apply (generateMetrics_shares refHost comments None). discriminate.
Defined.

Lemma splitRuns_fields (p : N -> bool) (s : jsstring) :
  Forall (Forall (fun c => In c s /\ p c = false)) (splitRuns p s).
Proof.
  induction s as [| c s IH]; simpl.
  - repeat constructor.
  - assert (W : Forall (Forall (fun d => (c = d \/ In d s) /\ p d = false))
                  (splitRuns p s)).
    { apply Forall_impl with (2 := IH). intros f Hf.
      apply Forall_impl with (2 := Hf). intros d [H1 H2]. tauto. }
    destruct (p c) eqn:E.
    + destruct s as [| d s']; [constructor; [constructor | exact W] |].
      destruct (p d); [exact W | constructor; [constructor | exact W]].
    + destruct (splitRuns p s) as [| l ls].
      * repeat constructor. exact E.
      * inversion W as [| ? ? Wl Wls]; subst.
        constructor; [| exact Wls]. constructor; [| exact Wl]. split; [left; reflexivity | exact E].
Qed.

Lemma dropWhile_all (A : Type) (p : A -> bool) (l : list A) :
  Forall (fun x => p x = true) l -> dropWhile p l = [].
Proof. induction 1 as [| x l Hx _ IH]; simpl; [reflexivity |]. rewrite Hx. exact IH. Qed.

Lemma trim_blank (s : jsstring) :
  Forall (fun c => isWhiteSpace c = true) s -> trim s = [].
Proof.
  intros H. unfold trim, trimStart, trimEnd. rewrite (dropWhile_all _ _ _ H). reflexivity.
Qed.

Lemma sentencesOf_wordless (text : jsstring) : wordless text -> sentencesOf text = [].
Proof.
  unfold wordless, sentencesOf. intros H.
  pose proof (splitRuns_fields isSentenceEnd text) as F.
  induction F as [| f fs Hf _ IH]; simpl; [reflexivity |].
  rewrite trim_blank; [exact IH |].
  apply Forall_impl with (2 := Hf). intros c [Hc Hs].
  rewrite Forall_forall in H. specialize (H c Hc). rewrite Hs, orb_false_r in H. exact H.
Qed.

(** X24. A text of white space and sentence marks ([.], [!], [?]) only
    has no sentence, and [calculateReadability] returns 0 for it; the empty
    text is one such. *)
Theorem calculateReadability_wordless (host : Host) (text : jsstring) :
  wordless text -> calculateReadability host text = zero.
Proof.
  intros H. unfold calculateReadability. cbv zeta.
  rewrite (sentencesOf_wordless text H). reflexivity.
Qed.

Lemma calculateReadability_wordless_witness :
  wordless (lit " ... ?! ") /\ calculateReadability refHost (lit " ... ?! ") = zero.
Proof.
  assert (H : wordless (lit " ... ?! ")) by (repeat constructor).
  split; [exact H |].
  apply (calculateReadability_wordless refHost (lit " ... ?! ")). exact H.
Defined.

Lemma collapseVowels_length (s : jsstring) : forall inRun,
  List.length (collapseVowels inRun s) <= List.length s.
Proof.
  induction s as [| c s IH]; intros inRun; simpl; [lia |].
  destruct (isVowel c); [destruct inRun |]; simpl;
    try (specialize (IH true); lia); specialize (IH false); lia.
Qed.

Lemma dropFinalA_length (s : jsstring) : List.length (dropFinalA s) <= List.length s.
Proof.
  unfold dropFinalA. destruct (rev s) as [| c r] eqn:E; [lia |].
  assert (L : List.length s = S (List.length r))
    by (rewrite <- length_rev, E; reflexivity).
  destruct c as [| p]; [lia |].
  destruct (Pos.eq_dec p 97) as [-> | D].
  - rewrite length_rev. lia.
  - repeat (destruct p as [p | p |]; try lia).
Qed.

(** X25. [countSyllables] is at least 1, and at most the number of
    letters [a] to [z] of the lower-cased text when there is one. *)
Theorem countSyllables_bounds (host : Host) (text : jsstring) :
  1 <= countSyllables host text <=
  Nat.max 1 (countIf (in_range 97 122) (toLowerCase host text)).
Proof.
  unfold countSyllables, countIf. cbv zeta.
  pose proof (dropFinalA_length
                (collapseVowels false (filter (in_range 97 122) (toLowerCase host text))))
    as H1.
  pose proof (collapseVowels_length (filter (in_range 97 122) (toLowerCase host text)) false)
    as H2.
  destruct (List.length (dropFinalA _)); lia.
Qed.

Lemma filter_filter_and (A : Type) (g h : A -> bool) (l : list A) :
  filter h (filter g l) = filter (fun x => g x && h x) l.
Proof.
  induction l as [| x l IH]; simpl; [reflexivity |].
  destruct (g x); simpl; [destruct (h x) |]; rewrite IH; reflexivity.
Qed.

Lemma filter_all (A : Type) (p : A -> bool) (l : list A) :
  (forall x, p x = true) -> filter p l = l.
Proof.
  intros H. induction l as [| x l IH]; simpl; [reflexivity |].
  rewrite H, IH. reflexivity.
Qed.

Ltac filter_case x :=
  cbn [searchTerm selectedCategory selectedSentiment selectedSpamFilter
       selectedQualityFilter];
  cbv zeta;
  repeat match goal with
  | |- context [str_eqb (lit ?a) (lit ?b)] =>
      let v := eval vm_compute in (str_eqb (lit a) (lit b)) in
      change (str_eqb (lit a) (lit b)) with v
  end;
  change (str_eqb [] []) with true;
  cbv iota; cbn [orb];
  match goal with
  | |- ?b1 && ?b2 && ?b3 && _ && _ = _ =>
      generalize b1; generalize b2; generalize b3;
      repeat match goal with
      | |- context [str_eqb ?x ?y] => generalize (str_eqb x y)
      end;
      generalize (AnalyzedComment.isSpam x); generalize (AnalyzedComment.isQuality x);
      intros; repeat match goal with b : bool |- _ => destruct b end; reflexivity
  end.

(** X26. [filteredComments]: with an empty search box and every selector
    on [all] every comment is shown; and whatever the other settings, the
    selection [spam] shows exactly the spam comments of what [all] shows and
    [clean] exactly the others, and likewise [quality] and [low-quality]
    for the quality selector. *)
Theorem filteredComments_selectors (host : Host)
  (search category sentiment spam quality : jsstring)
  (analyzedComments : list AnalyzedComment.t) :
  let shown sp q :=
    filteredComments host (selecting search category sentiment sp q) analyzedComments in
  filteredComments host (selecting [] (lit "all") (lit "all") (lit "all") (lit "all"))
    analyzedComments = analyzedComments /\
  shown (lit "spam") quality = filter AnalyzedComment.isSpam (shown (lit "all") quality) /\
  shown (lit "clean") quality =
    filter (fun c => negb (AnalyzedComment.isSpam c)) (shown (lit "all") quality) /\
  shown spam (lit "quality") =
    filter AnalyzedComment.isQuality (shown spam (lit "all")) /\
  shown spam (lit "low-quality") =
    filter (fun c => negb (AnalyzedComment.isQuality c)) (shown spam (lit "all")).
Proof.
  cbv zeta. unfold filteredComments.
  split; [apply filter_all; intros c; unfold matchesFilters, selecting; filter_case c |].
  rewrite !filter_filter_and.
  repeat split; apply filter_ext; intros c; unfold matchesFilters, selecting; filter_case c.
Qed.

(** X27. [categoryKeywords] gives one card per category, in the order
    skincare, fragrance, makeup, haircare, general; the [totalComments] of a
    card is the number of comments of its category, it lists at most 10
    keywords, and a card without comments has both averages 0 and no
    keyword. *)
Theorem categoryKeywords_cards (analyzedComments : list AnalyzedComment.t) :
  map CategoryCard.category (categoryKeywords analyzedComments) = cardCategories /\
  Forall (fun card =>
            CategoryCard.totalComments card =
              inCategory (CategoryCard.category card) analyzedComments /\
            List.length (CategoryCard.keywords card) <= 10 /\
            (CategoryCard.totalComments card = 0 ->
             CategoryCard.avgQuality card = zero /\
             CategoryCard.avgSentiment card = zero /\
             CategoryCard.keywords card = []))
    (categoryKeywords analyzedComments).
Proof.
  unfold categoryKeywords. split.
  - rewrite map_map. apply map_id.
  - apply Forall_forall. intros card H. apply in_map_iff in H.
    destruct H as (cat & <- & _). unfold categoryCard. cbv zeta.
    cbn [CategoryCard.totalComments CategoryCard.category CategoryCard.keywords
         CategoryCard.avgQuality CategoryCard.avgSentiment].
    split; [reflexivity |]. split; [apply firstn_le_length |].
    intros Z. rewrite Z. apply length_zero_iff_nil in Z. rewrite Z.
    repeat split.
Qed.

Lemma categoryKeywords_cards_witness :
  let comments := [sampleComment "skincare" "2024-03-01T10:00:00Z";
                   sampleComment "makeup" "2024-03-01T11:00:00Z"] in
  map CategoryCard.category (categoryKeywords comments) = cardCategories /\
  map CategoryCard.totalComments (categoryKeywords comments) = [1; 0; 1; 0; 0] /\
  Forall (fun card =>
            CategoryCard.totalComments card =
              inCategory (CategoryCard.category card) comments /\
            List.length (CategoryCard.keywords card) <= 10 /\
            (CategoryCard.totalComments card = 0 ->
             CategoryCard.avgQuality card = zero /\
             CategoryCard.avgSentiment card = zero /\
             CategoryCard.keywords card = []))
    (categoryKeywords comments).
Proof.
  intros comments.
  destruct (categoryKeywords_cards comments) as [H1 H2].
  split; [exact H1 |]. split; [reflexivity | exact H2].
Defined.

Lemma inCategory_cons (k : jsstring) (c : AnalyzedComment.t)
  (comments : list AnalyzedComment.t) :
  inCategory k (c :: comments) =
  (if str_eqb (AnalyzedComment.category c) k then 1 else 0) + inCategory k comments.
Proof.
  unfold inCategory, countIf. simpl.
  destruct (str_eqb (AnalyzedComment.category c) k); reflexivity.
Qed.

(** X28. When every comment has one of the five categories (as every
    result of [analyzeComment] has), the [totalComments] of the five cards
    add up to the number of comments: each comment is counted on exactly one
    card. *)
Theorem categoryKeywords_totals (analyzedComments : list AnalyzedComment.t) :
  Forall (fun c => In (AnalyzedComment.category c) knownCategories) analyzedComments ->
  list_sum (map CategoryCard.totalComments (categoryKeywords analyzedComments)) =
  List.length analyzedComments.
Proof.
  intros H.
  assert (E : map CategoryCard.totalComments (categoryKeywords analyzedComments) =
              map (fun k => inCategory k analyzedComments) cardCategories).
  { unfold categoryKeywords. rewrite map_map. reflexivity. }
  rewrite E. clear E.
  induction H as [| c comments Hc _ IH]; [reflexivity |].
  cbv [cardCategories] in IH |- *. cbn [map] in IH |- *.
  rewrite !inCategory_cons. cbn [List.length].
  assert (K : forall k, In k knownCategories ->
                (if str_eqb k (lit "skincare") then 1 else 0) +
                (if str_eqb k (lit "fragrance") then 1 else 0) +
                (if str_eqb k (lit "makeup") then 1 else 0) +
                (if str_eqb k (lit "haircare") then 1 else 0) +
                (if str_eqb k (lit "general") then 1 else 0) = 1).
  { intros k Hk. cbv [knownCategories CATEGORY_KEYWORDS map fst] in Hk.
    simpl In in Hk.
    repeat (destruct Hk as [<- | Hk]; [vm_compute; reflexivity |]).
    contradiction. }
  pose proof (K _ Hc) as Kc. unfold list_sum in *. cbn [fold_right] in *. lia.
Qed.

Lemma categoryKeywords_totals_witness :
  let comments := [sampleComment "skincare" "2024-03-01T10:00:00Z";
                   sampleComment "general" "2024-03-01T11:00:00Z";
                   sampleComment "skincare" "2024-03-02T10:30:00Z"] in
  Forall (fun c => In (AnalyzedComment.category c) knownCategories) comments /\
  list_sum (map CategoryCard.totalComments (categoryKeywords comments)) =
  List.length comments.
Proof.
  intros comments.
  assert (H : Forall (fun c => In (AnalyzedComment.category c) knownCategories) comments).
  { repeat constructor; vm_compute; tauto. }
  split; [exact H |]. exact (categoryKeywords_totals comments H).
Defined.
